(** * Pad-i: the response-interpretation and knowledge-retrieval core

    A shallow embedding of [internal/llm] ([SearchKnowledge],
    [ProcessMessage]), of the message endpoint of [internal/api]
    ([HandleMessage]) and of the store operations of [internal/db] they
    call, together with the properties the specification states about
    them.

    Go strings are byte sequences: they are [string]s whose characters are
    the bytes.  [int64] values are in [Z], [float64] values are the
    kernel's binary64 floats, and [time.Time] values are seconds in [Z].
    A function that returns [(value, error)] returns both here, the
    [error] as an optional message; a function on the store or on the
    service takes the state and returns the new one; a run-time panic is
    an outcome of its own.

    The world outside the program is a pair of oracles: the SQLite engine
    answers each statement with success and the time, or with an error,
    and the completion provider answers each prompt with a text or an
    error.  The deadline of the completion call is therefore one of the
    errors of the provider.  What the program prints with [fmt.Printf] is
    not modelled.

    The libraries are modelled after their documentation
    ([strings], [strconv], [encoding/json], [sort]); the core takes the
    ones whose behaviour is not modelled in full ([strconv.ParseFloat],
    [json.Unmarshal], [sort.Slice], the full-text match of SQLite) as
    parameters, and the properties hold for every value of them.  The
    store follows the first of the two copies of the [db] package in
    [internal/db/sqlite.go]; the copies have the same [DeleteConversation],
    [SaveMessage] and [GetConversationHistory]. *)

From Stdlib Require Import List String Ascii ZArith NArith Bool Lia.
From Stdlib Require Import Permutation.
From Stdlib Require Import Floats DecimalString.
Import ListNotations.
Open Scope string_scope.

Set Implicit Arguments.

(** ** The [strings] package, on byte strings *)

Module GoStrings.

Definition bytes (s : string) : list ascii := list_ascii_of_string s.
Definition of_bytes (l : list ascii) : string := string_of_list_ascii l.

(** [strings.HasPrefix(s, p)] *)
Definition HasPrefix (s p : string) : bool := String.prefix p s.

(** [strings.HasSuffix(s, p)]:
    [len(s) >= len(p) && s[len(s)-len(p):] == p] *)
Definition HasSuffix (s p : string) : bool :=
  let n := String.length s in
  let m := String.length p in
  (m <=? n)%nat && String.eqb (substring (n - m) m s) p.

(** The slice expression [s[lo:hi]] on a string.  The indices of the
    source are [int]s; the expression panics at run time unless
    [0 <= lo <= hi <= len(s)], which is [None] here. *)
Definition slice (s : string) (lo hi : Z) : option string :=
  if ((0 <=? lo) && (lo <=? hi) && (hi <=? Z.of_nat (String.length s)))%Z
  then Some (substring (Z.to_nat lo) (Z.to_nat (hi - lo)) s)
  else None.

(** The white space of [unicode.IsSpace] in its UTF-8 encoding: the six
    ASCII characters tab, line feed, vertical tab, form feed, carriage
    return and space ... *)
Definition ascii_space (c : ascii) : bool :=
  let n := nat_of_ascii c in
  ((9 <=? n) && (n <=? 13) || (n =? 32))%nat.

(** ... U+0085 and U+00A0, encoded on two bytes ... *)
Definition space2 (c1 c2 : ascii) : bool :=
  ((nat_of_ascii c1 =? 194) &&
   ((nat_of_ascii c2 =? 133) || (nat_of_ascii c2 =? 160)))%nat.

(** ... and U+1680, U+2000 to U+200A, U+2028, U+2029, U+202F, U+205F and
    U+3000, encoded on three bytes. *)
Definition space3 (c1 c2 c3 : ascii) : bool :=
  let a := nat_of_ascii c1 in
  let b := nat_of_ascii c2 in
  let c := nat_of_ascii c3 in
  ((a =? 225) && (b =? 154) && (c =? 128)
   || (a =? 226) && (b =? 128) &&
      ((128 <=? c) && (c <=? 138) || (c =? 168) || (c =? 169) || (c =? 175))
   || (a =? 226) && (b =? 129) && (c =? 159)
   || (a =? 227) && (b =? 128) && (c =? 128))%nat.

(** [strings.TrimLeftFunc(s, unicode.IsSpace)]: runes are decoded from
    the front and dropped while they are white space.  A decoded rune is
    white space exactly when the bytes at the front are one of the
    encodings above (the decoder accepts shortest encodings only, and an
    ill-formed byte decodes to U+FFFD, which is not white space). *)
Fixpoint trim_left (l : list ascii) : list ascii :=
  match l with
  | c1 :: l1 =>
      if ascii_space c1 then trim_left l1
      else match l1 with
           | c2 :: l2 =>
               if space2 c1 c2 then trim_left l2
               else match l2 with
                    | c3 :: l3 => if space3 c1 c2 c3 then trim_left l3 else l
                    | [] => l
                    end
           | [] => l
           end
  | [] => []
  end.

(** [strings.TrimRightFunc(s, unicode.IsSpace)], on the reversed bytes:
    [utf8.DecodeLastRuneInString] steps back to the nearest lead byte,
    so the last rune is white space exactly when the bytes at the end
    are one of the encodings. *)
Fixpoint trim_right_rev (l : list ascii) : list ascii :=
  match l with
  | c1 :: l1 =>
      if ascii_space c1 then trim_right_rev l1
      else match l1 with
           | c2 :: l2 =>
               if space2 c2 c1 then trim_right_rev l2
               else match l2 with
                    | c3 :: l3 =>
                        if space3 c3 c2 c1 then trim_right_rev l3 else l
                    | [] => l
                    end
           | [] => l
           end
  | [] => []
  end.

(** [strings.TrimSpace(s)].  The library skips ASCII white space at both
    ends first and falls back to [TrimFunc] (left, then right) at the
    first byte that is not ASCII; both paths remove the same bytes. *)
Definition TrimSpace (s : string) : string :=
  of_bytes (rev (trim_right_rev (rev (trim_left (bytes s))))).

End GoStrings.
Import GoStrings.

(** The one-character string holding a double quote. *)
Definition dquote : string := String (ascii_of_nat 34) EmptyString.

(** [error] values are their messages; [nil] is [None]. *)
Definition error : Type := string.

(** ** Numbers: [float64], [strconv.ParseFloat] and the [%.2f] verb *)

Module strconv.

Local Open Scope Z_scope.

Definition float64 : Type := float.

Definition is_digit (c : ascii) : bool :=
  let n := nat_of_ascii c in ((48 <=? n) && (n <=? 57))%nat.

Definition digit_val (c : ascii) : Z := Z.of_nat (nat_of_ascii c) - 48.

Definition lower (c : ascii) : ascii :=
  let n := nat_of_ascii c in
  if ((65 <=? n) && (n <=? 90))%nat then ascii_of_nat (n + 32) else c.

(** Reads a run of decimal digits: their value, their number, and the
    rest of the input. *)
Fixpoint read_digits (l : list ascii) (acc : Z) (n : Z)
  : Z * Z * list ascii :=
  match l with
  | c :: r => if is_digit c then read_digits r (10 * acc + digit_val c) (n + 1)
              else (acc, n, l)
  | [] => (acc, n, [])
  end.

(** An optional sign: whether it is a minus, and the rest. *)
Definition read_sign (l : list ascii) : bool * list ascii :=
  match l with
  | c :: r => if Ascii.eqb c "+" then (false, r)
              else if Ascii.eqb c "-" then (true, r) else (false, l)
  | [] => (false, l)
  end.

(** Rounds the positive rational [num / den] to the nearest binary64
    value, ties to even: the result is [(q, e)] for the value
    [q * 2^e], with [q <= 2^53] and [e >= -1074]. *)
Definition round_binary64 (num den : Z) : Z * Z :=
  let e0 := Z.log2 num - Z.log2 den - 53 in
  let quot (e : Z) : Z * Z * Z :=
    let n := if e <? 0 then num * 2 ^ (- e) else num in
    let d := if e <? 0 then den else den * 2 ^ e in
    (n / d, n mod d, d) in
  let e1 := match quot e0 with
            | (q, _, _) => if 2 ^ 53 <=? q then e0 + 1 else e0
            end in
  let e := Z.max e1 (-1074) in
  match quot e with
  | (q, r, d) =>
      let up := (d <? 2 * r) || ((d =? 2 * r) && Z.odd q) in
      ((if up then q + 1 else q), e)
  end.

Definition signed (neg : bool) (f : float64) : float64 :=
  if neg then PrimFloat.opp f else f.

Definition ErrSyntax (s : string) : error :=
  ("strconv.ParseFloat: parsing " ++ dquote ++ s ++ dquote
     ++ ": invalid syntax")%string.
Definition ErrRange (s : string) : error :=
  ("strconv.ParseFloat: parsing " ++ dquote ++ s ++ dquote
     ++ ": value out of range")%string.

(** The decimal value [(-1)^neg * m * 10^e10] rounded as the library
    rounds it (nearest, ties to even).  A value that rounds beyond the
    largest float64 is an infinity with a range error, and one below
    half the least positive float64 is a zero, as in the library; the
    first two tests settle the exponents for which that is plain from
    the size of [m], so that no huge power is computed. *)
Definition decimal_to_float (s : string) (neg : bool) (m e10 : Z)
  : float64 * option error :=
  if m =? 0 then (signed neg PrimFloat.zero, None)
  else if (0 <=? e10) && (1030 <? Z.log2 m + 3 * e10)
  then (signed neg PrimFloat.infinity, Some (ErrRange s))
  else if (e10 <? 0) && (Z.log2 m + 1 + 3 * e10 <? -1080)
  then (signed neg PrimFloat.zero, None)
  else
    let num := if e10 <? 0 then m else m * 10 ^ e10 in
    let den := if e10 <? 0 then 10 ^ (- e10) else 1 in
    match round_binary64 num den with
    | (q, e) =>
        if (0 <=? e) && (2 ^ 1024 <=? q * 2 ^ e)
        then (signed neg PrimFloat.infinity, Some (ErrRange s))
        else (signed neg (Z.ldexp (PrimFloat.of_uint63 (Uint63.of_Z q)) e),
              None)
    end.

(** The names of the infinities and of not-a-number, matched without
    regard to case ([special] in the library); a sign is allowed
    before the former only. *)
Definition special (l : list ascii) : option float64 :=
  let low := of_bytes (map lower l) in
  if String.eqb low "nan" then Some PrimFloat.nan
  else if String.eqb low "inf" || String.eqb low "infinity"
          || String.eqb low "+inf" || String.eqb low "+infinity"
  then Some PrimFloat.infinity
  else if String.eqb low "-inf" || String.eqb low "-infinity"
  then Some PrimFloat.neg_infinity
  else None.

(** [strconv.ParseFloat(s, 64)] on decimal literals
    ([[+-] digits [. digits] [(e|E) [+-] digits]], with a digit on at
    least one side of the point) and on the special names.  The library
    also accepts hexadecimal mantissas and underscores between digits;
    this model reports a syntax error on them, and the properties of the
    retriever are stated for an arbitrary parsing function. *)
Definition ParseFloat (s : string) : float64 * option error :=
  let l := bytes s in
  match special l with
  | Some f => (f, None)
  | None =>
      let '(neg, l1) := read_sign l in
      let '(ip, ni, l2) := read_digits l1 0 0 in
      let '(m, nfrac, l3) :=
        match l2 with
        | c :: r => if Ascii.eqb c "." then read_digits r ip 0
                    else (ip, 0, l2)
        | [] => (ip, 0, l2)
        end in
      if ni + nfrac =? 0 then (PrimFloat.zero, Some (ErrSyntax s))
      else
        match l3 with
        | [] => decimal_to_float s neg m (- nfrac)
        | c :: r =>
            if Ascii.eqb (lower c) "e" then
              let '(eneg, r1) := read_sign r in
              match read_digits r1 0 0 with
              | (ev, ne, []) =>
                  if ne =? 0 then (PrimFloat.zero, Some (ErrSyntax s))
                  else
                    let ev := Z.min ev 10000 in
                    decimal_to_float s neg m
                      ((if eneg then - ev else ev) - nfrac)
              | _ => (PrimFloat.zero, Some (ErrSyntax s))
              end
            else (PrimFloat.zero, Some (ErrSyntax s))
        end
  end.

(** The decimal digits of a natural number. *)
Definition itoa (n : Z) : string :=
  DecimalString.NilZero.string_of_uint (N.to_uint (Z.to_N n)).

(** [fmt.Sprintf("%.2f", f)]: the exact value of [f] rounded to two
    decimals, ties to even, and the names the verb prints for the
    values that are not numbers. *)
Definition FormatFloat2 (f : float64) : string :=
  let render (neg : bool) (hundredths : Z) : string :=
    let frac := hundredths mod 100 in
    ((if neg then "-" else EmptyString) ++ itoa (hundredths / 100)%Z ++ "."
      ++ (if (frac <? 10)%Z then "0" else EmptyString) ++ itoa frac)%string in
  match Prim2SF f with
  | S754_nan => "NaN"%string
  | S754_infinity neg => if neg then "-Inf"%string else "+Inf"%string
  | S754_zero neg => render neg 0
  | S754_finite neg m e =>
      let n := if e <? 0 then Z.pos m * 100 else Z.pos m * 100 * 2 ^ e in
      let d := if e <? 0 then 2 ^ (- e) else 1 in
      let q := n / d in
      let r := n mod d in
      let up := (d <? 2 * r) || ((d =? 2 * r) && Z.odd q) in
      render neg (if up then q + 1 else q)
  end.

End strconv.

(** ** The [encoding/json] decoder *)

Module json.

(** A decoded document.  The members of an object are kept in the order
    of the text, duplicates included: the decoder applies them in that
    order. *)
#[local] Set Warnings "-register-all".
Inductive value : Type :=
| Null
| Bool (b : bool)
| Number (literal : string)
| Str (s : string)
| Array (elements : list value)
| Object (members : list (string * value)).

Definition code (c : ascii) : nat := nat_of_ascii c.

Definition is_ws (c : ascii) : bool :=
  ((code c =? 32) || (code c =? 9) || (code c =? 13) || (code c =? 10))%nat.

Fixpoint skip_ws (l : list ascii) : list ascii :=
  match l with
  | c :: r => if is_ws c then skip_ws r else l
  | [] => []
  end.

Definition hex_val (c : ascii) : option Z :=
  let n := code c in
  if ((48 <=? n) && (n <=? 57))%nat then Some (Z.of_nat n - 48)%Z
  else if ((97 <=? n) && (n <=? 102))%nat then Some (Z.of_nat n - 87)%Z
  else if ((65 <=? n) && (n <=? 70))%nat then Some (Z.of_nat n - 55)%Z
  else None.

(** [getu4]: the code unit of [\uXXXX], given what follows the
    backslash. *)
Definition getu4 (l : list ascii) : option Z :=
  match l with
  | u :: h1 :: h2 :: h3 :: h4 :: _ =>
      if Ascii.eqb u "u" then
        match hex_val h1, hex_val h2, hex_val h3, hex_val h4 with
        | Some a, Some b, Some c, Some d =>
            Some (((a * 16 + b) * 16 + c) * 16 + d)%Z
        | _, _, _, _ => None
        end
      else None
  | _ => None
  end.

Definition zbyte (z : Z) : ascii := ascii_of_nat (Z.to_nat z).

(** [utf8.EncodeRune] *)
Definition utf8_encode (r : Z) : list ascii :=
  (if r <? 128 then [zbyte r]
   else if r <? 2048 then [zbyte (192 + r / 64); zbyte (128 + r mod 64)]
   else if r <? 65536 then
     [zbyte (224 + r / 4096); zbyte (128 + (r / 64) mod 64);
      zbyte (128 + r mod 64)]
   else
     [zbyte (240 + r / 262144); zbyte (128 + (r / 4096) mod 64);
      zbyte (128 + (r / 64) mod 64); zbyte (128 + r mod 64)])%Z.

Definition replacement : list ascii := utf8_encode 65533.

Definition cont (c : ascii) : bool := ((128 <=? code c) && (code c <=? 191))%nat.

(** The width of the well-formed UTF-8 sequence at the front of the
    input ([utf8.DecodeRune]), or [None] where the decoder yields
    U+FFFD of width one. *)
Definition utf8_width (l : list ascii) : option nat :=
  match l with
  | c1 :: r1 =>
      let a := code c1 in
      if (a <? 128)%nat then Some 1%nat
      else match r1 with
           | c2 :: r2 =>
               let b := code c2 in
               if ((194 <=? a) && (a <=? 223))%nat then
                 if cont c2 then Some 2%nat else None
               else match r2 with
                    | c3 :: r3 =>
                        if ((a =? 224) && (160 <=? b) && (b <=? 191)
                            || ((225 <=? a) && (a <=? 236) || (238 <=? a) && (a <=? 239))
                               && cont c2
                            || (a =? 237) && (128 <=? b) && (b <=? 159))%nat
                        then if cont c3 then Some 3%nat else None
                        else match r3 with
                             | c4 :: _ =>
                                 if ((a =? 240) && (144 <=? b) && (b <=? 191)
                                     || (241 <=? a) && (a <=? 243) && cont c2
                                     || (a =? 244) && (128 <=? b) && (b <=? 143))%nat
                                 then if cont c3 && cont c4 then Some 4%nat else None
                                 else None
                             | [] => None
                             end
                    | [] => None
                    end
           | [] => None
           end
  | [] => None
  end.

Definition simple_escape (c : ascii) : option ascii :=
  let n := code c in
  if ((n =? 34) || (n =? 92) || (n =? 47))%nat then Some c
  else if (n =? 98)%nat then Some (ascii_of_nat 8)
  else if (n =? 102)%nat then Some (ascii_of_nat 12)
  else if (n =? 110)%nat then Some (ascii_of_nat 10)
  else if (n =? 114)%nat then Some (ascii_of_nat 13)
  else if (n =? 116)%nat then Some (ascii_of_nat 9)
  else None.

(** The body of a string literal, after its opening quote: the decoded
    bytes ([unquote]) and what follows the closing quote.  Control
    characters are refused; an escaped surrogate pair is one rune, a lone
    surrogate and every ill-formed byte is U+FFFD. *)
Fixpoint read_string (l : list ascii) (acc : list ascii)
  : option (string * list ascii) :=
  match l with
  | [] => None
  | c :: r =>
      if (code c =? 34)%nat then Some (of_bytes (rev acc), r)
      else if (code c <? 32)%nat then None
      else if (code c =? 92)%nat then
        match r with
        | [] => None
        | e :: r1 =>
            match simple_escape e with
            | Some b => read_string r1 (b :: acc)
            | None =>
                match getu4 r, r1 with
                | Some u, _ :: _ :: _ :: _ :: r5 =>
                    if ((55296 <=? u) && (u <? 57344))%Z then
                      match r5 with
                      | bs :: r6 =>
                          match getu4 r6, r6 with
                          | Some u2, _ :: _ :: _ :: _ :: _ :: r11 =>
                              if ((code bs =? 92)%nat && (u <? 56320)
                                  && (56320 <=? u2) && (u2 <? 57344))%Z
                              then read_string r11
                                     (rev (utf8_encode
                                             ((u - 55296) * 1024 + (u2 - 56320)
                                              + 65536)%Z) ++ acc)
                              else read_string r5 (rev replacement ++ acc)
                          | _, _ => read_string r5 (rev replacement ++ acc)
                          end
                      | [] => read_string r5 (rev replacement ++ acc)
                      end
                    else read_string r5 (rev (utf8_encode u) ++ acc)
                | _, _ => None
                end
            end
        end
      else
        match utf8_width l, r with
        | Some 2%nat, c2 :: r2 => read_string r2 (c2 :: c :: acc)
        | Some 3%nat, c2 :: c3 :: r3 => read_string r3 (c3 :: c2 :: c :: acc)
        | Some 4%nat, c2 :: c3 :: c4 :: r4 =>
            read_string r4 (c4 :: c3 :: c2 :: c :: acc)
        | Some _, _ => read_string r (c :: acc)
        | None, _ => read_string r (rev replacement ++ acc)
        end
  end.

Fixpoint span_digits (l : list ascii) (acc : list ascii)
  : list ascii * list ascii :=
  match l with
  | c :: r => if strconv.is_digit c then span_digits r (c :: acc) else (acc, l)
  | [] => (acc, [])
  end.

(** A number literal: an optional minus sign; a zero, or digits that do
    not start with a zero; optionally a point and digits; optionally an
    exponent mark, a sign and digits.  The literal read and the rest of
    the input. *)
Definition read_number (l : list ascii) : option (string * list ascii) :=
  let '(a0, l0) :=
    match l with
    | c :: r => if Ascii.eqb c "-" then ([c], r) else ([], l)
    | [] => ([], l)
    end in
  match l0 with
  | d :: r =>
      if strconv.is_digit d then
        let '(a1, l1) :=
          if Ascii.eqb d "0" then (d :: a0, r) else span_digits r (d :: a0) in
        let frac :=
          match l1 with
          | p :: f :: r' =>
              if Ascii.eqb p "." then
                if strconv.is_digit f then Some (span_digits r' (f :: p :: a1))
                else None
              else Some (a1, l1)
          | [p] => if Ascii.eqb p "." then None else Some (a1, l1)
          | [] => Some (a1, l1)
          end in
        match frac with
        | None => None
        | Some (a2, l2) =>
            match l2 with
            | e :: r' =>
                if Ascii.eqb (strconv.lower e) "e" then
                  let '(a3, l3) :=
                    match r' with
                    | s :: r'' =>
                        if Ascii.eqb s "+" || Ascii.eqb s "-"
                        then (s :: e :: a2, r'') else (e :: a2, r')
                    | [] => (e :: a2, r')
                    end in
                  match l3 with
                  | x :: r'' =>
                      if strconv.is_digit x then
                        let '(a4, l4) := span_digits r'' (x :: a3) in
                        Some (of_bytes (rev a4), l4)
                      else None
                  | [] => None
                  end
                else Some (of_bytes (rev a2), l2)
            | [] => Some (of_bytes (rev a2), l2)
            end
        end
      else None
  | [] => None
  end.

(** Drops the bytes of [word] from the front of the input. *)
Fixpoint expect (word : list ascii) (l : list ascii) : option (list ascii) :=
  match word, l with
  | [], _ => Some l
  | w :: word', c :: r => if Ascii.eqb w c then expect word' r else None
  | _ :: _, [] => None
  end.

(** The scanner refuses a document nested deeper than this. *)
Definition maxNestingDepth : N := 10000.

(** One value, with white space allowed before it.  [fuel] bounds the
    chain of calls, which is at most twice the number of bytes read. *)
Fixpoint parse_value (fuel : nat) (depth : N) (l : list ascii)
  : option (value * list ascii) :=
  match fuel with
  | O => None
  | S fuel' =>
      match skip_ws l with
      | [] => None
      | c :: r =>
          if Ascii.eqb c "{" then
            if (maxNestingDepth <? depth + 1)%N then None
            else match skip_ws r with
                 | c' :: r' =>
                     if Ascii.eqb c' "}" then Some (Object [], r')
                     else parse_members fuel' (depth + 1)%N r []
                 | [] => None
                 end
          else if Ascii.eqb c "[" then
            if (maxNestingDepth <? depth + 1)%N then None
            else match skip_ws r with
                 | c' :: r' =>
                     if Ascii.eqb c' "]" then Some (Array [], r')
                     else parse_elements fuel' (depth + 1)%N r []
                 | [] => None
                 end
          else if (code c =? 34)%nat then
            match read_string r [] with
            | Some (s, r') => Some (Str s, r')
            | None => None
            end
          else if Ascii.eqb c "t" then
            option_map (fun r' => (Bool true, r')) (expect (bytes "rue") r)
          else if Ascii.eqb c "f" then
            option_map (fun r' => (Bool false, r')) (expect (bytes "alse") r)
          else if Ascii.eqb c "n" then
            option_map (fun r' => (Null, r')) (expect (bytes "ull") r)
          else
            match read_number (c :: r) with
            | Some (n, r') => Some (Number n, r')
            | None => None
            end
      end
  end
with parse_members (fuel : nat) (depth : N) (l : list ascii)
                   (acc : list (string * value))
  : option (value * list ascii) :=
  match fuel with
  | O => None
  | S fuel' =>
      match skip_ws l with
      | q :: r =>
          if (code q =? 34)%nat then
            match read_string r [] with
            | Some (k, r1) =>
                match skip_ws r1 with
                | colon :: r2 =>
                    if Ascii.eqb colon ":" then
                      match parse_value fuel' depth r2 with
                      | Some (v, r3) =>
                          match skip_ws r3 with
                          | sep :: r4 =>
                              if Ascii.eqb sep "," then
                                parse_members fuel' depth r4 ((k, v) :: acc)
                              else if Ascii.eqb sep "}" then
                                Some (Object (rev ((k, v) :: acc)), r4)
                              else None
                          | [] => None
                          end
                      | None => None
                      end
                    else None
                | [] => None
                end
            | None => None
            end
          else None
      | [] => None
      end
  end
with parse_elements (fuel : nat) (depth : N) (l : list ascii)
                    (acc : list value)
  : option (value * list ascii) :=
  match fuel with
  | O => None
  | S fuel' =>
      match parse_value fuel' depth l with
      | Some (v, r) =>
          match skip_ws r with
          | sep :: r' =>
              if Ascii.eqb sep "," then parse_elements fuel' depth r' (v :: acc)
              else if Ascii.eqb sep "]" then Some (Array (rev (v :: acc)), r')
              else None
          | [] => None
          end
      | None => None
      end
  end.

(** A whole document: one value, white space around it, nothing else
    ([checkValid]). *)
Definition parse (s : string) : option value :=
  let l := bytes s in
  match parse_value (2 * List.length l + 2) 0%N l with
  | Some (v, r) => match skip_ws r with [] => Some v | _ :: _ => None end
  | None => None
  end.

(** Whether every number of the document converts to [float64], as
    decoding into [interface{}] requires of it. *)
Fixpoint numbers_ok (v : value) : bool :=
  match v with
  | Number n => match snd (strconv.ParseFloat n) with None => true | Some _ => false end
  | Array l => forallb numbers_ok l
  | Object ms => forallb (fun kv => numbers_ok (snd kv)) ms
  | _ => true
  end.

(** The value a map decoded from these members holds at [key]: the
    last member of that name. *)
Fixpoint lookup (key : string) (ms : list (string * value)) : option value :=
  match ms with
  | [] => None
  | (k, v) :: ms' =>
      match lookup key ms' with
      | Some v' => Some v'
      | None => if String.eqb k key then Some v else None
      end
  end.

(** [json.Unmarshal(data, &m)] for [m] a nil [map[string]interface{}]:
    the members of the map, or [None] for an error.  The document [null]
    leaves the map nil. *)
Definition Unmarshal_map (data : string) : option (list (string * value)) :=
  match parse data with
  | Some (Object ms) => if numbers_ok (Object ms) then Some ms else None
  | Some Null => Some []
  | _ => None
  end.

(** The folded form of an object key ([foldName]), under which struct
    fields are looked up when no field has the key's exact name: ASCII
    letters in upper case; of the other runes only U+017F and U+212A fold
    to ASCII letters, to S and K. *)
Fixpoint fold_bytes (l : list ascii) : list ascii :=
  match l with
  | [] => []
  | c1 :: r1 =>
      let up :=
        if ((97 <=? code c1) && (code c1 <=? 122))%nat
        then ascii_of_nat (code c1 - 32) else c1 in
      match r1 with
      | c2 :: r2 =>
          if ((code c1 =? 197) && (code c2 =? 191))%nat
          then ascii_of_nat 83 :: fold_bytes r2
          else match r2 with
               | c3 :: r3 =>
                   if ((code c1 =? 226) && (code c2 =? 132) && (code c3 =? 170))%nat
                   then ascii_of_nat 75 :: fold_bytes r3
                   else up :: fold_bytes r1
               | [] => up :: fold_bytes r1
               end
      | [] => [up]
      end
  end.

Definition foldName (s : string) : string := of_bytes (fold_bytes (bytes s)).

(** The field a key selects among [names]: the one of that exact name,
    else the one with the same folded name. *)
Definition field_of (names : list string) (key : string) : option string :=
  match find (String.eqb key) names with
  | Some n => Some n
  | None => find (fun n => String.eqb (foldName n) (foldName key)) names
  end.

End json.

(** ** The [sort] package *)

Module sort.

Section Insertion.
Variable A : Type.
Variable less : A -> A -> bool.

(** One pass of [insertionSortLessFunc]: the new element moves towards
    the front, past every element it is [less] than.  The elements
    already placed are held last first. *)
Fixpoint insert_back (x : A) (placed : list A) : list A :=
  match placed with
  | [] => [x]
  | y :: r => if less x y then y :: insert_back x r else x :: placed
  end.

(** [sort.Slice(x, less)] as the insertion sort the library runs on
    slices of at most twelve elements.  On longer slices the library
    runs a quicksort, which may order equal elements differently; the
    properties of the retriever are stated for an arbitrary sorting
    function that meets the contract of [sort.Slice]. *)
Definition Slice (l : list A) : list A :=
  rev (fold_left (fun placed x => insert_back x placed) l []).
End Insertion.

End sort.

(** ** [internal/models] *)

Module models.

(** [Message]; a zero [CreatedAt] is [0]. *)
Record Message : Type := {
  ID : Z;
  ConvID : Z;
  Role : string;
  Content : string;
  CreatedAt : Z
}.

(** [Conversation], whose fields [ID], [Title] and [CreatedAt] carry a
    prefix here. *)
Record Conversation : Type := {
  conv_ID : Z;
  conv_Title : string;
  conv_CreatedAt : Z
}.

End models.

(** ** [internal/db]: the store on SQLite *)

Module db.
Import models.
Local Open Scope list_scope.
Local Open Scope Z_scope.

(** A row of [knowledge]; [conversation_id] is nullable. *)
Record knowledge_row : Type := {
  k_id : Z;
  k_content : string;
  k_conversation_id : option Z;
  k_created_at : Z
}.

(** A row of the full-text index [knowledge_fts]; [docid] is its
    rowid, hence unique. *)
Record fts_row : Type := {
  docid : Z;
  fts_content : string;
  fts_conversation_id : option Z
}.

(** The tables of [schema], rows in rowid order, and the counters that
    AUTOINCREMENT keeps.  Rows of [messages] are [Message]s: the code
    never stores a null [conversation_id] there. *)
Record Tables : Type := {
  conversations : list Conversation;
  messages : list Message;
  knowledge : list knowledge_row;
  knowledge_fts : list fts_row;
  seq_conversations : Z;
  seq_messages : Z;
  seq_knowledge : Z
}.

(** What the engine answers to one statement: it runs, at the given
    [CURRENT_TIMESTAMP], or it fails (I/O, lock, closed handle). *)
Inductive sqlres : Type :=
| SqlOk (now : Z)
| SqlErr (e : error).

(** [Database]: the tables behind the handle, the answers of the engine
    to the successive statements, and the number of statements issued so
    far. *)
Record Database : Type := {
  tables : Tables;
  engine : nat -> sqlres;
  issued : nat
}.

Definition with_tables (t : Tables) (d : Database) : Database :=
  {| tables := t; engine := engine d; issued := issued d |}.

(** Issues one statement ([Exec], [Query], [QueryRow], [Begin],
    [Commit]). *)
Definition exec (d : Database) : sqlres * Database :=
  (engine d (issued d),
   {| tables := tables d; engine := engine d; issued := S (issued d) |}).

(** Issues one statement that, when it runs, changes the tables by
    [effect]. *)
Definition run (effect : Tables -> Tables) (d : Database) : sqlres * Database :=
  match exec d with
  | (SqlOk now, d1) => (SqlOk now, with_tables (effect (tables d1)) d1)
  | (SqlErr e, d1) => (SqlErr e, d1)
  end.

(** The rowid AUTOINCREMENT assigns: one more than the largest ever
    used. *)
Definition next_id (seq : Z) (ids : list Z) : Z :=
  Z.max seq (fold_right Z.max 0 ids) + 1.

(** [ORDER BY key DESC] over rows scanned in rowid order; rows with equal
    keys stay in scan order, as SQLite's sorter leaves them. *)
Fixpoint insert_desc {A : Type} (key : A -> Z) (x : A) (l : list A) : list A :=
  match l with
  | [] => [x]
  | y :: r => if key y <=? key x then x :: l else y :: insert_desc key x r
  end.

Definition order_by_desc {A : Type} (key : A -> Z) (l : list A) : list A :=
  fold_right (insert_desc key) [] l.

(** [LIMIT n]; a negative [n] is no limit. *)
Definition sql_limit {A : Type} (n : Z) (l : list A) : list A :=
  if n <? 0 then l else firstn (Z.to_nat n) l.

Definition constraint_failed : error := "constraint failed".

(** [INSERT INTO knowledge_fts(docid, ...)]: the index refuses a second
    row with the same [docid]. *)
Definition fts_insert (row : fts_row) (fts : list fts_row)
  : option (list fts_row) :=
  if existsb (fun f => docid f =? docid row) fts then None
  else Some (fts ++ [row]).

(** [SaveMessage]: the row is inserted and the message receives its
    [id] and [created_at] ([RETURNING ... Scan]); on failure the message
    is left as it was. *)
Definition SaveMessage (msg : Message) (d : Database)
  : option error * Message * Database :=
  match exec d with
  | (SqlErr e, d1) => (Some e, msg, d1)
  | (SqlOk now, d1) =>
      let t := tables d1 in
      let id := next_id (seq_messages t) (map ID (messages t)) in
      let row := {| ID := id; ConvID := ConvID msg; Role := Role msg;
                    Content := Content msg; CreatedAt := now |} in
      (None, row,
       with_tables {| conversations := conversations t;
                      messages := messages t ++ [row];
                      knowledge := knowledge t;
                      knowledge_fts := knowledge_fts t;
                      seq_conversations := seq_conversations t;
                      seq_messages := id;
                      seq_knowledge := seq_knowledge t |} d1)
  end.

(** [CreateConversation]: the conversation is returned with the error,
    its [ID] and [CreatedAt] zero when the insertion failed. *)
Definition CreateConversation (title : string) (d : Database)
  : Conversation * option error * Database :=
  match exec d with
  | (SqlErr e, d1) =>
      ({| conv_ID := 0; conv_Title := title; conv_CreatedAt := 0 |}, Some e, d1)
  | (SqlOk now, d1) =>
      let t := tables d1 in
      let id := next_id (seq_conversations t) (map conv_ID (conversations t)) in
      let row := {| conv_ID := id; conv_Title := title; conv_CreatedAt := now |} in
      (row, None,
       with_tables {| conversations := conversations t ++ [row];
                      messages := messages t;
                      knowledge := knowledge t;
                      knowledge_fts := knowledge_fts t;
                      seq_conversations := id;
                      seq_messages := seq_messages t;
                      seq_knowledge := seq_knowledge t |} d1)
  end.

(** [INSERT INTO knowledge], with the trigger [knowledge_ai] that
    copies the new row into the index; the statement fails as a whole
    when the trigger does. *)
Definition insert_knowledge (content : string) (conversationID : Z)
                            (now : Z) (t : Tables) : option (Z * Tables) :=
  let id := next_id (seq_knowledge t) (map k_id (knowledge t)) in
  let row := {| k_id := id; k_content := content;
                k_conversation_id := Some conversationID;
                k_created_at := now |} in
  match fts_insert {| docid := id; fts_content := content;
                      fts_conversation_id := Some conversationID |}
                   (knowledge_fts t) with
  | None => None
  | Some fts =>
      Some (id, {| conversations := conversations t;
                   messages := messages t;
                   knowledge := knowledge t ++ [row];
                   knowledge_fts := fts;
                   seq_conversations := seq_conversations t;
                   seq_messages := seq_messages t;
                   seq_knowledge := id |})
  end.

Definition with_fts (fts : list fts_row) (t : Tables) : Tables :=
  {| conversations := conversations t;
     messages := messages t;
     knowledge := knowledge t;
     knowledge_fts := fts;
     seq_conversations := seq_conversations t;
     seq_messages := seq_messages t;
     seq_knowledge := seq_knowledge t |}.

(** [SaveToKnowledgeBase]: one transaction that inserts the row (the
    trigger indexes it), reads its id and inserts it into the index
    again; every failure rolls the transaction back
    ([defer tx.Rollback()]). *)
Definition SaveToKnowledgeBase (content : string) (conversationID : Z)
                               (d : Database) : option error * Database :=
  let t0 := tables d in
  match exec d with                                   (* Begin *)
  | (SqlErr e, d1) => (Some e, d1)
  | (SqlOk _, d1) =>
      match exec d1 with                              (* INSERT INTO knowledge *)
      | (SqlErr e, d2) => (Some e, with_tables t0 d2)
      | (SqlOk now, d2) =>
          match insert_knowledge content conversationID now (tables d2) with
          | None => (Some constraint_failed, with_tables t0 d2)
          | Some (id, t2) =>
              match exec d2 with                      (* INSERT INTO knowledge_fts *)
              | (SqlErr e, d3) => (Some e, with_tables t0 d3)
              | (SqlOk _, d3) =>
                  match fts_insert {| docid := id; fts_content := content;
                                      fts_conversation_id := Some conversationID |}
                                   (knowledge_fts t2) with
                  | None => (Some constraint_failed, with_tables t0 d3)
                  | Some fts =>
                      match exec d3 with              (* Commit *)
                      | (SqlErr e, d4) => (Some e, with_tables t0 d4)
                      | (SqlOk _, d4) => (None, with_tables (with_fts fts t2) d4)
                      end
                  end
              end
          end
      end
  end.

(** [GetConversationHistory]: the messages of the conversation, newest
    first, at most [limit] of them. *)
Definition GetConversationHistory (conversationID : Z) (limit : Z)
                                  (d : Database)
  : list Message * option error * Database :=
  match exec d with
  | (SqlErr e, d1) => ([], Some e, d1)
  | (SqlOk _, d1) =>
      let rows := filter (fun m => ConvID m =? conversationID)
                         (messages (tables d1)) in
      (sql_limit limit (order_by_desc CreatedAt rows), None, d1)
  end.

(** A row of the result of [SearchKnowledge]. *)
Record search_result : Type := {
  sr_Content : string;
  sr_ConversationID : Z;
  sr_CreatedAt : Z
}.

Definition scan_null_error : error :=
  ("sql: Scan error on column index 1, name " ++ dquote ++ "conversation_id"
     ++ dquote ++ ": converting NULL to int64 is unsupported")%string.

(** [rows.Scan] over the rows of the search: a null [conversation_id]
    does not convert to [int64]. *)
Fixpoint scan_rows (rows : list knowledge_row) (results : list search_result)
  : option (list search_result) :=
  match rows with
  | [] => Some results
  | k :: rest =>
      match k_conversation_id k with
      | None => None
      | Some c =>
          scan_rows rest (results ++ [{| sr_Content := k_content k;
                                         sr_ConversationID := c;
                                         sr_CreatedAt := k_created_at k |}])
      end
  end.

Section Search.
(** [fts.content MATCH ?] of FTS4 with the porter tokenizer: [None]
    for a malformed query, else the indexed contents the query
    selects.  The index reads the query when the statement is stepped,
    in [rows.Next]: a malformed query ends the loop over the rows, and as
    [rows.Err] is never read the search returns no row and no error. *)
Variable fts_MATCH : string -> option (string -> bool).

(** The rows of [knowledge] that lack an index entry ([syncFTS]). *)
Definition unindexed (t : Tables) : list fts_row :=
  map (fun k => {| docid := k_id k; fts_content := k_content k;
                   fts_conversation_id := k_conversation_id k |})
      (filter (fun k => negb (existsb (fun f => docid f =? k_id k)
                                      (knowledge_fts t)))
              (knowledge t)).

(** [knowledge k JOIN knowledge_fts fts ON k.id = fts.docid], for the
    index entries that satisfy [selected]. *)
Definition join_fts (selected : string -> bool) (t : Tables)
  : list knowledge_row :=
  flat_map (fun f => if selected (fts_content f)
                     then filter (fun k => k_id k =? docid f) (knowledge t)
                     else [])
           (knowledge_fts t).

(** [SearchKnowledge]: the index is created if missing (it exists),
    brought up to date, and searched; each of the three statements
    is issued outside any transaction. *)
Definition SearchKnowledge (query : string) (d : Database)
  : list search_result * option error * Database :=
  match exec d with                                     (* createFTS *)
  | (SqlErr e, d1) => ([], Some ("failed to create FTS table: " ++ e)%string, d1)
  | (SqlOk _, d1) =>
      match run (fun t => with_fts (knowledge_fts t ++ unindexed t) t) d1 with
                                                        (* syncFTS *)
      | (SqlErr e, d2) => ([], Some ("failed to sync FTS table: " ++ e)%string, d2)
      | (SqlOk _, d2) =>
          match exec d2 with                            (* the search *)
          | (SqlErr e, d3) =>
              ([], Some ("failed to search knowledge: " ++ e)%string, d3)
          | (SqlOk _, d3) =>
              match fts_MATCH query with
              | None => ([], None, d3)
              | Some selected =>
                  match scan_rows (order_by_desc k_created_at
                                     (join_fts selected (tables d3))) [] with
                  | None =>
                      ([], Some ("failed to scan result: " ++ scan_null_error)%string, d3)
                  | Some results => (results, None, d3)
                  end
              end
          end
      end
  end.
End Search.

(** [DELETE FROM knowledge WHERE conversation_id = ?], with the trigger
    [knowledge_ad] that removes the index entry of every deleted row. *)
Definition delete_knowledge (id : Z) (t : Tables) : Tables :=
  let owned (k : knowledge_row) : bool :=
    match k_conversation_id k with Some c => c =? id | None => false end in
  let deleted := map k_id (filter owned (knowledge t)) in
  {| conversations := conversations t;
     messages := messages t;
     knowledge := filter (fun k => negb (owned k)) (knowledge t);
     knowledge_fts := filter (fun f => negb (existsb (Z.eqb (docid f)) deleted))
                             (knowledge_fts t);
     seq_conversations := seq_conversations t;
     seq_messages := seq_messages t;
     seq_knowledge := seq_knowledge t |}.

Definition delete_messages (id : Z) (t : Tables) : Tables :=
  {| conversations := conversations t;
     messages := filter (fun m => negb (ConvID m =? id)) (messages t);
     knowledge := knowledge t;
     knowledge_fts := knowledge_fts t;
     seq_conversations := seq_conversations t;
     seq_messages := seq_messages t;
     seq_knowledge := seq_knowledge t |}.

Definition delete_conversation (id : Z) (t : Tables) : Tables :=
  {| conversations := filter (fun c => negb (conv_ID c =? id)) (conversations t);
     messages := messages t;
     knowledge := knowledge t;
     knowledge_fts := knowledge_fts t;
     seq_conversations := seq_conversations t;
     seq_messages := seq_messages t;
     seq_knowledge := seq_knowledge t |}.

(** [DeleteConversation]: one transaction with three deletions, of the
    messages, of the knowledge entries and of the conversation.  The
    connection is opened without [foreign_keys], so the [ON DELETE]
    clauses of [schema] take no part. *)
Definition DeleteConversation (id : Z) (d : Database) : option error * Database :=
  let t0 := tables d in
  match exec d with                                     (* Begin *)
  | (SqlErr e, d1) => (Some e, d1)
  | (SqlOk _, d1) =>
      match run (delete_messages id) d1 with            (* DELETE FROM messages *)
      | (SqlErr e, d2) => (Some e, with_tables t0 d2)
      | (SqlOk _, d2) =>
          match run (delete_knowledge id) d2 with       (* DELETE FROM knowledge *)
          | (SqlErr e, d3) => (Some e, with_tables t0 d3)
          | (SqlOk _, d3) =>
              match run (delete_conversation id) d3 with
                                                        (* DELETE FROM conversations *)
              | (SqlErr e, d4) => (Some e, with_tables t0 d4)
              | (SqlOk _, d4) =>
                  match exec d4 with                    (* Commit *)
                  | (SqlErr e, d5) => (Some e, with_tables t0 d5)
                  | (SqlOk _, d5) => (None, d5)
                  end
              end
          end
      end
  end.

(** [UpdateConversationTitle] *)
Definition UpdateConversationTitle (id : Z) (title : string) (d : Database)
  : option error * Database :=
  match exec d with
  | (SqlErr e, d1) => (Some e, d1)
  | (SqlOk _, d1) =>
      let t := tables d1 in
      (None,
       with_tables
         {| conversations :=
              map (fun c => if conv_ID c =? id
                            then {| conv_ID := conv_ID c; conv_Title := title;
                                    conv_CreatedAt := conv_CreatedAt c |}
                            else c) (conversations t);
            messages := messages t;
            knowledge := knowledge t;
            knowledge_fts := knowledge_fts t;
            seq_conversations := seq_conversations t;
            seq_messages := seq_messages t;
            seq_knowledge := seq_knowledge t |} d1)
  end.

End db.

(** ** [internal/llm]: retrieval, interpretation and dispatch *)

Module llm.
Local Open Scope string_scope.

Definition float64 : Type := strconv.float64.

Definition nl : string := String (ascii_of_nat 10) EmptyString.
Definition tab : string := String (ascii_of_nat 9) EmptyString.

(** [s] between double quotes. *)
Definition q (s : string) : string := dquote ++ s ++ dquote.

Record StoreInfo : Type := {
  UserInput : list string;
  BotResponse : list string
}.

(** [LLMResponse]; its field [StoreInfo] is [store_info] here, after its
    JSON name. *)
Record LLMResponse : Type := {
  Action : string;
  Content : string;
  store_info : StoreInfo;
  NewTitle : string
}.

(** [KnowledgeSearchResult], whose fields [Content] and [CreatedAt]
    carry a prefix here. *)
Record KnowledgeSearchResult : Type := {
  ResultContent : string;
  Relevance : float64;
  ResultCreatedAt : Z
}.

(** What the completion provider answers to one call of
    [llms.GenerateFromSinglePrompt]. *)
Inductive generation : Type :=
| Completion (text : string)
| GenerationError (e : error).

(** [Service]: the provider, as its answer to the [n]-th prompt it is
    sent; the prompts sent so far; and the store, which the HTTP handler
    shares. *)
Record Service : Type := {
  llm : nat -> string -> generation;
  prompts : list string;
  db : db.Database
}.

Definition with_db (d : db.Database) (s : Service) : Service :=
  {| llm := llm s; prompts := prompts s; db := d |}.

Definition GenerateFromSinglePrompt (prompt : string) (s : Service)
  : generation * Service :=
  (llm s (List.length (prompts s)) prompt,
   {| llm := llm s; prompts := (prompts s ++ [prompt])%list; db := db s |}).

(** How a call ends: with its value, with an [error], or in a run-time
    panic. *)
Inductive outcome (A : Type) : Type :=
| Return (a : A)
| Failure (e : error)
| Panic (e : string).
Arguments Return {A} a.
Arguments Failure {A} e.
Arguments Panic {A} e.

(** The threshold of [relevance > 0.3]: the [float64] nearest to 0.3. *)
Definition threshold : float64 := 0x1.3333333333333p-2%float.

(** The prompt of the relevance scorer. *)
Definition relevance_prompt (query content : string) : string :=
  nl ++ tab ++ tab ++ "Query: " ++ query ++ nl
    ++ tab ++ tab ++ nl
    ++ tab ++ tab ++ "Potential relevant information: " ++ content ++ nl
    ++ tab ++ tab ++ nl
    ++ tab ++ tab
    ++ "Rate the relevance of this information to the query on a scale of 0.0 to 1.0."
    ++ nl ++ tab ++ tab ++ "Respond with only the number.".

Definition systemPrompt : string :=
  String.concat nl
    [ "You are an AI assistant that can:";
      tab ++ "1. Reply to users (action: " ++ q "reply" ++ ")";
      tab ++ "2. Store important information in a knowledge base (action: "
        ++ q "store" ++ ")";
      tab ++ "3. Search existing knowledge (action: " ++ q "search" ++ ")";
      tab
        ++ "4. Create new conversations when topics change significantly (action: "
        ++ q "new_conversation" ++ ")";
      EmptyString;
      tab ++ "When storing knowledge:";
      tab ++ "- Only store specific, important facts or information";
      tab
        ++ "- Extract and summarize the key information, don't store entire conversations";
      tab ++ "- Format the information clearly and concisely";
      EmptyString;
      EmptyString;
      tab
        ++ "When the user asks about previous information or references past conversations,";
      tab ++ "use the " ++ q "reply"
        ++ " action to respond using the conversation history and knowledge provided.";
      tab ++ "Only use " ++ q "search"
        ++ " when explicitly asked to search for something.";
      EmptyString;
      tab
        ++ "IMPORTANT: Your response must be a valid JSON object, but the "
        ++ q "content" ++ " field should contain";
      tab
        ++ "your natural language response to the user, not JSON or technical details.";
      EmptyString;
      tab ++ "Respond with a JSON object containing:";
      tab ++ "{";
      tab ++ tab ++ q "action" ++ ": "
        ++ q "reply|store|search|new_conversation" ++ ",";
      tab ++ tab ++ q "content" ++ ": "
        ++ q "Your natural language response here..." ++ ",";
      tab ++ tab ++ q "store_info" ++ ": {";
      tab ++ tab ++ tab ++ q "user_input" ++ ": ["
        ++ q "The key information to store"
        ++ "],  // Extract only the important facts";
      tab ++ tab ++ tab ++ q "bot_response" ++ ": ["
        ++ q "Confirmation or clarification of the stored info" ++ "]";
      tab ++ tab ++ "},";
      tab ++ tab ++ q "new_title" ++ ": "
        ++ q "optional: title for new conversation if action is new_conversation";
      tab ++ "}" ].

Definition zero_LLMResponse : LLMResponse :=
  {| Action := EmptyString; Content := EmptyString;
     store_info := {| UserInput := []; BotResponse := [] |};
     NewTitle := EmptyString |}.

Definition with_Content (c : string) (r : LLMResponse) : LLMResponse :=
  {| Action := Action r; Content := c; store_info := store_info r;
     NewTitle := NewTitle r |}.

(** *** Decoding a completion into [LLMResponse] *)

(** A JSON array decoded into a [[]string] that holds [old]: a string
    sets its element, [null] leaves the element as it is (empty beyond
    the old length), anything else is a type error. *)
Fixpoint decode_strings (elements : list json.value) (old : list string)
  : option (list string) :=
  match elements with
  | [] => Some []
  | v :: rest =>
      let prev := hd EmptyString old in
      match decode_strings rest (tl old) with
      | None => None
      | Some l =>
          match v with
          | json.Str s => Some (s :: l)
          | json.Null => Some (prev :: l)
          | _ => None
          end
      end
  end.

Definition decode_slice (v : json.value) (old : list string)
  : option (list string) :=
  match v with
  | json.Array elements => decode_strings elements old
  | json.Null => Some []
  | _ => None
  end.

Definition decode_string (v : json.value) (old : string) : option string :=
  match v with
  | json.Str s => Some s
  | json.Null => Some old
  | _ => None
  end.

(** The members of an object applied in turn to a [StoreInfo]; members
    that name no field are skipped. *)
Fixpoint decode_StoreInfo (members : list (string * json.value))
                          (info : StoreInfo) : option StoreInfo :=
  match members with
  | [] => Some info
  | (k, v) :: rest =>
      match json.field_of ["user_input"; "bot_response"] k with
      | Some f =>
          if String.eqb f "user_input" then
            match decode_slice v (UserInput info) with
            | Some l => decode_StoreInfo rest
                          {| UserInput := l; BotResponse := BotResponse info |}
            | None => None
            end
          else
            match decode_slice v (BotResponse info) with
            | Some l => decode_StoreInfo rest
                          {| UserInput := UserInput info; BotResponse := l |}
            | None => None
            end
      | None => decode_StoreInfo rest info
      end
  end.

Fixpoint decode_fields (members : list (string * json.value))
                       (r : LLMResponse) : option LLMResponse :=
  match members with
  | [] => Some r
  | (k, v) :: rest =>
      match json.field_of ["action"; "content"; "store_info"; "new_title"] k with
      | Some f =>
          if String.eqb f "action" then
            match decode_string v (Action r) with
            | Some a => decode_fields rest
                          {| Action := a; Content := Content r;
                             store_info := store_info r; NewTitle := NewTitle r |}
            | None => None
            end
          else if String.eqb f "content" then
            match decode_string v (Content r) with
            | Some c => decode_fields rest (with_Content c r)
            | None => None
            end
          else if String.eqb f "store_info" then
            match v with
            | json.Object ms =>
                match decode_StoreInfo ms (store_info r) with
                | Some info => decode_fields rest
                                 {| Action := Action r; Content := Content r;
                                    store_info := info; NewTitle := NewTitle r |}
                | None => None
                end
            | json.Null => decode_fields rest r
            | _ => None
            end
          else
            match decode_string v (NewTitle r) with
            | Some t => decode_fields rest
                          {| Action := Action r; Content := Content r;
                             store_info := store_info r; NewTitle := t |}
            | None => None
            end
      | None => decode_fields rest r
      end
  end.

(** [json.Unmarshal(data, &llmResponse)] on a zero [LLMResponse]:
    [None] when the decoder returns an error, for a text that is not
    JSON or for a value whose type does not fit its field.  The
    document [null] decodes to the zero response. *)
Definition Unmarshal_LLMResponse (data : string) : option LLMResponse :=
  match json.parse data with
  | Some (json.Object members) => decode_fields members zero_LLMResponse
  | Some json.Null => Some zero_LLMResponse
  | _ => None
  end.

Section Core.

(** The libraries the core calls: the full-text match of the store,
    [strconv.ParseFloat(s, 64)], [sort.Slice], and [json.Unmarshal]
    into an [LLMResponse] and into a [map[string]interface{}]. *)
Variable fts_MATCH : string -> option (string -> bool).
Variable ParseFloat : string -> float64 * option error.
Variable sort_Slice : forall A : Type, (A -> A -> bool) -> list A -> list A.
Variable json_Unmarshal : string -> option LLMResponse.
Variable json_Unmarshal_map : string -> option (list (string * json.value)).

(** *** Relevance Scorer and Knowledge Retriever *)

(** The score read from a completion: the number it parses to, and
    [0.0] when it does not parse. *)
Definition relevance_of (completion : string) : float64 :=
  match ParseFloat (TrimSpace completion) with
  | (_, Some _) => 0%float
  | (relevance, None) => relevance
  end.

(** The loop of [SearchKnowledge] over the candidates. *)
Fixpoint score_results (query : string) (results : list db.search_result)
                       (knowledgeResults : list KnowledgeSearchResult)
                       (s : Service)
  : list KnowledgeSearchResult * option error * Service :=
  match results with
  | [] => (knowledgeResults, None, s)
  | result :: rest =>
      let prompt := relevance_prompt query (db.sr_Content result) in
      match GenerateFromSinglePrompt prompt s with
      | (GenerationError err, s1) =>
          ([], Some ("failed to evaluate relevance: " ++ err), s1)
      | (Completion completion, s1) =>
          let relevance := relevance_of completion in
          if PrimFloat.ltb threshold relevance then
            score_results query rest
              (knowledgeResults ++
                 [{| ResultContent := db.sr_Content result;
                     Relevance := relevance;
                     ResultCreatedAt := db.sr_CreatedAt result |}])%list
              s1
          else score_results query rest knowledgeResults s1
      end
  end.

(** The order of the final sort:
    [knowledgeResults[i].Relevance > knowledgeResults[j].Relevance]. *)
Definition by_relevance (a b : KnowledgeSearchResult) : bool :=
  PrimFloat.ltb (Relevance b) (Relevance a).

Definition SearchKnowledge (query : string) (s : Service)
  : list KnowledgeSearchResult * option error * Service :=
  match db.SearchKnowledge fts_MATCH query (db s) with
  | (_, Some err, d) =>
      ([], Some ("failed to search knowledge base: " ++ err), with_db d s)
  | (results, None, d) =>
      match score_results query results [] (with_db d s) with
      | (_, Some err, s1) => ([], Some err, s1)
      | (knowledgeResults, None, s1) =>
          (sort_Slice by_relevance knowledgeResults, None, s1)
      end
  end.

(** *** Context Assembler *)

Definition knowledge_line (k : KnowledgeSearchResult) : string :=
  "- " ++ ResultContent k ++ " (relevance: "
    ++ strconv.FormatFloat2 (Relevance k) ++ ")" ++ nl.

Definition history_line (m : models.Message) : string :=
  models.Role m ++ ": " ++ models.Content m ++ nl.

(** The prompt of [ProcessMessage]: the knowledge lines in order, the
    history from its last element down to its first, the current
    message. *)
Definition build_prompt (knowledge : list KnowledgeSearchResult)
                        (history : list models.Message)
                        (msg : models.Message) : string :=
  let prompt := systemPrompt ++ nl ++ nl ++ "Relevant knowledge from database:" ++ nl in
  let prompt := fold_left (fun p k => p ++ knowledge_line k) knowledge prompt in
  let prompt := prompt ++ nl ++ nl ++ "Conversation history:" ++ nl in
  let prompt := fold_left (fun p m => p ++ history_line m) (rev history) prompt in
  prompt ++ nl ++ "Current message:" ++ nl
    ++ models.Role msg ++ ": " ++ models.Content msg ++ nl ++ nl ++ "Response:".

(** *** Response Interpreter *)

(** The response parsed from the completion, with the fallback to a
    plain reply and the unwrapping of a content that is itself an
    object. *)
Definition parse_response (completion : string) : LLMResponse :=
  match json_Unmarshal completion with
  | None =>
      {| Action := "reply"; Content := completion;
         store_info := {| UserInput := []; BotResponse := [] |};
         NewTitle := EmptyString |}
  | Some llmResponse =>
      if HasPrefix (Content llmResponse) "{" || HasPrefix (Content llmResponse) "["
      then
        match json_Unmarshal_map (Content llmResponse) with
        | Some rawJSON =>
            match json.lookup "content" rawJSON with
            | Some (json.Str content) => with_Content content llmResponse
            | _ => llmResponse
            end
        | None => llmResponse
        end
      else llmResponse
  end.

Definition slice_panic : string :=
  "runtime error: slice bounds out of range [1:0]".

(** The clean-up of the content: white space trimmed, then one pair of
    surrounding quotes removed by the slice expression
    [Content[1 : len(Content)-1]]. *)
Definition clean_up (llmResponse : LLMResponse) : outcome LLMResponse :=
  let content := TrimSpace (Content llmResponse) in
  if HasPrefix content dquote && HasSuffix content dquote then
    match slice content 1 (Z.of_nat (String.length content) - 1) with
    | Some stripped => Return (with_Content stripped llmResponse)
    | None => Panic slice_panic
    end
  else Return (with_Content content llmResponse).

Definition interpret (completion : string) : outcome LLMResponse :=
  clean_up (parse_response completion).

(** *** Action Dispatcher *)

(** The body of a knowledge entry, built by the loop over the indices
    of [UserInput]; [n] iterations remain and [i] is the index. *)
Fixpoint store_loop (n i : nat) (info : StoreInfo) (storeContent : string)
  : string :=
  match n with
  | O => storeContent
  | S n' =>
      let storeContent :=
        storeContent ++ "Information: " ++ nth i (UserInput info) EmptyString ++ nl in
      let storeContent :=
        if (i <? List.length (BotResponse info))%nat
        then storeContent ++ "Context: "
               ++ nth i (BotResponse info) EmptyString ++ nl
        else storeContent in
      store_loop n' (S i) info storeContent
  end.

Definition store_content (info : StoreInfo) : string :=
  store_loop (List.length (UserInput info)) 0 info ("Knowledge Entry:" ++ nl).

(** An assistant message with the given content is saved on the
    conversation and returned; the [reply], [search] and
    [new_conversation] cases all end in these lines. *)
Definition save_response (convID : Z) (content : string) (s : Service)
  : outcome models.Message * Service :=
  let response := {| models.ID := 0; models.ConvID := convID;
                     models.Role := "assistant"; models.Content := content;
                     models.CreatedAt := 0 |} in
  match db.SaveMessage response (db s) with
  | (Some err, _, d) => (Failure ("failed to save message: " ++ err), with_db d s)
  | (None, response, d) => (Return response, with_db d s)
  end.

(** The [switch] on the action; [store] falls through into
    [search]. *)
Definition dispatch (msg : models.Message) (llmResponse : LLMResponse)
                    (s : Service) : outcome models.Message * Service :=
  if String.eqb (Action llmResponse) "reply" then
    save_response (models.ConvID msg) (Content llmResponse) s
  else if String.eqb (Action llmResponse) "store" then
    let content := store_content (store_info llmResponse) in
    let '(_, d) := db.SaveToKnowledgeBase content (models.ConvID msg) (db s) in
    save_response (models.ConvID msg) (Content llmResponse) (with_db d s)
  else if String.eqb (Action llmResponse) "search" then
    save_response (models.ConvID msg) (Content llmResponse) s
  else if String.eqb (Action llmResponse) "new_conversation" then
    match db.CreateConversation (NewTitle llmResponse) (db s) with
    | (_, Some err, d) =>
        (Failure ("failed to create new conversation: " ++ err), with_db d s)
    | (newConv, None, d) =>
        save_response (models.conv_ID newConv) (Content llmResponse) (with_db d s)
    end
  else (Failure ("unknown action: " ++ Action llmResponse), s).

(** *** [ProcessMessage] *)

(** The turn from the fetch of the history on, given the knowledge
    retrieved.  The completion call runs under a deadline of thirty
    seconds; its expiry is an error of the provider. *)
Definition respond (msg : models.Message)
                   (knowledge : list KnowledgeSearchResult) (s : Service)
  : outcome models.Message * Service :=
  match db.GetConversationHistory (models.ConvID msg) 10 (db s) with
  | (_, Some err, d) =>
      (Failure ("failed to get conversation history: " ++ err), with_db d s)
  | (history, None, d) =>
      let prompt := build_prompt knowledge history msg in
      match GenerateFromSinglePrompt prompt (with_db d s) with
      | (GenerationError err, s1) =>
          (Failure ("failed to generate completion: " ++ err), s1)
      | (Completion completion, s1) =>
          match interpret completion with
          | Return llmResponse => dispatch msg llmResponse s1
          | Failure err => (Failure err, s1)
          | Panic p => (Panic p, s1)
          end
      end
  end.

Definition ProcessMessage (msg : models.Message) (s : Service)
  : outcome models.Message * Service :=
  match SearchKnowledge (models.Content msg) s with
  | (_, Some _, s1) => respond msg [] s1
  | (knowledge, None, s1) => respond msg knowledge s1
  end.

End Core.

End llm.

(** ** [internal/api]: the message endpoint *)

Module api.
Local Open Scope string_scope.

Record MessageResponse : Type := {
  Message : models.Message;
  NewConversationID : Z
}.

(** What the endpoint writes: an error status with its text, the encoded
    [MessageResponse], or nothing when the handler panics. *)
Inductive reply : Type :=
| HttpError (status : Z) (text : string)
| HttpOK (body : MessageResponse)
| Aborted (p : string).

Section Handler.
Variable fts_MATCH : string -> option (string -> bool).
Variable ParseFloat : string -> llm.float64 * option error.
Variable sort_Slice : forall A : Type, (A -> A -> bool) -> list A -> list A.
Variable json_Unmarshal : string -> option llm.LLMResponse.
Variable json_Unmarshal_map : string -> option (list (string * json.value)).

(** [HandleMessage] for a POST request whose [conversation_id] parsed
    to [convID] and whose body decoded to a [MessageRequest] with the
    given content.  The handler and the service hold the same
    store. *)
Definition HandleMessage (convID : Z) (content : string) (s : llm.Service)
  : reply * llm.Service :=
  let userMsg := {| models.ID := 0; models.ConvID := convID;
                    models.Role := "user"; models.Content := content;
                    models.CreatedAt := 0 |} in
  match db.SaveMessage userMsg (llm.db s) with
  | (Some err, _, d) =>
      (HttpError 500 ("Failed to save message: " ++ err), llm.with_db d s)
  | (None, userMsg, d) =>
      match llm.ProcessMessage fts_MATCH ParseFloat sort_Slice json_Unmarshal
                               json_Unmarshal_map userMsg (llm.with_db d s) with
      | (llm.Return response, s1) =>
          (HttpOK {| Message := response;
                     NewConversationID := models.ConvID response |}, s1)
      | (llm.Failure err, s1) =>
          (HttpError 500 ("Failed to process message: " ++ err), s1)
      | (llm.Panic p, s1) => (Aborted p, s1)
      end
  end.
End Handler.

End api.

(** * The vocabulary of the properties *)

From Stdlib Require Import Sorted.

(** A [float64] that is a number. *)
Definition is_nan (x : spec_float) : bool :=
  match x with S754_nan => true | _ => false end.

Definition number (x : float) : Prop := is_nan (Prim2SF x) = false.

Section Ordering.
Variable A : Type.
Variable less : A -> A -> bool.

(** [less] is an ordering of the elements of [l] as [sort.Slice]
    requires: strict, transitive, and with a transitive
    incomparability. *)
Definition ordering_on (l : list A) : Prop :=
  (forall x, In x l -> less x x = false) /\
  (forall x y z, In x l -> In y l -> In z l ->
                 less x y = true -> less y z = true -> less x z = true) /\
  (forall x y z, In x l -> In y l -> In z l ->
                 less x y = false -> less y z = false -> less x z = false).

(** No element is [less] than one before it. *)
Definition sorted_by (l : list A) : Prop :=
  StronglySorted (fun a b => less b a = false) l.

(** The elements placed so far, last first, are in order. *)
Definition placed_sorted (placed : list A) : Prop :=
  StronglySorted (fun a b => less a b = false) placed.

End Ordering.

(** What [sort.Slice] promises of every call: the slice is permuted, and
    it ends up sorted when [less] is an ordering of its elements. *)
Definition sort_contract
  (sort_Slice : forall A : Type, (A -> A -> bool) -> list A -> list A) : Prop :=
  forall (A : Type) (less : A -> A -> bool) (l : list A),
    Permutation l (sort_Slice A less l) /\
    (ordering_on less l -> sorted_by less (sort_Slice A less l)).

(** One pair of surrounding double quotes removed, if the string is
    wrapped in one. *)
Definition strip_quotes (c : string) : string :=
  if HasPrefix c dquote && HasSuffix c dquote
  then substring 1 (String.length c - 2) c
  else c.

(** A result whose relevance is strictly greater than 0.3, and a list of
    results in which no relevance is greater than an earlier one. *)
Definition above_threshold (r : llm.KnowledgeSearchResult) : Prop :=
  PrimFloat.ltb llm.threshold (llm.Relevance r) = true.

Definition non_increasing (l : list llm.KnowledgeSearchResult) : Prop :=
  StronglySorted
    (fun a b => PrimFloat.leb (llm.Relevance b) (llm.Relevance a) = true) l.

(** [r] is the scored result of a candidate: it carries the content and
    the time of [c], the [i]-th of the [candidates] the store returned;
    the scoring prompt of the query and of the content of [c] is the
    [i]-th prompt sent after those that [s] had sent before the
    retrieval, [sent] being the prompts sent once the retrieval is over;
    and the relevance of [r] is the number that the completion the
    provider gave to that very call parses to. *)
Definition scored_by (ParseFloat : string -> llm.float64 * option error)
                     (query : string) (s : llm.Service)
                     (candidates : list db.search_result) (sent : list string)
                     (r : llm.KnowledgeSearchResult) : Prop :=
  exists (i : nat) (c : db.search_result) (completion : string),
    nth_error candidates i = Some c /\
    llm.ResultContent r = db.sr_Content c /\
    llm.ResultCreatedAt r = db.sr_CreatedAt c /\
    nth_error sent (List.length (llm.prompts s) + i) =
      Some (llm.relevance_prompt query (db.sr_Content c)) /\
    llm.llm s (List.length (llm.prompts s) + i)
            (llm.relevance_prompt query (db.sr_Content c)) =
      llm.Completion completion /\
    ParseFloat (TrimSpace completion) = (llm.Relevance r, None).

(** The strings of a list, one after the other. *)
Definition join (l : list string) : string :=
  fold_right String.append EmptyString l.

(** The body of a knowledge entry in the words of the specification: a
    heading, then for each index of the user inputs an [Information:]
    line, followed by a [Context:] line when the bot responses reach
    that index. *)
Definition knowledge_block (info : llm.StoreInfo) (i : nat) : string :=
  "Information: " ++ nth i (llm.UserInput info) EmptyString ++ llm.nl
    ++ (if (i <? List.length (llm.BotResponse info))%nat
        then "Context: " ++ nth i (llm.BotResponse info) EmptyString ++ llm.nl
        else EmptyString).

Definition knowledge_body (info : llm.StoreInfo) : string :=
  "Knowledge Entry:" ++ llm.nl
    ++ join (map (knowledge_block info) (seq 0 (List.length (llm.UserInput info)))).

(** The assistant message the dispatcher saves. *)
Definition assistant_message (convID : Z) (content : string) : models.Message :=
  {| models.ID := 0; models.ConvID := convID; models.Role := "assistant";
     models.Content := content; models.CreatedAt := 0 |}.

(** Whether a knowledge entry belongs to the conversation [id]. *)
Definition owned_by (id : Z) (k : db.knowledge_row) : bool :=
  match db.k_conversation_id k with
  | Some c => (c =? id)%Z
  | None => false
  end.

(** The layout of the prompt: the instructions, the knowledge lines, the
    history lines from the oldest fetched message to the newest, and the
    current message with the cue for the answer. *)
Definition knowledge_section (knowledge : list llm.KnowledgeSearchResult) : string :=
  join (map llm.knowledge_line knowledge).

Definition history_section (history : list models.Message) : string :=
  join (map llm.history_line (rev history)).

Definition current_section (msg : models.Message) : string :=
  llm.nl ++ "Current message:" ++ llm.nl
    ++ models.Role msg ++ ": " ++ models.Content msg ++ llm.nl ++ llm.nl
    ++ "Response:".

Definition prompt_layout (knowledge : list llm.KnowledgeSearchResult)
                         (history : list models.Message)
                         (msg : models.Message) : string :=
  llm.systemPrompt ++ llm.nl ++ llm.nl ++ "Relevant knowledge from database:"
    ++ llm.nl ++ knowledge_section knowledge
    ++ llm.nl ++ llm.nl ++ "Conversation history:" ++ llm.nl
    ++ history_section history ++ current_section msg.

(** The user message the endpoint builds from a request. *)
Definition user_message (convID : Z) (content : string) : models.Message :=
  {| models.ID := 0; models.ConvID := convID; models.Role := "user";
     models.Content := content; models.CreatedAt := 0 |}.

(** The knowledge a turn goes on with after retrieval. *)
Definition knowledge_used (knowledge : list llm.KnowledgeSearchResult)
                          (err : option error) : list llm.KnowledgeSearchResult :=
  match err with Some _ => [] | None => knowledge end.

(** ** The core on the library models

    The definitions of [llm] and [api] with the models of
    [strconv.ParseFloat], [sort.Slice] and [json.Unmarshal] above in place
    of their parameters, and the stores and services of the examples. *)

Module Go.

(** A stand-in for the full-text match of the store in the examples: a
    query selects the contents that hold each of its words, compared
    without regard to case; no query is malformed. *)
Definition is_word_byte (c : ascii) : bool :=
  let n := nat_of_ascii (strconv.lower c) in
  ((48 <=? n) && (n <=? 57) || (97 <=? n) && (n <=? 122))%nat.

Fixpoint words (l : list ascii) (word : list ascii) : list string :=
  match l with
  | [] => match word with [] => [] | _ => [of_bytes (rev word)] end
  | c :: r =>
      if is_word_byte c then words r (strconv.lower c :: word)
      else match word with
           | [] => words r []
           | _ => of_bytes (rev word) :: words r []
           end
  end.

Definition word_MATCH (query : string) : option (string -> bool) :=
  Some (fun content =>
          let ws := words (bytes query) [] in
          negb (Nat.eqb (List.length ws) 0)
          && forallb (fun w => existsb (String.eqb w) (words (bytes content) [])) ws).

Definition SearchKnowledge : string -> llm.Service ->
                             list llm.KnowledgeSearchResult * option error * llm.Service :=
  llm.SearchKnowledge word_MATCH strconv.ParseFloat sort.Slice.

Definition interpret : string -> llm.outcome llm.LLMResponse :=
  llm.interpret llm.Unmarshal_LLMResponse json.Unmarshal_map.

Definition ProcessMessage : models.Message -> llm.Service ->
                            llm.outcome models.Message * llm.Service :=
  llm.ProcessMessage word_MATCH strconv.ParseFloat sort.Slice
                     llm.Unmarshal_LLMResponse json.Unmarshal_map.

Definition HandleMessage : Z -> string -> llm.Service -> api.reply * llm.Service :=
  api.HandleMessage word_MATCH strconv.ParseFloat sort.Slice
                    llm.Unmarshal_LLMResponse json.Unmarshal_map.

(** An empty store whose engine runs every statement, at time [now]. *)
Definition empty_tables : db.Tables :=
  {| db.conversations := []; db.messages := []; db.knowledge := [];
     db.knowledge_fts := []; db.seq_conversations := 0;
     db.seq_messages := 0; db.seq_knowledge := 0 |}.

Definition healthy (now : Z) (t : db.Tables) : db.Database :=
  {| db.tables := t; db.engine := fun _ => db.SqlOk now; db.issued := 0 |}.

(** A provider that answers the successive prompts with the given
    completions, and fails once they are used up. *)
Definition scripted (answers : list string) (n : nat) (prompt : string)
  : llm.generation :=
  match nth_error answers n with
  | Some text => llm.Completion text
  | None => llm.GenerationError "no more completions"
  end.

Definition service (answers : list string) (d : db.Database) : llm.Service :=
  {| llm.llm := scripted answers; llm.prompts := []; llm.db := d |}.

(** The completion [{"action": a, "content": c}]. *)
Definition completion_of (action content : string) : string :=
  "{" ++ llm.q "action" ++ ":" ++ llm.q action ++ ","
      ++ llm.q "content" ++ ":" ++ llm.q content ++ "}".


(** A store of two knowledge entries of conversation 1, both indexed, and
    no message. *)
Definition sky_tables : db.Tables :=
  {| db.conversations :=
       [{| models.conv_ID := 1; models.conv_Title := "weather";
           models.conv_CreatedAt := 5 |}];
     db.messages := [];
     db.knowledge :=
       [{| db.k_id := 1; db.k_content := "The sky is blue";
           db.k_conversation_id := Some 1%Z; db.k_created_at := 7 |};
        {| db.k_id := 2; db.k_content := "Sky diving is fun";
           db.k_conversation_id := Some 1%Z; db.k_created_at := 8 |}];
     db.knowledge_fts :=
       [{| db.docid := 1; db.fts_content := "The sky is blue";
           db.fts_conversation_id := Some 1%Z |};
        {| db.docid := 2; db.fts_content := "Sky diving is fun";
           db.fts_conversation_id := Some 1%Z |}];
     db.seq_conversations := 1; db.seq_messages := 0; db.seq_knowledge := 2 |}.

(** A store whose engine fails the second statement it is sent, which
    in [ProcessMessage] is the one that brings the index up to date, and
    runs the others. *)
Definition search_down : db.Database :=
  {| db.tables := sky_tables;
     db.engine := fun n => if Nat.eqb n 1 then db.SqlErr "database is locked"
                           else db.SqlOk 100;
     db.issued := 0 |}.

(** A store whose engine fails the first statement it is sent and runs
    the others. *)
Definition begin_fails : db.Database :=
  {| db.tables := sky_tables;
     db.engine := fun n => if Nat.eqb n 0 then db.SqlErr "database is locked"
                           else db.SqlOk 100;
     db.issued := 0 |}.

(** A service whose provider answers the first prompt with a reply. *)
Definition reply_service (d : db.Database) : llm.Service :=
  service [completion_of "reply" "Blue."] d.

(** A store with ten messages of conversation 1, all of the second
    [100]. *)
Definition busy_tables : db.Tables :=
  {| db.conversations :=
       [{| models.conv_ID := 1; models.conv_Title := "weather";
           models.conv_CreatedAt := 5 |}];
     db.messages :=
       map (fun i => {| models.ID := Z.of_nat i; models.ConvID := 1;
                        models.Role := "user"; models.Content := "earlier";
                        models.CreatedAt := 100 |}) (seq 1 10);
     db.knowledge := []; db.knowledge_fts := [];
     db.seq_conversations := 1; db.seq_messages := 10; db.seq_knowledge := 0 |}.

End Go.

(** * The rest of the store and of the endpoints *)

(** ** [internal/db]: listing the conversations *)

Module db_conversations.
Import models.

(** [GetConversations]: every conversation, newest first. *)
Definition GetConversations (d : db.Database)
  : list Conversation * option error * db.Database :=
  match db.exec d with
  | (db.SqlErr e, d1) => ([], Some e, d1)
  | (db.SqlOk _, d1) =>
      (db.order_by_desc conv_CreatedAt (db.conversations (db.tables d1)), None, d1)
  end.

End db_conversations.

(** ** [internal/db], second copy

    The second copy of the package in [internal/db/sqlite.go] indexes the
    content alone, leaves the indexing of a new entry to the trigger, and
    searches without creating or filling the index first.  Its other
    functions are those of the first copy. *)

Module db_second.
Import db.
Local Open Scope list_scope.
Local Open Scope Z_scope.

(** [INSERT INTO knowledge], with the trigger [knowledge_ai] of this
    copy, which indexes the id and the content of the new row. *)
Definition insert_knowledge (content : string) (conversationID : Z)
                            (now : Z) (t : Tables) : option Tables :=
  let id := next_id (seq_knowledge t) (map k_id (knowledge t)) in
  let row := {| k_id := id; k_content := content;
                k_conversation_id := Some conversationID;
                k_created_at := now |} in
  match fts_insert {| docid := id; fts_content := content;
                      fts_conversation_id := None |}
                   (knowledge_fts t) with
  | None => None
  | Some fts =>
      Some {| conversations := conversations t;
              messages := messages t;
              knowledge := knowledge t ++ [row];
              knowledge_fts := fts;
              seq_conversations := seq_conversations t;
              seq_messages := seq_messages t;
              seq_knowledge := id |}
  end.

(** [SaveToKnowledgeBase]: a transaction with the one insertion. *)
Definition SaveToKnowledgeBase (content : string) (conversationID : Z)
                               (d : Database) : option error * Database :=
  let t0 := tables d in
  match exec d with                                     (* Begin *)
  | (SqlErr e, d1) => (Some ("failed to begin transaction: " ++ e)%string, d1)
  | (SqlOk _, d1) =>
      match exec d1 with                                (* INSERT INTO knowledge *)
      | (SqlErr e, d2) =>
          (Some ("failed to insert into knowledge table: " ++ e)%string,
           with_tables t0 d2)
      | (SqlOk now, d2) =>
          match insert_knowledge content conversationID now (tables d2) with
          | None =>
              (Some ("failed to insert into knowledge table: "
                       ++ constraint_failed)%string, with_tables t0 d2)
          | Some t2 =>
              match exec d2 with                        (* Commit *)
              | (SqlErr e, d3) =>
                  (Some ("failed to commit transaction: " ++ e)%string,
                   with_tables t0 d3)
              | (SqlOk _, d3) => (None, with_tables t2 d3)
              end
          end
      end
  end.

Section Search.
Variable fts_MATCH : string -> option (string -> bool).

(** [SearchKnowledge]: the one query. *)
Definition SearchKnowledge (query : string) (d : Database)
  : list search_result * option error * Database :=
  match exec d with
  | (SqlErr e, d1) => ([], Some ("failed to search knowledge: " ++ e)%string, d1)
  | (SqlOk _, d1) =>
      match fts_MATCH query with
      | None => ([], None, d1)
      | Some selected =>
          match scan_rows (order_by_desc k_created_at
                             (join_fts selected (tables d1))) [] with
          | None => ([], Some ("failed to scan result: " ++ scan_null_error)%string, d1)
          | Some results => (results, None, d1)
          end
      end
  end.
End Search.

End db_second.

(** ** [strconv.ParseInt] *)

Module strconv_int.
Local Open Scope Z_scope.

(** [strconv.ParseInt(s, 10, 64)]: an optional sign and decimal digits,
    one at least, whose value fits [int64]; [None] for an error, of
    syntax or of range. *)
Definition ParseInt (s : string) : option Z :=
  let '(neg, digits) := strconv.read_sign (bytes s) in
  match digits with
  | [] => None
  | _ :: _ =>
      if forallb strconv.is_digit digits then
        let un := fold_left (fun acc c => 10 * acc + strconv.digit_val c) digits 0 in
        if neg then (if un <=? 2 ^ 63 then Some (- un) else None)
        else (if un <? 2 ^ 63 then Some un else None)
      else None
  end.

End strconv_int.

(** ** [internal/api]: the handlers, and the routes of [cmd/server] *)

Module handlers.
Local Open Scope string_scope.

(** What a handler reads of a request: the method, the query parameters
    [conversation_id] and [q] (empty when absent, as [Query().Get] gives
    them), and the body. *)
Record Request : Type := {
  Method : string;
  conversation_id : string;
  q : string;
  Body : string
}.

(** What is written as the body: the text of [http.Error], or the value
    handed to the JSON encoder. *)
Inductive payload : Type :=
| Text (text : string)
| MessageBody (m : api.MessageResponse)
| ConversationBody (c : models.Conversation)
| ConversationsBody (l : list models.Conversation)
| MessagesBody (l : list models.Message)
| KnowledgeBody (l : list llm.KnowledgeSearchResult)
| NoBody.

Record Response : Type := {
  Status : Z;
  Payload : payload
}.

(** A request is answered, or its handler panics and nothing is
    written. *)
Inductive served : Type :=
| Served (r : Response)
| Panicked (p : string).

(** [http.Error(w, text, status)]: the text and a line feed. *)
Definition http_Error (text : string) (status : Z) : served :=
  Served {| Status := status; Payload := Text (text ++ llm.nl) |}.

Definition OK (p : payload) : served :=
  Served {| Status := 200; Payload := p |}.

Section Handlers.
Variable fts_MATCH : string -> option (string -> bool).
Variable ParseFloat : string -> llm.float64 * option error.
Variable sort_Slice : forall A : Type, (A -> A -> bool) -> list A -> list A.
Variable json_Unmarshal : string -> option llm.LLMResponse.
Variable json_Unmarshal_map : string -> option (list (string * json.value)).

(** [json.NewDecoder(r.Body).Decode] into a [MessageRequest] and into a
    [CreateConversationRequest] or an [UpdateConversationRequest]: the
    content, or the title, decoded from the body, [None] for an error. *)
Variable decode_content : string -> option string.
Variable decode_title : string -> option string.

(** [HandleMessage], from the request on. *)
Definition HandleMessage (r : Request) (s : llm.Service) : served * llm.Service :=
  if negb (String.eqb (Method r) "POST") then
    (http_Error "Method not allowed" 405, s)
  else
    match strconv_int.ParseInt (conversation_id r) with
    | None => (http_Error "Invalid conversation ID" 400, s)
    | Some convID =>
        match decode_content (Body r) with
        | None => (http_Error "Invalid request body" 400, s)
        | Some content =>
            match api.HandleMessage fts_MATCH ParseFloat sort_Slice json_Unmarshal
                                    json_Unmarshal_map convID content s with
            | (api.HttpError status text, s1) => (http_Error text status, s1)
            | (api.HttpOK body, s1) => (OK (MessageBody body), s1)
            | (api.Aborted p, s1) => (Panicked p, s1)
            end
        end
    end.

(** [GetConversations]: the list on GET, a new conversation on POST. *)
Definition GetConversations (r : Request) (s : llm.Service) : served * llm.Service :=
  if String.eqb (Method r) "GET" then
    match db_conversations.GetConversations (llm.db s) with
    | (_, Some _, d) => (http_Error "Internal server error" 500, llm.with_db d s)
    | (conversations, None, d) => (OK (ConversationsBody conversations), llm.with_db d s)
    end
  else if String.eqb (Method r) "POST" then
    match decode_title (Body r) with
    | None => (http_Error "Invalid request body" 400, s)
    | Some title =>
        match db.CreateConversation title (llm.db s) with
        | (_, Some _, d) => (http_Error "Internal server error" 500, llm.with_db d s)
        | (conversation, None, d) => (OK (ConversationBody conversation), llm.with_db d s)
        end
    end
  else (http_Error "Method not allowed" 405, s).

(** [GetMessages]: the fifty newest messages of the conversation. *)
Definition GetMessages (r : Request) (s : llm.Service) : served * llm.Service :=
  if negb (String.eqb (Method r) "GET") then
    (http_Error "Method not allowed" 405, s)
  else
    match strconv_int.ParseInt (conversation_id r) with
    | None => (http_Error "Invalid conversation ID" 400, s)
    | Some convID =>
        match db.GetConversationHistory convID 50 (llm.db s) with
        | (_, Some _, d) => (http_Error "Internal server error" 500, llm.with_db d s)
        | (messages, None, d) => (OK (MessagesBody messages), llm.with_db d s)
        end
    end.

(** [SearchKnowledge]: the retrieval for the query [q]. *)
Definition SearchKnowledge (r : Request) (s : llm.Service) : served * llm.Service :=
  if negb (String.eqb (Method r) "GET") then
    (http_Error "Method not allowed" 405, s)
  else if String.eqb (q r) EmptyString then
    (http_Error "Query parameter 'q' is required" 400, s)
  else
    match llm.SearchKnowledge fts_MATCH ParseFloat sort_Slice (q r) s with
    | (_, Some _, s1) => (http_Error "Internal server error" 500, s1)
    | (results, None, s1) => (OK (KnowledgeBody results), s1)
    end.

(** [DeleteConversation] *)
Definition DeleteConversation (r : Request) (s : llm.Service) : served * llm.Service :=
  if negb (String.eqb (Method r) "DELETE") then
    (http_Error "Method not allowed" 405, s)
  else
    match strconv_int.ParseInt (conversation_id r) with
    | None => (http_Error "Invalid conversation ID" 400, s)
    | Some convID =>
        match db.DeleteConversation convID (llm.db s) with
        | (Some _, d) => (http_Error "Internal server error" 500, llm.with_db d s)
        | (None, d) => (OK NoBody, llm.with_db d s)
        end
    end.

(** [UpdateConversation] *)
Definition UpdateConversation (r : Request) (s : llm.Service) : served * llm.Service :=
  if negb (String.eqb (Method r) "PUT") then
    (http_Error "Method not allowed" 405, s)
  else
    match strconv_int.ParseInt (conversation_id r) with
    | None => (http_Error "Invalid conversation ID" 400, s)
    | Some convID =>
        match decode_title (Body r) with
        | None => (http_Error "Invalid request body" 400, s)
        | Some title =>
            match db.UpdateConversationTitle convID title (llm.db s) with
            | (Some _, d) => (http_Error "Internal server error" 500, llm.with_db d s)
            | (None, d) => (OK NoBody, llm.with_db d s)
            end
        end
    end.

(** The routes that [main] registers; every other path goes to the file
    server, which is [None] here. *)
Definition route (path : string)
  : option (Request -> llm.Service -> served * llm.Service) :=
  if String.eqb path "/api/message" then Some HandleMessage
  else if String.eqb path "/api/conversations" then Some GetConversations
  else if String.eqb path "/api/messages" then Some GetMessages
  else if String.eqb path "/api/knowledge/search" then Some SearchKnowledge
  else if String.eqb path "/api/conversations/delete" then Some DeleteConversation
  else if String.eqb path "/api/conversations/update" then Some UpdateConversation
  else None.

End Handlers.

End handlers.

(** ** [internal/db]: opening the store *)

Module db_open.

(** [New] on a database file that holds [stored]: the schema is run, which
    creates what is missing and drops and recreates the index, so the
    index starts empty.  When the schema fails, [main] exits. *)
Definition New (stored : db.Tables) (engine : nat -> db.sqlres)
  : option db.Database * option error :=
  match engine O with
  | db.SqlErr e => (None, Some e)
  | db.SqlOk _ =>
      (Some {| db.tables := db.with_fts [] stored; db.engine := engine;
               db.issued := 1 |}, None)
  end.

End db_open.

(** ** The vocabulary of the further properties *)

(** Rows in the order newest first, by the given time. *)
Definition newest_first {A : Type} (time : A -> Z) (l : list A) : Prop :=
  StronglySorted (fun a b => (time b <= time a)%Z) l.

(** The messages of a conversation, in the order of the table. *)
Definition messages_of (convID : Z) (t : db.Tables) : list models.Message :=
  filter (fun m => (models.ConvID m =? convID)%Z) (db.messages t).

(** Every index entry carries the content of the knowledge row of its
    [docid], and every knowledge row has an index entry. *)
Definition index_agrees (t : db.Tables) : Prop :=
  forall f k, In f (db.knowledge_fts t) -> In k (db.knowledge t) ->
              db.k_id k = db.docid f -> db.fts_content f = db.k_content k.

Definition index_anchored (t : db.Tables) : Prop :=
  forall f, In f (db.knowledge_fts t) ->
            exists k, In k (db.knowledge t) /\ db.k_id k = db.docid f.

Definition index_complete (t : db.Tables) : Prop :=
  forall k, In k (db.knowledge t) ->
            exists f, In f (db.knowledge_fts t) /\ db.docid f = db.k_id k.

(** The [conversation_id] of every knowledge entry is not NULL.  The
    conversation it names need not exist: no foreign key is enforced. *)
Definition all_owned (t : db.Tables) : Prop :=
  forall k, In k (db.knowledge t) -> db.k_conversation_id k <> None.

(** The four actions the dispatcher knows. *)
Definition known_action (a : string) : bool :=
  String.eqb a "reply" || String.eqb a "store" || String.eqb a "search"
  || String.eqb a "new_conversation".

(** The messages a call returned, as a list: the message on success,
    nothing otherwise. *)
Definition returned (o : llm.outcome models.Message) : list models.Message :=
  match o with llm.Return m => [m] | _ => [] end.

(** The scoring prompts of a list of candidates, in order. *)
Definition scoring_prompts (query : string) (candidates : list db.search_result)
  : list string :=
  map (fun c => llm.relevance_prompt query (db.sr_Content c)) candidates.

(** The status of an answer and the state after it; a panic has no
    status. *)
Definition status_of (a : handlers.served) : option Z :=
  match a with
  | handlers.Served r => Some (handlers.Status r)
  | handlers.Panicked _ => None
  end.

(** A row of a search result carries the content, the conversation and
    the time of the knowledge row [k]. *)
Definition row_result (k : db.knowledge_row) (r : db.search_result) : Prop :=
  db.k_conversation_id k = Some (db.sr_ConversationID r) /\
  db.sr_Content r = db.k_content k /\
  db.sr_CreatedAt r = db.k_created_at k.

(** ** The store in use: calls and restarts *)

Module store.

Section Calls.
Variable fts_MATCH : string -> option (string -> bool).

(** The calls of the store that the service and the endpoints make. *)
Inductive call : Type :=
| Call_SaveMessage (msg : models.Message)
| Call_CreateConversation (title : string)
| Call_SaveToKnowledgeBase (content : string) (conversationID : Z)
| Call_GetConversationHistory (conversationID limit : Z)
| Call_GetConversations
| Call_SearchKnowledge (query : string)
| Call_DeleteConversation (id : Z)
| Call_UpdateConversationTitle (id : Z) (title : string).

(** The store after a call; [second] selects the second copy of the
    package for the two functions that differ. *)
Definition perform (second : bool) (c : call) (d : db.Database) : db.Database :=
  match c with
  | Call_SaveMessage msg => snd (db.SaveMessage msg d)
  | Call_CreateConversation title => snd (db.CreateConversation title d)
  | Call_SaveToKnowledgeBase content conversationID =>
      if second then snd (db_second.SaveToKnowledgeBase content conversationID d)
      else snd (db.SaveToKnowledgeBase content conversationID d)
  | Call_GetConversationHistory conversationID limit =>
      snd (db.GetConversationHistory conversationID limit d)
  | Call_GetConversations => snd (db_conversations.GetConversations d)
  | Call_SearchKnowledge query =>
      if second then snd (db_second.SearchKnowledge fts_MATCH query d)
      else snd (db.SearchKnowledge fts_MATCH query d)
  | Call_DeleteConversation id => snd (db.DeleteConversation id d)
  | Call_UpdateConversationTitle id title =>
      snd (db.UpdateConversationTitle id title d)
  end.

(** The stores a server can hold: the one [New] opens on a new file,
    those its calls lead to, and those [New] opens on the file a former
    run left. *)
Inductive reachable (second : bool) : db.Database -> Prop :=
| reach_new (engine : nat -> db.sqlres) (d : db.Database) :
    db_open.New Go.empty_tables engine = (Some d, None) ->
    reachable second d
| reach_call (c : call) (d : db.Database) :
    reachable second d -> reachable second (perform second c d)
| reach_restart (engine : nat -> db.sqlres) (d d' : db.Database) :
    reachable second d ->
    db_open.New (db.tables d) engine = (Some d', None) ->
    reachable second d'.

End Calls.

End store.

(** What the calls of the store maintain: no knowledge entry has a NULL
    [conversation_id]; the identifiers of each table are distinct; every
    index entry belongs to a knowledge row and carries its content. *)
Definition store_invariant (t : db.Tables) : Prop :=
  all_owned t /\
  NoDup (map db.k_id (db.knowledge t)) /\
  NoDup (map db.docid (db.knowledge_fts t)) /\
  index_anchored t /\
  index_agrees t /\
  NoDup (map models.ID (db.messages t)) /\
  NoDup (map models.conv_ID (db.conversations t)).

(** A store that was opened on a new file and on which one knowledge
    entry was saved by the second copy of the package. *)
Definition one_entry_store : db.Database :=
  store.perform Go.word_MATCH true
    (store.Call_SaveToKnowledgeBase "The sky is blue" 1)
    {| db.tables := Go.empty_tables; db.engine := fun _ => db.SqlOk 100;
       db.issued := 1 |}.

(** The tables once the index is brought up to date ([syncFTS]). *)
Definition synced (t : db.Tables) : db.Tables :=
  db.with_fts (db.knowledge_fts t ++ db.unindexed t)%list t.

(** A store with a knowledge entry that has no conversation, as an
    edit of the file outside the program can leave it. *)
Definition orphan_tables : db.Tables :=
  {| db.conversations := []; db.messages := [];
     db.knowledge :=
       [{| db.k_id := 1; db.k_content := "The sky is blue";
           db.k_conversation_id := None; db.k_created_at := 7 |}];
     db.knowledge_fts := [];
     db.seq_conversations := 0; db.seq_messages := 0; db.seq_knowledge := 1 |}.

(** The message an answer of the message endpoint carries, as a list. *)
Definition answered (r : api.reply) : list models.Message :=
  match r with api.HttpOK body => [api.Message body] | _ => [] end.


(** A response whose action differs from [reply] by the case of a
    letter. *)
Definition capital_reply : llm.LLMResponse :=
  {| llm.Action := "Reply"; llm.Content := "Blue.";
     llm.store_info := {| llm.UserInput := []; llm.BotResponse := [] |};
     llm.NewTitle := EmptyString |}.

(** [Decode] of a request body that holds one JSON value into a struct
    with one string field of the given JSON name, as [MessageRequest],
    [CreateConversationRequest] and [UpdateConversationRequest] are. *)
Fixpoint decode_member (name : string) (members : list (string * json.value))
                       (old : string) : option string :=
  match members with
  | [] => Some old
  | (k, v) :: rest =>
      match json.field_of [name] k with
      | Some _ =>
          match llm.decode_string v old with
          | Some c => decode_member name rest c
          | None => None
          end
      | None => decode_member name rest old
      end
  end.

Definition decode_request_field (name body : string) : option string :=
  match json.parse body with
  | Some (json.Object members) => decode_member name members EmptyString
  | Some json.Null => Some EmptyString
  | _ => None
  end.

(** Requests of the examples. *)
Definition get_request (id query : string) : handlers.Request :=
  {| handlers.Method := "GET"; handlers.conversation_id := id;
     handlers.q := query; handlers.Body := EmptyString |}.

Definition delete_request (id : string) : handlers.Request :=
  {| handlers.Method := "DELETE"; handlers.conversation_id := id;
     handlers.q := EmptyString; handlers.Body := EmptyString |}.

(** * Properties *)

(** ** The order of [float64] *)

Module FloatOrder.

Ltac cases :=
  repeat match goal with
    | |- context [Pos.compare_cont Eq ?a ?b] =>
        change (Pos.compare_cont Eq a b) with (Pos.compare a b) in *
    | H : context [Pos.compare_cont Eq ?a ?b] |- _ =>
        change (Pos.compare_cont Eq a b) with (Pos.compare a b) in *
    end;
  repeat match goal with
    | |- context [(?a ?= ?b)%Z] => destruct (Z.compare_spec a b); subst
    | H : context [(?a ?= ?b)%Z] |- _ => destruct (Z.compare_spec a b); subst
    | |- context [(?a ?= ?b)%positive] => destruct (Pos.compare_spec a b); subst
    | H : context [(?a ?= ?b)%positive] |- _ =>
        destruct (Pos.compare_spec a b); subst
    end;
  simpl in *; try congruence; try lia.

Ltac by_cases x y z :=
  destruct x as [[|]|[|]| |[|] ? ?], y as [[|]|[|]| |[|] ? ?],
           z as [[|]|[|]| |[|] ? ?];
  try discriminate; try reflexivity; intros; cases.

Lemma SFltb_trans (x y z : spec_float) :
  SFltb x y = true -> SFltb y z = true -> SFltb x z = true.
Proof. unfold SFltb, SFcompare. by_cases x y z. Qed.

Lemma SFltb_irrefl (x : spec_float) : SFltb x x = false.
Proof.
  unfold SFltb, SFcompare.
  destruct x as [[|]|[|]| |[|] mx ex]; try reflexivity;
    change (Pos.compare_cont Eq mx mx) with (Pos.compare mx mx);
    rewrite Z.compare_refl, Pos.compare_refl; reflexivity.
Qed.

Lemma SFltb_negtrans (x y z : spec_float) :
  is_nan x = false -> is_nan y = false -> is_nan z = false ->
  SFltb x y = false -> SFltb y z = false -> SFltb x z = false.
Proof. unfold SFltb, SFcompare. by_cases x y z. Qed.

Lemma SFltb_false_leb (x y : spec_float) :
  is_nan x = false -> is_nan y = false ->
  SFltb x y = false -> SFleb y x = true.
Proof.
  unfold SFltb, SFleb, SFcompare.
  destruct x as [[|]|[|]| |[|] ? ?], y as [[|]|[|]| |[|] ? ?];
    try discriminate; try reflexivity; intros; cases.
Qed.

Lemma SFltb_number (x y : spec_float) : SFltb x y = true -> is_nan y = false.
Proof. destruct x, y; try discriminate; reflexivity. Qed.

Lemma SFltb_leb (x y : spec_float) : SFltb x y = true -> SFleb x y = true.
Proof. unfold SFltb, SFleb. destruct (SFcompare x y) as [[]|]; congruence. Qed.

(** The same on [float64], through the specification of the primitive
    comparisons. *)

Lemma ltb_trans (x y z : float) :
  PrimFloat.ltb x y = true -> PrimFloat.ltb y z = true -> PrimFloat.ltb x z = true.
Proof. rewrite !ltb_spec. apply SFltb_trans. Qed.

Lemma ltb_irrefl (x : float) : PrimFloat.ltb x x = false.
Proof. rewrite ltb_spec. apply SFltb_irrefl. Qed.

Lemma ltb_negtrans (x y z : float) :
  number x -> number y -> number z ->
  PrimFloat.ltb x y = false -> PrimFloat.ltb y z = false ->
  PrimFloat.ltb x z = false.
Proof. rewrite !ltb_spec. apply SFltb_negtrans. Qed.

Lemma ltb_false_leb (x y : float) :
  number x -> number y -> PrimFloat.ltb x y = false -> PrimFloat.leb y x = true.
Proof. rewrite ltb_spec, leb_spec. apply SFltb_false_leb. Qed.

Lemma ltb_number (x y : float) : PrimFloat.ltb x y = true -> number y.
Proof. rewrite ltb_spec. apply SFltb_number. Qed.

Lemma ltb_leb (x y : float) : PrimFloat.ltb x y = true -> PrimFloat.leb x y = true.
Proof. rewrite ltb_spec, leb_spec. apply SFltb_leb. Qed.

End FloatOrder.

(** ** The contract of [sort.Slice] *)

Section SortContract.
Variable A : Type.
Variable less : A -> A -> bool.


Lemma insert_back_perm (x : A) (placed : list A) :
  Permutation (x :: placed) (sort.insert_back less x placed).
Proof.
  induction placed as [|y r IH]; simpl.
  - apply Permutation_refl.
  - destruct (less x y).
    + eapply perm_trans; [apply perm_swap|]. apply perm_skip, IH.
    + apply Permutation_refl.
Qed.

Lemma insertion_perm (l placed : list A) :
  Permutation (placed ++ l)
    (fold_left (fun placed x => sort.insert_back less x placed) l placed).
Proof.
  revert placed. induction l as [|x l IH]; intros placed; simpl.
  - rewrite app_nil_r. apply Permutation_refl.
  - eapply perm_trans; [|apply IH].
    eapply perm_trans; [apply Permutation_sym, Permutation_middle|].
    apply (Permutation_app_tail l (insert_back_perm x placed)).
Qed.

Lemma Slice_perm (l : list A) : Permutation l (sort.Slice less l).
Proof.
  unfold sort.Slice.
  eapply perm_trans; [|apply Permutation_rev].
  apply (insertion_perm l []).
Qed.


Lemma insert_back_sorted (all : list A) (x : A) (placed : list A) :
  ordering_on less all -> In x all -> incl placed all ->
  placed_sorted less placed -> placed_sorted less (sort.insert_back less x placed).
Proof.
  intros (Hirr & Htr & Hneg) Hx.
  induction placed as [|y r IH]; intros Hin Hs; simpl.
  - repeat constructor.
  - assert (Hy : In y all) by (apply Hin; left; reflexivity).
    assert (Hr : incl r all) by (intros z Hz; apply Hin; right; exact Hz).
    inversion Hs as [|? ? Hs' Hall]; subst.
    destruct (less x y) eqn:Hxy.
    + constructor; [apply IH; assumption|].
      rewrite Forall_forall. intros z Hz.
      apply (Permutation_in _ (Permutation_sym (insert_back_perm x r))) in Hz.
      destruct Hz as [<-|Hz].
      * destruct (less y x) eqn:Hyx; [|reflexivity].
        rewrite <- (Hirr x Hx). symmetry. apply (Htr x y x); assumption.
      * rewrite Forall_forall in Hall. apply Hall, Hz.
    + constructor; [exact Hs|].
      constructor; [exact Hxy|].
      rewrite Forall_forall in Hall |- *. intros z Hz.
      apply (Hneg x y z); auto.
Qed.

Lemma insertion_sorted (all l placed : list A) :
  ordering_on less all -> incl l all -> incl placed all -> placed_sorted less placed ->
  placed_sorted less (fold_left (fun placed x => sort.insert_back less x placed) l placed).
Proof.
  intros Hord. revert placed.
  induction l as [|x l IH]; intros placed Hl Hp Hs; simpl; [exact Hs|].
  assert (Hx : In x all) by (apply Hl; left; reflexivity).
  apply IH.
  - intros z Hz. apply Hl. right. exact Hz.
  - intros z Hz.
    apply (Permutation_in _ (Permutation_sym (insert_back_perm x placed))) in Hz.
    destruct Hz as [<-|Hz]; [exact Hx|apply Hp, Hz].
  - apply insert_back_sorted with (all := all); assumption.
Qed.

Lemma StronglySorted_app (R : A -> A -> Prop) (l1 l2 : list A) :
  StronglySorted R l1 -> StronglySorted R l2 ->
  (forall a b, In a l1 -> In b l2 -> R a b) ->
  StronglySorted R (l1 ++ l2).
Proof.
  induction l1 as [|a l1 IH]; intros H1 H2 H12; simpl; [exact H2|].
  inversion H1 as [|? ? H1' Ha]; subst.
  constructor.
  - apply IH; auto. intros; apply H12; [right|]; assumption.
  - rewrite Forall_forall in *. intros b Hb.
    apply in_app_or in Hb. destruct Hb; [auto|].
    apply H12; [left; reflexivity|assumption].
Qed.

Lemma StronglySorted_rev (R : A -> A -> Prop) (l : list A) :
  StronglySorted R l -> StronglySorted (fun a b => R b a) (rev l).
Proof.
  induction 1 as [|a l Hs IH Ha]; simpl; [constructor|].
  apply StronglySorted_app; [exact IH|repeat constructor|].
  intros x y Hx [<-|[]]. rewrite Forall_forall in Ha.
  apply Ha, in_rev, Hx.
Qed.

Lemma Slice_sorted (l : list A) : ordering_on less l -> sorted_by less (sort.Slice less l).
Proof.
  intros Hord. unfold sorted_by, sort.Slice.
  apply (StronglySorted_rev (R := fun a b => less a b = false)).
  apply insertion_sorted with (all := l); auto using incl_refl.
  - intros z [].
  - constructor.
Qed.
End SortContract.


Lemma Slice_contract : sort_contract sort.Slice.
Proof. intros A less l. split; [apply Slice_perm|apply Slice_sorted]. Qed.



(** ** Strings *)

Lemma append_assoc (a b c : string) : (a ++ b) ++ c = a ++ (b ++ c).
Proof. induction a as [|x a IH]; simpl; [reflexivity|]. now rewrite IH. Qed.

Lemma append_empty_r (a : string) : a ++ EmptyString = a.
Proof. induction a as [|x a IH]; simpl; [reflexivity|]. now rewrite IH. Qed.


Lemma substring_all (s : string) : substring 0 (String.length s) s = s.
Proof. induction s as [|x s IH]; simpl; [reflexivity|]. now rewrite IH. Qed.

Lemma substring_append_l (s t : string) :
  substring 0 (String.length s) (s ++ t) = s.
Proof. induction s as [|x s IH]; simpl; [destruct t; reflexivity|]. now rewrite IH. Qed.

Lemma substring_skip (s t : string) (n : nat) :
  substring (String.length s) n (s ++ t) = substring 0 n t.
Proof. induction s as [|x s IH]; simpl; [reflexivity|]. exact IH. Qed.

Lemma length_append (s t : string) :
  String.length (s ++ t) = String.length s + String.length t.
Proof. induction s as [|x s IH]; simpl; [reflexivity|]. now rewrite IH. Qed.

Lemma HasPrefix_append (p s : string) : HasPrefix (p ++ s) p = true.
Proof. unfold HasPrefix. apply String.prefix_correct, substring_append_l. Qed.

Lemma HasSuffix_append (s p : string) : HasSuffix (s ++ p) p = true.
Proof.
  unfold HasSuffix. rewrite length_append.
  replace (String.length s + String.length p - String.length p)
    with (String.length s) by lia.
  rewrite substring_skip, substring_all, String.eqb_refl.
  rewrite andb_true_r. apply Nat.leb_le. lia.
Qed.

Lemma strip_quotes_wrapped (inner : string) :
  strip_quotes (dquote ++ inner ++ dquote) = inner.
Proof.
  unfold strip_quotes.
  rewrite HasPrefix_append, <- append_assoc, HasSuffix_append, append_assoc.
  rewrite !length_append. simpl.
  replace (String.length inner + 1 - 1) with (String.length inner) by lia.
  apply substring_append_l.
Qed.

(** A string that starts with a double quote and is not that quote alone
    has two bytes at least. *)
Lemma HasPrefix_dquote_length (c : string) :
  HasPrefix c dquote = true -> c <> dquote -> 2 <= String.length c.
Proof.
  unfold HasPrefix. intros H Hne. apply String.prefix_correct in H.
  destruct c as [|a [|b c]]; simpl in *; try lia.
  - discriminate.
  - congruence.
Qed.

Section CleanUp.
  Import llm.

  (** The clean-up panics on the content that trims to one double quote,
      and on no other; elsewhere it trims the content and strips one pair
      of quotes. *)
Lemma clean_up_spec (r : LLMResponse) :
    clean_up r =
      if String.eqb (TrimSpace (Content r)) dquote then Panic slice_panic
      else Return (with_Content (strip_quotes (TrimSpace (Content r))) r).
  Proof.
    unfold clean_up, strip_quotes.
    set (c := TrimSpace (Content r)).
    destruct (String.eqb_spec c dquote) as [->|Hne]; [reflexivity|].
    destruct (HasPrefix c dquote) eqn:Hp; simpl; [|reflexivity].
    destruct (HasSuffix c dquote) eqn:Hs; [|reflexivity].
    pose proof (HasPrefix_dquote_length Hp Hne) as Hlen.
    unfold slice.
    replace (_ && _ && _)%bool with true.
    - do 2 f_equal. f_equal; lia.
    - symmetry. rewrite !andb_true_iff, !Z.leb_le. lia.
  Qed.
End CleanUp.

(** ** Response Interpreter *)

Section Interpreter.
Import llm.
Variable json_Unmarshal : string -> option LLMResponse.
Variable json_Unmarshal_map : string -> option (list (string * json.value)).

(** C1, as the code has it: when the completion does not decode, the
    interpreted response is a [reply] with no store information and no
    title, whose content is the completion with its surrounding white
    space trimmed and then one pair of enclosing double quotes removed,
    if it has one.  The completion that trims to a lone double quote is
    left out. *)
Theorem fallback_reply_is_cleaned_completion (completion : string) :
  json_Unmarshal completion = None ->
  TrimSpace completion <> dquote ->
  interpret json_Unmarshal json_Unmarshal_map completion =
    Return {| Action := "reply";
              Content := strip_quotes (TrimSpace completion);
              store_info := {| UserInput := []; BotResponse := [] |};
              NewTitle := EmptyString |}.
Proof.
  intros Herr Hne. unfold interpret, parse_response. rewrite Herr.
  rewrite clean_up_spec. simpl Content.
  destruct (String.eqb_spec (TrimSpace completion) dquote); [contradiction|].
  reflexivity.
Qed.

End Interpreter.

(** C1 fails as stated: the completion [ hi ], with a space on either
    side, is not JSON, and the content of the reply is [hi], not the
    completion. *)
Lemma fallback_reply_not_verbatim :
  llm.Unmarshal_LLMResponse " hi " = None /\
  Go.interpret " hi " =
    llm.Return {| llm.Action := "reply"; llm.Content := "hi";
                  llm.store_info := {| llm.UserInput := []; llm.BotResponse := [] |};
                  llm.NewTitle := EmptyString |} /\
  "hi" <> " hi ".
Proof. repeat split; [vm_compute; reflexivity..|discriminate]. Qed.

Lemma fallback_reply_is_cleaned_completion_witness :
  Go.interpret (" " ++ dquote ++ "hi" ++ dquote ++ " ") =
    llm.Return {| llm.Action := "reply"; llm.Content := "hi";
                  llm.store_info := {| llm.UserInput := []; llm.BotResponse := [] |};
                  llm.NewTitle := EmptyString |}.
Proof.
  apply (fallback_reply_is_cleaned_completion
           llm.Unmarshal_LLMResponse json.Unmarshal_map
           (" " ++ dquote ++ "hi" ++ dquote ++ " ")).
  - vm_compute. reflexivity.
  - vm_compute. discriminate.
Defined.

(** C3 fails on the code: the slice expression that strips the quotes is
    evaluated on every content that starts and ends with a double quote,
    and the content made of one double quote is both; there the bounds are
    [1:0] and the interpreter panics.  It does so on the completion that
    is a lone double quote (not JSON, so the fallback content), and on the
    well-formed completion of action [reply] whose content is the
    escaped double quote. *)
Theorem quote_stripping_panics :
  Go.interpret dquote = llm.Panic llm.slice_panic /\
  llm.Unmarshal_LLMResponse (Go.completion_of "reply" ("\" ++ dquote)) =
    Some {| llm.Action := "reply"; llm.Content := dquote;
            llm.store_info := {| llm.UserInput := []; llm.BotResponse := [] |};
            llm.NewTitle := EmptyString |} /\
  Go.interpret (Go.completion_of "reply" ("\" ++ dquote)) = llm.Panic llm.slice_panic /\
  GoStrings.slice dquote 1 (Z.of_nat (String.length dquote) - 1) = None.
Proof. repeat split; vm_compute; reflexivity. Qed.

(** ** Knowledge Retriever *)

Lemma StronglySorted_weaken (A : Type) (R R' : A -> A -> Prop) (l : list A) :
  (forall a b, In a l -> In b l -> R a b -> R' a b) ->
  StronglySorted R l -> StronglySorted R' l.
Proof.
  intros Himp Hs. induction Hs as [|a l Hs IH Ha]; [constructor|].
  constructor.
  - apply IH. intros x y Hx Hy. apply Himp; right; assumption.
  - rewrite Forall_forall in *. intros b Hb.
    apply Himp; [left; reflexivity|right; exact Hb|apply Ha, Hb].
Qed.

Lemma by_relevance_ordering (l : list llm.KnowledgeSearchResult) :
  Forall above_threshold l -> ordering_on llm.by_relevance l.
Proof.
  intros Hl. rewrite Forall_forall in Hl. unfold llm.by_relevance.
  repeat split.
  - intros x _. apply FloatOrder.ltb_irrefl.
  - intros x y z _ _ _ Hxy Hyz. eapply FloatOrder.ltb_trans; eassumption.
  - intros x y z Hx Hy Hz Hxy Hyz.
    apply FloatOrder.ltb_negtrans with (y := llm.Relevance y);
      try assumption; eapply FloatOrder.ltb_number; apply Hl; assumption.
Qed.

Lemma sorted_by_relevance_non_increasing (l : list llm.KnowledgeSearchResult) :
  Forall above_threshold l -> sorted_by llm.by_relevance l -> non_increasing l.
Proof.
  intros Hl. rewrite Forall_forall in Hl.
  apply StronglySorted_weaken. intros a b Ha Hb Hab.
  apply FloatOrder.ltb_false_leb; [| |exact Hab];
    eapply FloatOrder.ltb_number; apply Hl; assumption.
Qed.

Section Retriever.
Import llm.
Variable fts_MATCH : string -> option (string -> bool).
Variable ParseFloat : string -> float64 * option error.
Variable sort_Slice : forall A : Type, (A -> A -> bool) -> list A -> list A.
Hypothesis sort_Slice_contract : sort_contract sort_Slice.

(** The loop appends only results above the threshold. *)
Lemma score_results_above (query : string) (candidates : list db.search_result) :
  forall (acc : list KnowledgeSearchResult) (s : Service),
    Forall above_threshold acc ->
    Forall above_threshold (fst (fst (score_results ParseFloat query candidates acc s))).
Proof.
  induction candidates as [|c rest IH]; intros acc s Hacc; simpl; [exact Hacc|].
  destruct (llm s (List.length (prompts s)) _) as [completion|err]; simpl; [|constructor].
  destruct (PrimFloat.ltb threshold (relevance_of ParseFloat completion)) eqn:Hrel.
  - apply IH. apply Forall_app. split; [exact Hacc|].
    constructor; [exact Hrel|constructor].
  - apply IH, Hacc.
Qed.

Lemma sorted_results (k : list KnowledgeSearchResult) :
  Forall above_threshold k ->
  Forall above_threshold (sort_Slice by_relevance k) /\
  non_increasing (sort_Slice by_relevance k).
Proof.
  intros Hk. destruct (sort_Slice_contract by_relevance k) as [Hperm Hsorted].
  assert (Habove : Forall above_threshold (sort_Slice by_relevance k)).
  { rewrite Forall_forall in *. intros r Hr. apply Hk.
    apply (Permutation_in _ (Permutation_sym Hperm)), Hr. }
  split; [exact Habove|].
  apply sorted_by_relevance_non_increasing; [exact Habove|].
  apply Hsorted, by_relevance_ordering, Hk.
Qed.

Lemma scored_then_sorted (query : string) (s : Service)
                          (candidates : list db.search_result) :
  Forall above_threshold
    (sort_Slice by_relevance
       (fst (fst (score_results ParseFloat query candidates [] s)))) /\
  non_increasing
    (sort_Slice by_relevance
       (fst (fst (score_results ParseFloat query candidates [] s)))).
Proof. apply sorted_results, score_results_above. constructor. Qed.

Lemma SearchKnowledge_above_sorted (query : string) (s : Service) :
  Forall above_threshold
    (fst (fst (SearchKnowledge fts_MATCH ParseFloat sort_Slice query s))) /\
  non_increasing
    (fst (fst (SearchKnowledge fts_MATCH ParseFloat sort_Slice query s))).
Proof.
  unfold SearchKnowledge.
  destruct (db.SearchKnowledge fts_MATCH query (db s)) as [[candidates [err|]] d];
    simpl; [split; constructor|].
  pose proof (scored_then_sorted query (with_db d s) candidates) as Hsorted.
  destruct (score_results ParseFloat query candidates [] (with_db d s))
    as [[scored [err|]] s1]; simpl in *; [split; constructor|].
  exact Hsorted.
Qed.

(** C2: whatever candidates the store returns and whatever the scorer
    answers, every result the retriever returns has a relevance strictly
    greater than 0.3 and the results are in non-increasing order of
    relevance.  The first half states it of the scoring loop on an
    arbitrary candidate list followed by the sort, the second of
    [SearchKnowledge] itself. *)
Theorem retrieved_above_threshold_and_sorted (query : string) (s : Service) :
  (forall candidates : list db.search_result,
      let scored := fst (fst (score_results ParseFloat query candidates [] s)) in
      Forall above_threshold (sort_Slice by_relevance scored) /\
      non_increasing (sort_Slice by_relevance scored)) /\
  (let results := fst (fst (SearchKnowledge fts_MATCH ParseFloat sort_Slice query s)) in
   Forall above_threshold results /\ non_increasing results).
Proof.
  split.
  - intros candidates. apply scored_then_sorted.
  - apply SearchKnowledge_above_sorted.
Qed.

End Retriever.

Lemma retrieved_above_threshold_and_sorted_witness :
  Forall above_threshold
    (fst (fst (Go.SearchKnowledge "sky"
                 (Go.service ["0.5"; " 5 "] (Go.healthy 100 Go.sky_tables))))) /\
  non_increasing
    (fst (fst (Go.SearchKnowledge "sky"
                 (Go.service ["0.5"; " 5 "] (Go.healthy 100 Go.sky_tables))))).
Proof.
  exact (proj2 (retrieved_above_threshold_and_sorted Go.word_MATCH strconv.ParseFloat
                  Slice_contract "sky"
                  (Go.service ["0.5"; " 5 "] (Go.healthy 100 Go.sky_tables)))).
Defined.

(** ** Relevance Scorer *)

Section Scorer.
Import llm.
Variable fts_MATCH : string -> option (string -> bool).
Variable ParseFloat : string -> float64 * option error.
Variable sort_Slice : forall A : Type, (A -> A -> bool) -> list A -> list A.

(** A relevance above the threshold is a number the completion parsed
    to, without error. *)
Lemma relevance_above_parsed (completion : string) :
  PrimFloat.ltb threshold (relevance_of ParseFloat completion) = true ->
  ParseFloat (TrimSpace completion) = (relevance_of ParseFloat completion, None).
Proof.
  unfold relevance_of.
  destruct (ParseFloat (TrimSpace completion)) as [f [e|]]; [|reflexivity].
  intros H. vm_compute in H. discriminate.
Qed.

(** A run of the loop that returns no error has sent the scoring prompt
    of every candidate, in order, and every result it adds is that of a
    candidate, with the relevance parsed from the completion given to the
    prompt of that candidate. *)
Lemma score_results_scored (query : string) (candidates : list db.search_result) :
  forall (acc k : list KnowledgeSearchResult) (s s1 : Service),
    score_results ParseFloat query candidates acc s = (k, None, s1) ->
    prompts s1 =
      (prompts s ++
         map (fun c => relevance_prompt query (db.sr_Content c)) candidates)%list /\
    forall r, In r k ->
      In r acc \/
      exists (i : nat) (c : db.search_result) (completion : string),
        nth_error candidates i = Some c /\
        ResultContent r = db.sr_Content c /\
        ResultCreatedAt r = db.sr_CreatedAt c /\
        llm s (List.length (prompts s) + i)
            (relevance_prompt query (db.sr_Content c)) = Completion completion /\
        ParseFloat (TrimSpace completion) = (Relevance r, None).
Proof.
  induction candidates as [|c rest IH]; intros acc k s s1; simpl.
  - intros H. injection H as <- <-. split; [symmetry; apply app_nil_r|].
    intros r Hr. left. exact Hr.
  - destruct (llm s (List.length (prompts s)) _) as [completion|err] eqn:Hllm;
      simpl; [|discriminate].
    assert (Hshift : forall i : nat,
               (List.length (prompts s ++
                               [relevance_prompt query (db.sr_Content c)]) + i =
                List.length (prompts s) + S i)%nat)
      by (intros i; rewrite length_app; simpl; lia).
    destruct (PrimFloat.ltb threshold (relevance_of ParseFloat completion)) eqn:Hrel;
      intros H; apply IH in H; destruct H as [Hp Hk]; simpl in Hp, Hk;
      (split; [rewrite Hp, <- app_assoc; reflexivity|]);
      intros r Hr; destruct (Hk r Hr) as [Hacc|(i & c0 & completion0 & Hi & Hc & Ht & Hl & Hparse)].
    + apply in_app_or in Hacc. destruct Hacc as [Hacc|[<-|[]]]; [left; exact Hacc|].
      right. exists 0%nat, c, completion. simpl. rewrite Nat.add_0_r.
      repeat split; try assumption. apply relevance_above_parsed, Hrel.
    + right. exists (S i), c0, completion0. rewrite Hshift in Hl.
      repeat split; assumption.
    + left. exact Hacc.
    + right. exists (S i), c0, completion0. rewrite Hshift in Hl.
      repeat split; assumption.
Qed.

(** The results gathered before a run of the loop come first in what it
    returns; the run itself does not depend on them. *)
Lemma score_results_acc (query : string) (candidates : list db.search_result) :
  forall (acc : list KnowledgeSearchResult) (s : Service),
    score_results ParseFloat query candidates acc s =
      match score_results ParseFloat query candidates [] s with
      | (k, None, s1) => ((acc ++ k)%list, None, s1)
      | (k, Some e, s1) => ([], Some e, s1)
      end.
Proof.
  induction candidates as [|c rest IH]; intros acc s; simpl.
  - rewrite app_nil_r. reflexivity.
  - destruct (llm s (List.length (prompts s)) _) as [completion|err]; [|reflexivity].
    destruct (PrimFloat.ltb threshold (relevance_of ParseFloat completion)).
    + match goal with
      | |- context [score_results _ _ rest [?x] ?s1] =>
          rewrite (IH (acc ++ [x])%list s1), (IH [x] s1);
          destruct (score_results ParseFloat query rest [] s1) as [[k [e|]] s2];
          [reflexivity|]
      end.
      rewrite <- app_assoc. reflexivity.
    + apply IH.
Qed.

(** C8: when the completion of the scorer for a candidate, once trimmed,
    does not parse as a floating-point number, the score of the candidate
    is [0.0], which is not above the threshold, and the loop goes on to
    the next candidate with the results gathered so far unchanged: no
    error is returned for the candidate, and every result returned was
    gathered before it or comes from a later candidate. *)
Theorem unparseable_score_excluded
    (query : string) (result : db.search_result) (rest : list db.search_result)
    (knowledgeResults : list KnowledgeSearchResult) (s : Service)
    (completion : string) (f : float64) (e : error) :
  llm s (List.length (prompts s)) (relevance_prompt query (db.sr_Content result))
    = Completion completion ->
  ParseFloat (TrimSpace completion) = (f, Some e) ->
  let s1 := snd (GenerateFromSinglePrompt
                   (relevance_prompt query (db.sr_Content result)) s) in
  relevance_of ParseFloat completion = 0%float /\
  PrimFloat.ltb threshold (relevance_of ParseFloat completion) = false /\
  score_results ParseFloat query (result :: rest) knowledgeResults s =
    score_results ParseFloat query rest knowledgeResults s1 /\
  (forall r : KnowledgeSearchResult,
      In r (fst (fst (score_results ParseFloat query (result :: rest)
                        knowledgeResults s))) ->
      In r knowledgeResults \/
      In r (fst (fst (score_results ParseFloat query rest [] s1)))).
Proof.
  intros Hllm Hparse s1.
  assert (Hzero : relevance_of ParseFloat completion = 0%float)
    by (unfold relevance_of; rewrite Hparse; reflexivity).
  assert (Hstep : score_results ParseFloat query (result :: rest) knowledgeResults s =
                  score_results ParseFloat query rest knowledgeResults s1).
  { simpl. rewrite Hllm, Hzero. reflexivity. }
  repeat split; [exact Hzero|rewrite Hzero; reflexivity|exact Hstep|].
  intros r. rewrite Hstep, score_results_acc.
  destruct (score_results ParseFloat query rest [] s1) as [[k [err|]] s2]; simpl.
  - intros [].
  - apply in_app_or.
Qed.

Hypothesis sort_Slice_contract : sort_contract sort_Slice.

(** C4, as the code has it: every returned result is that of a
    candidate the store returned; its relevance is the number that the
    provider's completion parsed to for the scoring prompt of the query
    and of that candidate, which the retrieval did send; it is strictly
    greater than 0.3, hence at least 0.0; nothing bounds it from above. *)
Theorem relevance_is_parsed_score_above_threshold
    (query : string) (s : Service) (r : KnowledgeSearchResult) :
  In r (fst (fst (SearchKnowledge fts_MATCH ParseFloat sort_Slice query s))) ->
  scored_by ParseFloat query s
    (fst (fst (db.SearchKnowledge fts_MATCH query (db s))))
    (prompts (snd (SearchKnowledge fts_MATCH ParseFloat sort_Slice query s))) r /\
  above_threshold r /\ PrimFloat.leb 0 (Relevance r) = true.
Proof.
  intros Hin.
  assert (Habove : above_threshold r).
  { pose proof (SearchKnowledge_above_sorted fts_MATCH ParseFloat
                  sort_Slice_contract query s) as [H _].
    rewrite Forall_forall in H. apply H, Hin. }
  split; [|split; [exact Habove|]].
  - revert Hin. unfold SearchKnowledge.
    destruct (db.SearchKnowledge fts_MATCH query (db s)) as [[candidates [err|]] d];
      simpl; [intros []|].
    destruct (score_results ParseFloat query candidates [] (with_db d s))
      as [[scored [err|]] s1] eqn:Hloop; simpl; [intros []|].
    destruct (score_results_scored _ _ _ _ Hloop) as [Hp Hk]. simpl in Hp, Hk.
    intros Hin.
    destruct (sort_Slice_contract by_relevance scored) as [Hperm _].
    apply (Permutation_in _ (Permutation_sym Hperm)) in Hin.
    destruct (Hk r Hin) as [[]|(i & c & completion & Hi & Hc & Ht & Hl & Hparse)].
    exists i, c, completion. repeat split; try assumption.
    rewrite Hp, nth_error_app2 by lia.
    replace (List.length (prompts s) + i - List.length (prompts s))%nat with i by lia.
    exact (map_nth_error (fun c0 => relevance_prompt query (db.sr_Content c0))
             i candidates Hi).
  - apply FloatOrder.ltb_leb.
    apply FloatOrder.ltb_trans with (y := threshold); [reflexivity|exact Habove].
Qed.

End Scorer.

(** C4 fails as stated: the scorer answers [ 5 ] for the candidate
    [The sky is blue], and the result is returned with relevance 5. *)
Lemma relevance_above_one :
  fst (fst (Go.SearchKnowledge "sky"
              (Go.service ["0.5"; " 5 "] (Go.healthy 100 Go.sky_tables)))) =
    [{| llm.ResultContent := "The sky is blue"; llm.Relevance := 5%float;
        llm.ResultCreatedAt := 7 |};
     {| llm.ResultContent := "Sky diving is fun"; llm.Relevance := 0.5%float;
        llm.ResultCreatedAt := 8 |}] /\
  PrimFloat.leb 5 1 = false.
Proof. split; vm_compute; reflexivity. Qed.

Lemma relevance_is_parsed_score_above_threshold_witness :
  scored_by strconv.ParseFloat "sky"
    (Go.service ["0.5"; " 5 "] (Go.healthy 100 Go.sky_tables))
    (fst (fst (db.SearchKnowledge Go.word_MATCH "sky" (Go.healthy 100 Go.sky_tables))))
    (llm.prompts (snd (Go.SearchKnowledge "sky"
                         (Go.service ["0.5"; " 5 "] (Go.healthy 100 Go.sky_tables)))))
    {| llm.ResultContent := "The sky is blue"; llm.Relevance := 5%float;
       llm.ResultCreatedAt := 7 |} /\
  above_threshold
    {| llm.ResultContent := "The sky is blue"; llm.Relevance := 5%float;
       llm.ResultCreatedAt := 7 |} /\
  PrimFloat.leb 0 5 = true.
Proof.
  apply (@relevance_is_parsed_score_above_threshold Go.word_MATCH
           strconv.ParseFloat sort.Slice Slice_contract "sky"
           (Go.service ["0.5"; " 5 "] (Go.healthy 100 Go.sky_tables))).
  vm_compute. left. reflexivity.
Defined.

Lemma unparseable_score_excluded_witness :
  llm.relevance_of strconv.ParseFloat "very relevant" = 0%float /\
  llm.score_results strconv.ParseFloat "sky"
    [{| db.sr_Content := "The sky is blue"; db.sr_ConversationID := 1;
        db.sr_CreatedAt := 7 |}] []
    (Go.service ["very relevant"] (Go.healthy 100 Go.sky_tables)) =
  ([], None,
   snd (llm.GenerateFromSinglePrompt
          (llm.relevance_prompt "sky" "The sky is blue")
          (Go.service ["very relevant"] (Go.healthy 100 Go.sky_tables)))).
Proof.
  destruct (@unparseable_score_excluded strconv.ParseFloat "sky"
              {| db.sr_Content := "The sky is blue"; db.sr_ConversationID := 1;
                 db.sr_CreatedAt := 7 |} [] []
              (Go.service ["very relevant"] (Go.healthy 100 Go.sky_tables))
              "very relevant" 0%float (strconv.ErrSyntax "very relevant")
              eq_refl eq_refl) as (Hzero & _ & Hstep & _).
  split; [exact Hzero|exact Hstep].
Defined.

(** ** Action Dispatcher *)

Section Dispatcher.
Import llm.

Lemma store_loop_blocks (info : StoreInfo) (n : nat) :
  forall (i : nat) (storeContent : string),
    store_loop n i info storeContent =
      storeContent ++ join (map (knowledge_block info) (seq i n)).
Proof.
  induction n as [|n IH]; intros i sb; simpl.
  - symmetry. apply append_empty_r.
  - rewrite IH. unfold knowledge_block at 2.
    destruct (i <? List.length (BotResponse info))%nat;
      rewrite ?append_assoc, ?append_empty_r; simpl; rewrite ?append_assoc;
      reflexivity.
Qed.

(** C9: the body rendered for a [store] action is the heading followed,
    for each index of [user_input] in order, by its [Information:] line
    and then by the [Context:] line of that index exactly when
    [bot_response] has one; two facts with one context give two
    [Information:] lines and one [Context:] line, after the first. *)
Theorem store_content_blocks (info : StoreInfo) :
  store_content info = knowledge_body info /\
  store_content {| UserInput := ["fact A"; "fact B"]; BotResponse := ["ctx A"] |} =
    "Knowledge Entry:" ++ nl ++ "Information: fact A" ++ nl
      ++ "Context: ctx A" ++ nl ++ "Information: fact B" ++ nl.
Proof.
  split; [|reflexivity].
  unfold store_content, knowledge_body. rewrite store_loop_blocks.
  apply append_assoc.
Qed.

Lemma SaveMessage_saved (msg response : models.Message) (d d' : db.Database) :
  db.SaveMessage msg d = (None, response, d') ->
  models.ConvID response = models.ConvID msg /\
  models.Role response = models.Role msg /\
  models.Content response = models.Content msg /\
  In response (db.messages (db.tables d')).
Proof.
  unfold db.SaveMessage, db.exec.
  destruct (db.engine d (db.issued d)) as [now|e]; [|discriminate].
  intros H. injection H as <- <-. simpl.
  repeat split. apply in_or_app. right. left. reflexivity.
Qed.

(** C7: when the action is [store] and the knowledge write fails, the
    dispatcher goes on as for a reply: it saves the assistant message with
    the interpreted content on the current conversation and returns it,
    and it fails only if that save fails. *)
Theorem store_failure_still_replies
    (msg : models.Message) (r : LLMResponse) (s : Service)
    (e : error) (d : db.Database) :
  Action r = "store" ->
  db.SaveToKnowledgeBase (store_content (store_info r)) (models.ConvID msg) (db s)
    = (Some e, d) ->
  dispatch msg r s = save_response (models.ConvID msg) (Content r) (with_db d s) /\
  (forall (response : models.Message) (d' : db.Database),
      db.SaveMessage (assistant_message (models.ConvID msg) (Content r)) d
        = (None, response, d') ->
      dispatch msg r s = (Return response, with_db d' s) /\
      models.ConvID response = models.ConvID msg /\
      models.Role response = "assistant" /\
      models.Content response = Content r /\
      In response (db.messages (db.tables d'))) /\
  (forall (e' : error) (m : models.Message) (d' : db.Database),
      db.SaveMessage (assistant_message (models.ConvID msg) (Content r)) d
        = (Some e', m, d') ->
      dispatch msg r s = (Failure ("failed to save message: " ++ e'), with_db d' s)).
Proof.
  intros Haction Hstore.
  assert (Hdispatch : dispatch msg r s =
                      save_response (models.ConvID msg) (Content r) (with_db d s)).
  { unfold dispatch. rewrite Haction, Hstore. reflexivity. }
  split; [exact Hdispatch|]. rewrite Hdispatch. unfold save_response.
  fold (assistant_message (models.ConvID msg) (Content r)). simpl db.
  split.
  - intros response d' Hsave. rewrite Hsave. split; [reflexivity|].
    apply SaveMessage_saved in Hsave. exact Hsave.
  - intros e' m d' Hsave. rewrite Hsave. reflexivity.
Qed.

End Dispatcher.

Lemma store_failure_still_replies_witness :
  llm.dispatch
    (user_message 1 "remember it")
    {| llm.Action := "store"; llm.Content := "Noted.";
       llm.store_info := {| llm.UserInput := ["fact A"]; llm.BotResponse := [] |};
       llm.NewTitle := EmptyString |}
    (Go.service [] Go.begin_fails) =
  (llm.Return {| models.ID := 1; models.ConvID := 1; models.Role := "assistant";
                 models.Content := "Noted."; models.CreatedAt := 100 |},
   llm.with_db
     (snd (db.SaveMessage (assistant_message 1 "Noted.")
             (snd (db.SaveToKnowledgeBase
                     (llm.store_content
                        {| llm.UserInput := ["fact A"]; llm.BotResponse := [] |})
                     1 Go.begin_fails))))
     (Go.service [] Go.begin_fails)).
Proof.
  refine (proj1 (proj1 (proj2 (@store_failure_still_replies
           (user_message 1 "remember it")
           {| llm.Action := "store"; llm.Content := "Noted.";
              llm.store_info := {| llm.UserInput := ["fact A"]; llm.BotResponse := [] |};
              llm.NewTitle := EmptyString |}
           (Go.service [] Go.begin_fails)
           "database is locked" _ _ _)) _ _ _)).
  - reflexivity.
  - reflexivity.
  - reflexivity.
Defined.

(** ** The store *)

(** C5, as the code has it: a conversation that is deleted takes with it
    every knowledge entry it owns; the entries of other conversations and
    of none stay as they are, and no entry is detached.  A deletion that
    fails changes no table. *)
Theorem DeleteConversation_deletes_owned_knowledge (id : Z) (d d' : db.Database) :
  db.DeleteConversation id d = (None, d') ->
  db.knowledge (db.tables d') =
    filter (fun k => negb (owned_by id k)) (db.knowledge (db.tables d)) /\
  (forall k : db.knowledge_row,
      In k (db.knowledge (db.tables d')) <->
      In k (db.knowledge (db.tables d)) /\ db.k_conversation_id k <> Some id).
Proof.
  intros Hdel.
  assert (Hk : db.knowledge (db.tables d') =
               filter (fun k => negb (owned_by id k)) (db.knowledge (db.tables d))).
  { revert Hdel. unfold db.DeleteConversation, db.run, db.exec. simpl.
    repeat match goal with
           | |- context [db.engine d ?n] => destruct (db.engine d n); simpl
           end; try discriminate.
    intros H. injection H as <-. reflexivity. }
  split; [exact Hk|].
  intros k. rewrite Hk, filter_In. unfold owned_by.
  destruct (db.k_conversation_id k) as [c|].
  - destruct (Z.eqb_spec c id) as [->|Hne]; simpl; split; intros [Hin H];
      split; try assumption; try congruence; try reflexivity.
  - simpl. split; intros [Hin _]; split; try assumption; try discriminate;
      reflexivity.
Qed.

(** C5 fails as stated: after conversation 1 is deleted, none of the two
    knowledge entries it owned exists. *)
Lemma DeleteConversation_loses_knowledge :
  fst (db.DeleteConversation 1 (Go.healthy 100 Go.sky_tables)) = None /\
  db.knowledge (db.tables (snd (db.DeleteConversation 1
                                  (Go.healthy 100 Go.sky_tables)))) = [] /\
  map db.k_content (db.knowledge Go.sky_tables) =
    ["The sky is blue"; "Sky diving is fun"].
Proof. repeat split. Qed.

Lemma DeleteConversation_deletes_owned_knowledge_witness :
  db.knowledge (db.tables (snd (db.DeleteConversation 2
                                  (Go.healthy 100 Go.sky_tables)))) =
    db.knowledge Go.sky_tables.
Proof.
  refine (proj1 (@DeleteConversation_deletes_owned_knowledge 2
                   (Go.healthy 100 Go.sky_tables)
                   (snd (db.DeleteConversation 2 (Go.healthy 100 Go.sky_tables)))
                   _)).
  reflexivity.
Defined.

(** ** The order of the rows fetched *)

Lemma firstn_In (A : Type) (n : nat) (l : list A) (x : A) :
  In x (firstn n l) -> In x l.
Proof.
  revert l. induction n as [|n IH]; intros [|y l]; simpl; try tauto.
  intros [->|H]; [left; reflexivity|right; apply IH, H].
Qed.

Section OrderBy.
Variable A : Type.
Variable key : A -> Z.

Lemma insert_desc_perm (x : A) (l : list A) :
  Permutation (x :: l) (db.insert_desc key x l).
Proof.
  induction l as [|y r IH]; simpl; [apply Permutation_refl|].
  destruct (key y <=? key x)%Z; [apply Permutation_refl|].
  eapply perm_trans; [apply perm_swap|]. apply perm_skip, IH.
Qed.

Lemma order_by_desc_perm (l : list A) : Permutation l (db.order_by_desc key l).
Proof.
  induction l as [|x l IH]; simpl; [constructor|].
  eapply perm_trans; [apply perm_skip, IH|]. apply insert_desc_perm.
Qed.

Lemma insert_desc_sorted (x : A) (l : list A) :
  newest_first key l -> newest_first key (db.insert_desc key x l).
Proof.
  unfold newest_first. induction l as [|y r IH]; intros Hs; simpl.
  - repeat constructor.
  - inversion Hs as [|? ? Hs' Hall]; subst.
    destruct (Z.leb_spec (key y) (key x)) as [Hle|Hlt].
    + constructor; [exact Hs|]. constructor; [exact Hle|].
      rewrite Forall_forall in *. intros z Hz. specialize (Hall z Hz). lia.
    + constructor; [apply IH, Hs'|].
      rewrite Forall_forall in *. intros z Hz.
      apply (Permutation_in _ (Permutation_sym (insert_desc_perm x r))) in Hz.
      destruct Hz as [<-|Hz]; [lia|apply Hall, Hz].
Qed.

Lemma order_by_desc_sorted (l : list A) : newest_first key (db.order_by_desc key l).
Proof.
  induction l as [|x l IH]; simpl; [constructor|]. apply insert_desc_sorted, IH.
Qed.

(** A row newer than all the others comes first, wherever it is scanned. *)
Lemma order_by_desc_snoc_newest (l : list A) (y : A) :
  (forall x, In x l -> (key x < key y)%Z) ->
  db.order_by_desc key (l ++ [y]) = y :: db.order_by_desc key l.
Proof.
  induction l as [|x l IH]; intros Hnew; simpl; [reflexivity|].
  rewrite IH by (intros z Hz; apply Hnew; right; exact Hz). simpl.
  destruct (Z.leb_spec (key y) (key x)) as [Hle|Hlt]; [|reflexivity].
  specialize (Hnew x (or_introl eq_refl)). lia.
Qed.

Lemma newest_first_firstn (n : nat) (l : list A) :
  newest_first key l -> newest_first key (firstn n l).
Proof.
  unfold newest_first. revert l. induction n as [|n IH]; intros l Hs; simpl.
  - constructor.
  - destruct l as [|x l]; [constructor|].
    inversion Hs as [|? ? Hs' Hall]; subst.
    constructor; [apply IH, Hs'|].
    rewrite Forall_forall in *. intros z Hz. apply Hall.
    eapply firstn_In. exact Hz.
Qed.

End OrderBy.

(** ** Context Assembler and the turn *)

Section Turn.
Import llm.
Variable fts_MATCH : string -> option (string -> bool).
Variable ParseFloat : string -> float64 * option error.
Variable sort_Slice : forall A : Type, (A -> A -> bool) -> list A -> list A.
Variable json_Unmarshal : string -> option LLMResponse.
Variable json_Unmarshal_map : string -> option (list (string * json.value)).

Lemma fold_left_append (A : Type) (f : A -> string) (l : list A) :
  forall init : string,
    fold_left (fun p x => p ++ f x) l init = init ++ join (map f l).
Proof.
  induction l as [|x l IH]; intros init; simpl.
  - symmetry. apply append_empty_r.
  - rewrite IH. apply append_assoc.
Qed.

Lemma build_prompt_layout (knowledge : list KnowledgeSearchResult)
                          (history : list models.Message) (msg : models.Message) :
  build_prompt knowledge history msg = prompt_layout knowledge history msg.
Proof.
  unfold build_prompt, prompt_layout, knowledge_section, history_section,
    current_section.
  rewrite !fold_left_append. rewrite !append_assoc. reflexivity.
Qed.



Lemma save_response_prompts (convID : Z) (content : string) (s : Service) :
  prompts (snd (save_response convID content s)) = prompts s.
Proof.
  unfold save_response.
  destruct (db.SaveMessage _ (db s)) as [[[e|] m] d]; reflexivity.
Qed.

Lemma dispatch_prompts (msg : models.Message) (r : LLMResponse) (s : Service) :
  prompts (snd (dispatch msg r s)) = prompts s.
Proof.
  unfold dispatch.
  destruct (String.eqb (Action r) "reply"); [apply save_response_prompts|].
  destruct (String.eqb (Action r) "store").
  { destruct (db.SaveToKnowledgeBase _ _ (db s)) as [e d].
    apply (save_response_prompts _ _ (with_db d s)). }
  destruct (String.eqb (Action r) "search"); [apply save_response_prompts|].
  destruct (String.eqb (Action r) "new_conversation"); [|reflexivity].
  destruct (db.CreateConversation _ (db s)) as [[c [e|]] d]; [reflexivity|].
  apply (save_response_prompts _ _ (with_db d s)).
Qed.

(** Once the history is fetched, the turn sends one more prompt, the one
    assembled from the knowledge, the history and the message. *)
Lemma respond_prompt (msg : models.Message) (knowledge : list KnowledgeSearchResult)
                     (s : Service) (history : list models.Message) (d : db.Database) :
  db.GetConversationHistory (models.ConvID msg) 10 (db s) = (history, None, d) ->
  prompts (snd (respond json_Unmarshal json_Unmarshal_map msg knowledge s)) =
    (prompts s ++ [build_prompt knowledge history msg])%list.
Proof.
  intros Hhist. unfold respond. rewrite Hhist.
  unfold GenerateFromSinglePrompt. simpl.
  destruct (llm s _ _) as [completion|err]; [|reflexivity].
  destruct (interpret _ _ completion) as [r|e|p]; try reflexivity.
  rewrite dispatch_prompts. reflexivity.
Qed.

Lemma ProcessMessage_respond (msg : models.Message) (s s1 : Service)
    (knowledge : list KnowledgeSearchResult) (err : option error) :
  SearchKnowledge fts_MATCH ParseFloat sort_Slice (models.Content msg) s
    = (knowledge, err, s1) ->
  ProcessMessage fts_MATCH ParseFloat sort_Slice json_Unmarshal json_Unmarshal_map
                 msg s =
    respond json_Unmarshal json_Unmarshal_map msg (knowledge_used knowledge err) s1.
Proof.
  intros Hsearch. unfold ProcessMessage. rewrite Hsearch.
  destruct err; reflexivity.
Qed.

(** The two ways the retrieval fails: the search of the store returns an
    error, or the provider does on a scoring call. *)
Lemma retrieval_failures (query : string) (s : Service) :
  (forall (candidates : list db.search_result) (e : error) (d : db.Database),
      db.SearchKnowledge fts_MATCH query (db s) = (candidates, Some e, d) ->
      SearchKnowledge fts_MATCH ParseFloat sort_Slice query s =
        ([], Some ("failed to search knowledge base: " ++ e), with_db d s)) /\
  (forall (candidates : list db.search_result) (d : db.Database)
          (k : list KnowledgeSearchResult) (e : error) (s1 : Service),
      db.SearchKnowledge fts_MATCH query (db s) = (candidates, None, d) ->
      score_results ParseFloat query candidates [] (with_db d s) = (k, Some e, s1) ->
      SearchKnowledge fts_MATCH ParseFloat sort_Slice query s = ([], Some e, s1)).
Proof.
  split.
  - intros candidates e d Hdb. unfold SearchKnowledge. rewrite Hdb. reflexivity.
  - intros candidates d k e s1 Hdb Hscore. unfold SearchKnowledge.
    rewrite Hdb, Hscore. reflexivity.
Qed.

(** C6: when the retrieval of knowledge returns an error, whether from
    the search of the store or from a scoring call, the turn goes on as
    one whose retrieval found nothing.  The prompt it assembles has an
    empty knowledge section, it is the prompt sent to the provider once
    the history is fetched, and the turn returns the saved reply whenever
    the completion is interpreted as a reply and the reply is saved. *)
Theorem retrieval_failure_continues_with_no_knowledge
    (msg : models.Message) (s s1 : Service)
    (knowledge : list KnowledgeSearchResult) (e : error) :
  SearchKnowledge fts_MATCH ParseFloat sort_Slice (models.Content msg) s
    = (knowledge, Some e, s1) ->
  ProcessMessage fts_MATCH ParseFloat sort_Slice json_Unmarshal json_Unmarshal_map
                 msg s =
    respond json_Unmarshal json_Unmarshal_map msg [] s1 /\
  (forall (history : list models.Message) (d : db.Database),
      db.GetConversationHistory (models.ConvID msg) 10 (db s1) = (history, None, d) ->
      let turn := ProcessMessage fts_MATCH ParseFloat sort_Slice json_Unmarshal
                                 json_Unmarshal_map msg s in
      let prompt :=
        systemPrompt ++ nl ++ nl ++ "Relevant knowledge from database:" ++ nl
          ++ nl ++ nl ++ "Conversation history:" ++ nl
          ++ history_section history ++ current_section msg in
      prompts (snd turn) = (prompts s1 ++ [prompt])%list /\
      (forall (completion : string) (r : LLMResponse)
              (response : models.Message) (d' : db.Database),
          llm s1 (List.length (prompts s1)) prompt = Completion completion ->
          interpret json_Unmarshal json_Unmarshal_map completion = Return r ->
          Action r = "reply" ->
          db.SaveMessage (assistant_message (models.ConvID msg) (Content r)) d
            = (None, response, d') ->
          fst turn = Return response /\ models.Content response = Content r)).
Proof.
  intros Hsearch.
  pose proof (ProcessMessage_respond msg s Hsearch) as Hturn. simpl in Hturn.
  split; [exact Hturn|].
  intros history d Hhist turn prompt.
  assert (Hprompt : build_prompt [] history msg = prompt).
  { rewrite build_prompt_layout. reflexivity. }
  subst turn. rewrite Hturn. split.
  - rewrite (respond_prompt msg [] s1 Hhist), Hprompt. reflexivity.
  - intros completion r response d' Hllm Hint Haction Hsave.
    unfold respond. rewrite Hhist, Hprompt.
    unfold GenerateFromSinglePrompt. simpl. rewrite Hllm, Hint.
    unfold dispatch. rewrite Haction. simpl.
    unfold save_response. simpl db.
    fold (assistant_message (models.ConvID msg) (Content r)).
    rewrite Hsave. simpl. split; [reflexivity|].
    apply SaveMessage_saved in Hsave. apply Hsave.
Qed.

(** The retrieval leaves the messages of the store alone. *)
Lemma score_results_db (query : string) (candidates : list db.search_result) :
  forall (acc : list KnowledgeSearchResult) (s : Service),
    db (snd (score_results ParseFloat query candidates acc s)) = db s.
Proof.
  induction candidates as [|c rest IH]; intros acc s; simpl; [reflexivity|].
  destruct (llm s _ _) as [completion|err]; [|reflexivity].
  destruct (PrimFloat.ltb _ _); rewrite IH; reflexivity.
Qed.




End Turn.

Lemma retrieval_failure_continues_with_no_knowledge_witness :
  Go.ProcessMessage (user_message 1 "what colour is the sky")
                    (Go.reply_service Go.search_down) =
  llm.respond llm.Unmarshal_LLMResponse json.Unmarshal_map
    (user_message 1 "what colour is the sky") []
    (snd (Go.SearchKnowledge "what colour is the sky"
            (Go.reply_service Go.search_down))).
Proof.
  refine (proj1 (@retrieval_failure_continues_with_no_knowledge
                   Go.word_MATCH strconv.ParseFloat sort.Slice
                   llm.Unmarshal_LLMResponse json.Unmarshal_map
                   (user_message 1 "what colour is the sky")
                   (Go.reply_service Go.search_down)
                   (snd (Go.SearchKnowledge "what colour is the sky"
                           (Go.reply_service Go.search_down)))
                   [] "failed to search knowledge base: failed to sync FTS table: database is locked"
                   _)).
  vm_compute. reflexivity.
Defined.

(** The turn of the witness: the search of the store fails, and the turn
    returns the reply it saved. *)
Example retrieval_failure_turn_replies :
  snd (fst (Go.SearchKnowledge "what colour is the sky"
              (Go.reply_service Go.search_down))) =
    Some "failed to search knowledge base: failed to sync FTS table: database is locked" /\
  fst (Go.ProcessMessage (user_message 1 "what colour is the sky")
                         (Go.reply_service Go.search_down)) =
    llm.Return {| models.ID := 1; models.ConvID := 1; models.Role := "assistant";
                  models.Content := "Blue."; models.CreatedAt := 100 |}.
Proof. split; vm_compute; reflexivity. Qed.


(** The turn of the witness: the prompt sent for the first message of a
    conversation shows it in the history and as the current message. *)
Example first_turn_prompt :
  llm.prompts (snd (Go.HandleMessage 1 "hello"
                      (Go.reply_service (Go.healthy 100 Go.empty_tables)))) =
    [llm.systemPrompt ++ llm.nl ++ llm.nl ++ "Relevant knowledge from database:"
       ++ llm.nl ++ llm.nl ++ llm.nl ++ "Conversation history:" ++ llm.nl
       ++ "user: hello" ++ llm.nl
       ++ llm.nl ++ "Current message:" ++ llm.nl
       ++ "user: hello" ++ llm.nl ++ llm.nl ++ "Response:"].
Proof. vm_compute. reflexivity. Qed.

(** ** Further examples *)

(** A content that is itself an object with a [content] string is
    unwrapped. *)
Example interpret_unwraps_inner_content :
  Go.interpret
    (Go.completion_of "reply"
       ("{\" ++ dquote ++ "content\" ++ dquote ++ ":\" ++ dquote ++ "hi\"
          ++ dquote ++ "}")) =
    llm.Return {| llm.Action := "reply"; llm.Content := "hi";
                  llm.store_info := {| llm.UserInput := []; llm.BotResponse := [] |};
                  llm.NewTitle := EmptyString |}.
Proof. vm_compute. reflexivity. Qed.

(** One layer of quotes is stripped from a quoted content. *)
Example interpret_strips_one_layer :
  Go.interpret
    (Go.completion_of "reply" ("\" ++ dquote ++ "quoted\" ++ dquote)) =
    llm.Return {| llm.Action := "reply"; llm.Content := "quoted";
                  llm.store_info := {| llm.UserInput := []; llm.BotResponse := [] |};
                  llm.NewTitle := EmptyString |}.
Proof. vm_compute. reflexivity. Qed.

(** An action that is none of the four is an error, and nothing is
    saved. *)
Example unknown_action_fails :
  llm.dispatch (user_message 1 "hello")
    {| llm.Action := "delete"; llm.Content := "ok";
       llm.store_info := {| llm.UserInput := []; llm.BotResponse := [] |};
       llm.NewTitle := EmptyString |}
    (Go.service [] (Go.healthy 100 Go.sky_tables)) =
  (llm.Failure "unknown action: delete",
   Go.service [] (Go.healthy 100 Go.sky_tables)).
Proof. reflexivity. Qed.

(** X19: [SaveToKnowledgeBase] of the first copy never commits: the
    trigger indexes the new row, and the insertion into the index that
    follows repeats its [docid]; the call returns an error and leaves the
    tables as they were, whatever the engine answers. *)
Lemma SaveToKnowledgeBase_never_commits
    (content : string) (conversationID : Z) (d : db.Database) :
  fst (db.SaveToKnowledgeBase content conversationID d) <> None /\
  db.tables (snd (db.SaveToKnowledgeBase content conversationID d)) = db.tables d.
Proof.
  unfold db.SaveToKnowledgeBase, db.exec. simpl.
  destruct (db.engine d (db.issued d)); simpl; [|split; [discriminate|reflexivity]].
  destruct (db.engine d (S (db.issued d))); simpl;
    [|split; [discriminate|reflexivity]].
  unfold db.insert_knowledge, db.fts_insert. simpl.
  destruct (existsb _ (db.knowledge_fts (db.tables d))); simpl;
    [split; [discriminate|reflexivity]|].
  destruct (db.engine d (S (S (db.issued d)))); simpl;
    [|split; [discriminate|reflexivity]].
  rewrite existsb_app. simpl. rewrite Z.eqb_refl, orb_true_r. simpl.
  split; [discriminate|reflexivity].
Qed.

(** The history may miss the message just saved: the ten messages
    fetched are the first ten of the newest second, and a conversation
    that already has ten messages of the current second fills them. *)
Example history_may_miss_saved_message :
  llm.prompts (snd (Go.HandleMessage 1 "hello"
                      (Go.reply_service (Go.healthy 100 Go.busy_tables)))) =
    [llm.systemPrompt ++ llm.nl ++ llm.nl ++ "Relevant knowledge from database:"
       ++ llm.nl ++ llm.nl ++ llm.nl ++ "Conversation history:" ++ llm.nl
       ++ join (repeat ("user: earlier" ++ llm.nl) 10)
       ++ llm.nl ++ "Current message:" ++ llm.nl
       ++ "user: hello" ++ llm.nl ++ llm.nl ++ "Response:"].
Proof. vm_compute. reflexivity. Qed.

(** * Further properties of the code *)

(** ** The store: ordering and identifiers *)

Lemma next_id_above (seq : Z) (ids : list Z) (id : Z) :
  In id ids -> (id < db.next_id seq ids)%Z.
Proof.
  unfold db.next_id. induction ids as [|x ids IH]; simpl; [intros []|].
  intros [->|Hin]; [lia|]. specialize (IH Hin). lia.
Qed.

(** X1: a message that is saved keeps its conversation, its role and its
    content, takes the time at which the engine ran the insertion, and
    receives an identifier greater than that of every message in the
    table, hence a new one; it is added at the end of the table, nothing
    else changes, and the identifiers of the table stay distinct. *)
Theorem SaveMessage_assigns_fresh_id
    (msg saved : models.Message) (d d' : db.Database) :
  db.SaveMessage msg d = (None, saved, d') ->
  (models.ConvID saved = models.ConvID msg /\
   models.Role saved = models.Role msg /\
   models.Content saved = models.Content msg /\
   db.engine d (db.issued d) = db.SqlOk (models.CreatedAt saved)) /\
  (forall m, In m (db.messages (db.tables d)) -> (models.ID m < models.ID saved)%Z) /\
  db.messages (db.tables d') = (db.messages (db.tables d) ++ [saved])%list /\
  db.conversations (db.tables d') = db.conversations (db.tables d) /\
  db.knowledge (db.tables d') = db.knowledge (db.tables d) /\
  db.knowledge_fts (db.tables d') = db.knowledge_fts (db.tables d) /\
  (NoDup (map models.ID (db.messages (db.tables d))) ->
   NoDup (map models.ID (db.messages (db.tables d')))).
Proof.
  unfold db.SaveMessage, db.exec.
  destruct (db.engine d (db.issued d)) as [now|e]; [|discriminate].
  intros H. injection H as <- <-. simpl.
  assert (Hfresh : forall m, In m (db.messages (db.tables d)) ->
                             (models.ID m <
                              db.next_id (db.seq_messages (db.tables d))
                                (map models.ID (db.messages (db.tables d))))%Z).
  { intros m Hm. apply next_id_above, in_map, Hm. }
  split; [repeat split|].
  repeat split; try reflexivity; [exact Hfresh|].
  intros Hnd. rewrite map_app. simpl.
  apply NoDup_app_remove_l with (l := []). simpl.
  apply Permutation_NoDup with (l := db.next_id (db.seq_messages (db.tables d))
                                       (map models.ID (db.messages (db.tables d)))
                                     :: map models.ID (db.messages (db.tables d))).
  - apply Permutation_cons_append.
  - constructor; [|exact Hnd].
    intros Hin. apply in_map_iff in Hin. destruct Hin as (m & Hid & Hm).
    specialize (Hfresh m Hm). lia.
Qed.

Lemma SaveMessage_assigns_fresh_id_witness :
  db.messages (db.tables (snd (db.SaveMessage (user_message 1 "eleventh")
                                 (Go.healthy 101 Go.busy_tables)))) =
    (db.messages Go.busy_tables ++
       [{| models.ID := 11; models.ConvID := 1; models.Role := "user";
           models.Content := "eleventh"; models.CreatedAt := 101 |}])%list.
Proof.
  refine (proj1 (proj2 (proj2 (@SaveMessage_assigns_fresh_id
                                 (user_message 1 "eleventh") _
                                 (Go.healthy 101 Go.busy_tables) _ _)))).
  reflexivity.
Defined.

(** X2: the history of a conversation, when it is fetched with a limit
    that is not negative, leaves the tables as they are and holds at most
    [limit] messages, all of them messages of that conversation in the
    table, newest first; it holds every message of the conversation when
    these are at most [limit]. *)
Theorem GetConversationHistory_newest_first_bounded
    (convID limit : Z) (d d' : db.Database) (history : list models.Message) :
  db.GetConversationHistory convID limit d = (history, None, d') ->
  (0 <= limit)%Z ->
  db.tables d' = db.tables d /\
  (List.length history <= Z.to_nat limit)%nat /\
  (forall m, In m history ->
             In m (db.messages (db.tables d)) /\ models.ConvID m = convID) /\
  newest_first models.CreatedAt history /\
  ((List.length (messages_of convID (db.tables d)) <= Z.to_nat limit)%nat ->
   Permutation (messages_of convID (db.tables d)) history).
Proof.
  unfold db.GetConversationHistory, db.exec.
  destruct (db.engine d (db.issued d)) as [now|e]; [|discriminate].
  intros H Hlimit. injection H as <- <-. simpl.
  unfold db.sql_limit. destruct (Z.ltb_spec limit 0) as [Hneg|_]; [lia|].
  fold (messages_of convID (db.tables d)).
  set (rows := messages_of convID (db.tables d)).
  pose proof (order_by_desc_perm models.CreatedAt rows) as Hperm.
  repeat split.
  - rewrite length_firstn. lia.
  - apply firstn_In in H.
    apply (Permutation_in _ (Permutation_sym Hperm)) in H.
    apply filter_In in H. apply H.
  - apply firstn_In in H.
    apply (Permutation_in _ (Permutation_sym Hperm)) in H.
    apply filter_In in H. destruct H as [_ H]. apply Z.eqb_eq, H.
  - apply newest_first_firstn, order_by_desc_sorted.
  - intros Hfew. rewrite firstn_all2; [exact Hperm|].
    rewrite <- (Permutation_length Hperm). exact Hfew.
Qed.

Lemma GetConversationHistory_newest_first_bounded_witness :
  (List.length (fst (fst (db.GetConversationHistory 1 10
                            (Go.healthy 100 Go.busy_tables)))) <= 10)%nat.
Proof.
  refine (proj1 (proj2 (@GetConversationHistory_newest_first_bounded
                          1 10 (Go.healthy 100 Go.busy_tables) _ _ _ _))).
  - reflexivity.
  - lia.
Defined.

Lemma SaveMessage_messages_of (msg saved : models.Message) (d d' : db.Database) :
  db.SaveMessage msg d = (None, saved, d') ->
  models.ConvID saved = models.ConvID msg /\
  messages_of (models.ConvID msg) (db.tables d') =
    (messages_of (models.ConvID msg) (db.tables d) ++ [saved])%list.
Proof.
  unfold db.SaveMessage, db.exec.
  destruct (db.engine d (db.issued d)) as [now|e]; [|discriminate].
  intros H. injection H as <- <-. simpl. split; [reflexivity|].
  unfold messages_of. simpl. rewrite filter_app. simpl.
  rewrite Z.eqb_refl. reflexivity.
Qed.

(** X3: when a message is saved at a time later than that of every
    message of its conversation, the history of the conversation fetched
    next, with a limit of one at least, starts with it. *)
Theorem saved_newest_heads_history
    (msg saved : models.Message) (d d1 d2 : db.Database)
    (limit : Z) (history : list models.Message) :
  db.SaveMessage msg d = (None, saved, d1) ->
  db.GetConversationHistory (models.ConvID msg) limit d1 = (history, None, d2) ->
  (1 <= limit)%Z ->
  (forall m, In m (messages_of (models.ConvID msg) (db.tables d)) ->
             (models.CreatedAt m < models.CreatedAt saved)%Z) ->
  hd_error history = Some saved.
Proof.
  intros Hsave Hhist Hlimit Hnewest.
  destruct (SaveMessage_messages_of _ _ Hsave) as [_ Hrows].
  revert Hhist. unfold db.GetConversationHistory, db.exec.
  destruct (db.engine d1 (db.issued d1)) as [now|e]; [|discriminate].
  intros H. injection H as <- _. simpl.
  fold (messages_of (models.ConvID msg) (db.tables d1)). rewrite Hrows.
  rewrite order_by_desc_snoc_newest by exact Hnewest.
  unfold db.sql_limit. destruct (Z.ltb_spec limit 0) as [Hneg|_]; [lia|].
  destruct (Z.to_nat limit) as [|n] eqn:Hn; [lia|]. reflexivity.
Qed.

Lemma saved_newest_heads_history_witness :
  hd_error (fst (fst (db.GetConversationHistory 1 10
                        (snd (db.SaveMessage (user_message 1 "eleventh")
                                (Go.healthy 101 Go.busy_tables)))))) =
    Some {| models.ID := 11; models.ConvID := 1; models.Role := "user";
            models.Content := "eleventh"; models.CreatedAt := 101 |}.
Proof.
  refine (@saved_newest_heads_history (user_message 1 "eleventh") _
            (Go.healthy 101 Go.busy_tables) _ _ 10 _ _ _ _ _).
  - reflexivity.
  - reflexivity.
  - lia.
  - intros m Hm. simpl in Hm.
    repeat (destruct Hm as [<-|Hm]; [simpl; lia|]). destruct Hm.
Defined.

(** X4: when a message is saved on a conversation that had fewer than
    [limit] messages, the history of the conversation fetched next holds
    it, whatever the times of the messages. *)
Theorem saved_in_short_history
    (msg saved : models.Message) (d d1 d2 : db.Database)
    (limit : Z) (history : list models.Message) :
  db.SaveMessage msg d = (None, saved, d1) ->
  db.GetConversationHistory (models.ConvID msg) limit d1 = (history, None, d2) ->
  (Z.of_nat (List.length (messages_of (models.ConvID msg) (db.tables d))) < limit)%Z ->
  In saved history.
Proof.
  intros Hsave Hhist Hfew.
  destruct (SaveMessage_messages_of _ _ Hsave) as [_ Hrows].
  revert Hhist. unfold db.GetConversationHistory, db.exec.
  destruct (db.engine d1 (db.issued d1)) as [now|e]; [|discriminate].
  intros H. injection H as <- _. simpl.
  fold (messages_of (models.ConvID msg) (db.tables d1)).
  pose proof (order_by_desc_perm models.CreatedAt
                (messages_of (models.ConvID msg) (db.tables d1))) as Hperm.
  unfold db.sql_limit. destruct (Z.ltb_spec limit 0) as [Hneg|_]; [lia|].
  rewrite firstn_all2.
  - apply (Permutation_in _ Hperm). rewrite Hrows.
    apply in_or_app. right. left. reflexivity.
  - rewrite <- (Permutation_length Hperm), Hrows, length_app. simpl. lia.
Qed.

Lemma saved_in_short_history_witness :
  In {| models.ID := 1; models.ConvID := 1; models.Role := "user";
        models.Content := "hello"; models.CreatedAt := 100 |}
     (fst (fst (db.GetConversationHistory 1 10
                  (snd (db.SaveMessage (user_message 1 "hello")
                          (Go.healthy 100 Go.sky_tables)))))).
Proof.
  refine (@saved_in_short_history (user_message 1 "hello") _
            (Go.healthy 100 Go.sky_tables) _ _ 10 _ _ _ _).
  - reflexivity.
  - reflexivity.
  - simpl. lia.
Defined.

(** ** The store: deleting, renaming and listing conversations *)

(** What a deletion leaves of the tables: on success the three deletions
    have run, on failure nothing has. *)
Lemma DeleteConversation_tables (id : Z) (d d' : db.Database) (r : option error) :
  db.DeleteConversation id d = (r, d') ->
  db.tables d' =
    match r with
    | None => db.delete_conversation id
                (db.delete_knowledge id (db.delete_messages id (db.tables d)))
    | Some _ => db.tables d
    end.
Proof.
  unfold db.DeleteConversation, db.run, db.exec. simpl.
  repeat match goal with
         | |- context [db.engine d ?n] => destruct (db.engine d n); simpl
         end;
    intros H; injection H as <- <-; reflexivity.
Qed.

(** X5: a transaction of the store that returns an error leaves every
    table as it was: the deletion of a conversation, and the saving of a
    knowledge entry in either copy of the package. *)
Theorem failed_transaction_changes_nothing (d d' : db.Database) (e : error) :
  (forall id, db.DeleteConversation id d = (Some e, d') ->
              db.tables d' = db.tables d) /\
  (forall content conversationID,
      db.SaveToKnowledgeBase content conversationID d = (Some e, d') ->
      db.tables d' = db.tables d) /\
  (forall content conversationID,
      db_second.SaveToKnowledgeBase content conversationID d = (Some e, d') ->
      db.tables d' = db.tables d).
Proof.
  repeat split.
  - intros id H. apply (DeleteConversation_tables _ _ H).
  - intros content conversationID.
    unfold db.SaveToKnowledgeBase, db.exec. simpl.
    destruct (db.engine d (db.issued d)); simpl;
      [|intros H; injection H as _ <-; reflexivity].
    destruct (db.engine d (S (db.issued d))); simpl;
      [|intros H; injection H as _ <-; reflexivity].
    destruct (db.insert_knowledge _ _ _ _) as [[id t2]|]; simpl;
      [|intros H; injection H as _ <-; reflexivity].
    destruct (db.engine d (S (S (db.issued d)))); simpl;
      [|intros H; injection H as _ <-; reflexivity].
    destruct (db.fts_insert _ _); simpl;
      [|intros H; injection H as _ <-; reflexivity].
    destruct (db.engine d (S (S (S (db.issued d))))); simpl;
      [discriminate|intros H; injection H as _ <-; reflexivity].
  - intros content conversationID.
    unfold db_second.SaveToKnowledgeBase, db.exec. simpl.
    destruct (db.engine d (db.issued d)); simpl;
      [|intros H; injection H as _ <-; reflexivity].
    destruct (db.engine d (S (db.issued d))); simpl;
      [|intros H; injection H as _ <-; reflexivity].
    destruct (db_second.insert_knowledge _ _ _ _) as [t2|]; simpl;
      [|intros H; injection H as _ <-; reflexivity].
    destruct (db.engine d (S (S (db.issued d)))); simpl;
      [discriminate|intros H; injection H as _ <-; reflexivity].
Qed.

Lemma failed_transaction_changes_nothing_witness :
  db.tables (snd (db.DeleteConversation 1 Go.search_down)) = Go.sky_tables.
Proof.
  refine (proj1 (@failed_transaction_changes_nothing Go.search_down _
                   "database is locked") 1%Z _).
  reflexivity.
Defined.

Lemma filter_none (A : Type) (f : A -> bool) (l : list A) :
  (forall x, In x l -> f x = false) -> filter f l = [].
Proof.
  induction l as [|x l IH]; intros H; simpl; [reflexivity|].
  rewrite (H x (or_introl eq_refl)). apply IH. intros y Hy. apply H. right. exact Hy.
Qed.

Lemma filter_filter_same (A : Type) (f : A -> bool) (l : list A) :
  filter f (filter f l) = filter f l.
Proof.
  induction l as [|x l IH]; simpl; [reflexivity|].
  destruct (f x) eqn:Hx; simpl; rewrite ?Hx, IH; reflexivity.
Qed.

(** X6: a deletion that succeeds removes the conversation and all its
    messages and keeps the other conversations and messages as they are;
    the history of the conversation fetched afterwards is empty, whatever
    the limit. *)
Theorem deleted_conversation_has_no_history (id : Z) (d d1 : db.Database) :
  db.DeleteConversation id d = (None, d1) ->
  db.messages (db.tables d1) =
    filter (fun m => negb (models.ConvID m =? id)%Z) (db.messages (db.tables d)) /\
  db.conversations (db.tables d1) =
    filter (fun c => negb (models.conv_ID c =? id)%Z)
           (db.conversations (db.tables d)) /\
  (forall limit, fst (fst (db.GetConversationHistory id limit d1)) = []).
Proof.
  intros Hdel. pose proof (DeleteConversation_tables _ _ Hdel) as Ht. simpl in Ht.
  repeat split; try (rewrite Ht; reflexivity).
  intros limit. unfold db.GetConversationHistory, db.exec.
  destruct (db.engine d1 (db.issued d1)) as [now|e]; [|reflexivity].
  simpl. rewrite Ht. simpl.
  rewrite filter_none.
  - simpl. unfold db.sql_limit. destruct (limit <? 0)%Z; [reflexivity|].
    apply firstn_nil.
  - intros m Hm. apply filter_In in Hm. destruct Hm as [_ Hm].
    apply negb_true_iff in Hm. exact Hm.
Qed.

Lemma deleted_conversation_has_no_history_witness :
  fst (fst (db.GetConversationHistory 1 10
              (snd (db.DeleteConversation 1 (Go.healthy 100 Go.busy_tables))))) = [].
Proof.
  refine (proj2 (proj2 (@deleted_conversation_has_no_history 1
                          (Go.healthy 100 Go.busy_tables) _ _)) 10%Z).
  reflexivity.
Defined.

Lemma filter_all (A : Type) (f : A -> bool) (l : list A) :
  (forall x, f x = true) -> filter f l = l.
Proof.
  intros H. induction l as [|x l IH]; simpl; [reflexivity|].
  rewrite H, IH. reflexivity.
Qed.

(** Once the rows of a conversation are deleted, none is left to
    delete. *)
Lemma owned_rows_gone (id : Z) (l : list db.knowledge_row) :
  filter (fun k => match db.k_conversation_id k with
                   | Some c => (c =? id)%Z
                   | None => false
                   end)
         (filter (fun k => negb match db.k_conversation_id k with
                                | Some c => (c =? id)%Z
                                | None => false
                                end) l) = [].
Proof.
  apply filter_none. intros k Hk. apply filter_In in Hk.
  destruct Hk as [_ Hk]. apply negb_true_iff, Hk.
Qed.

(** The deletions of a conversation, run a second time, find nothing
    left to delete. *)
Lemma delete_twice (id : Z) (t : db.Tables) :
  db.delete_conversation id
    (db.delete_knowledge id
       (db.delete_messages id
          (db.delete_conversation id
             (db.delete_knowledge id (db.delete_messages id t))))) =
  db.delete_conversation id (db.delete_knowledge id (db.delete_messages id t)).
Proof.
  unfold db.delete_conversation, db.delete_knowledge, db.delete_messages. simpl.
  rewrite !filter_filter_same. rewrite owned_rows_gone. simpl.
  f_equal. apply filter_all. reflexivity.
Qed.

(** X7: deleting a conversation twice is deleting it once: after a
    deletion that succeeded, a second deletion of the same conversation
    changes no table, whether the engine lets it succeed or not, and it
    does succeed whenever the engine runs its five statements. *)
Theorem DeleteConversation_idempotent (id : Z) (d d1 : db.Database) :
  db.DeleteConversation id d = (None, d1) ->
  db.tables (snd (db.DeleteConversation id d1)) = db.tables d1 /\
  (forall t1 t2 t3 t4 t5 : Z,
      db.engine d1 (db.issued d1) = db.SqlOk t1 ->
      db.engine d1 (S (db.issued d1)) = db.SqlOk t2 ->
      db.engine d1 (S (S (db.issued d1))) = db.SqlOk t3 ->
      db.engine d1 (S (S (S (db.issued d1)))) = db.SqlOk t4 ->
      db.engine d1 (S (S (S (S (db.issued d1))))) = db.SqlOk t5 ->
      fst (db.DeleteConversation id d1) = None).
Proof.
  intros H1. split.
  - pose proof (DeleteConversation_tables _ _ H1) as Ht1. simpl in Ht1.
    pose proof (@DeleteConversation_tables id d1 _ _
                  (surjective_pairing (db.DeleteConversation id d1))) as Ht2.
    rewrite Ht2. destruct (fst (db.DeleteConversation id d1)); [reflexivity|].
    rewrite Ht1. apply delete_twice.
  - intros t1 t2 t3 t4 t5 E1 E2 E3 E4 E5.
    unfold db.DeleteConversation, db.run, db.exec. simpl.
    rewrite E1. simpl. rewrite E2. simpl. rewrite E3. simpl. rewrite E4. simpl.
    rewrite E5. reflexivity.
Qed.

Lemma DeleteConversation_idempotent_witness :
  fst (db.DeleteConversation 1
         (snd (db.DeleteConversation 1 (Go.healthy 100 Go.sky_tables)))) = None.
Proof.
  refine (proj2 (@DeleteConversation_idempotent 1 (Go.healthy 100 Go.sky_tables) _ _)
            100%Z 100%Z 100%Z 100%Z 100%Z _ _ _ _ _); reflexivity.
Defined.

(** The deletion of the knowledge of a conversation, with its trigger,
    keeps the index in step with the table. *)
Lemma delete_knowledge_keeps_index (id : Z) (t : db.Tables) :
  (index_anchored t -> index_anchored (db.delete_knowledge id t)) /\
  (index_agrees t -> index_agrees (db.delete_knowledge id t)) /\
  (NoDup (map db.k_id (db.knowledge t)) ->
   index_complete t -> index_complete (db.delete_knowledge id t)).
Proof.
  unfold index_anchored, index_agrees, index_complete, db.delete_knowledge. simpl.
  set (owned := fun k : db.knowledge_row =>
                  match db.k_conversation_id k with
                  | Some c => (c =? id)%Z
                  | None => false
                  end).
  set (deleted := map db.k_id (filter owned (db.knowledge t))).
  assert (Hdeleted : forall z, existsb (Z.eqb z) deleted = true <->
                               exists k, In k (db.knowledge t) /\
                                         owned k = true /\ db.k_id k = z).
  { intros z. rewrite existsb_exists. unfold deleted. split.
    - intros (y & Hy & Hzy). apply Z.eqb_eq in Hzy. subst y.
      apply in_map_iff in Hy. destruct Hy as (k & Hk & Hin).
      apply filter_In in Hin. exists k. tauto.
    - intros (k & Hin & Hown & <-). exists (db.k_id k).
      split; [|apply Z.eqb_refl].
      apply in_map, filter_In. tauto. }
  repeat split.
  - intros Hanch f Hf. apply filter_In in Hf. destruct Hf as [Hf Hkeep].
    destruct (Hanch f Hf) as (k & Hk & Hid). exists k. split; [|exact Hid].
    apply filter_In. split; [exact Hk|].
    change (negb (owned k) = true).
    destruct (owned k) eqn:Hown; [|reflexivity].
    apply negb_true_iff in Hkeep.
    assert (existsb (Z.eqb (db.docid f)) deleted = true)
      by (apply Hdeleted; exists k; tauto).
    congruence.
  - intros Hagree f k Hf Hk. apply filter_In in Hf, Hk.
    apply Hagree; tauto.
  - intros Hnd Hcomp k Hk. apply filter_In in Hk. destruct Hk as [Hk Hkeep].
    destruct (Hcomp k Hk) as (f & Hf & Hid). exists f. split; [|exact Hid].
    apply filter_In. split; [exact Hf|].
    destruct (existsb (Z.eqb (db.docid f)) deleted) eqn:Hdel; [|reflexivity].
    apply Hdeleted in Hdel. destruct Hdel as (k' & Hk' & Hown & Hid').
    assert (k' = k).
    { rewrite Hid in Hid'. clear - Hnd Hk Hk' Hid'.
      induction (db.knowledge t) as [|x l IH]; [destruct Hk|].
      simpl in Hnd. inversion Hnd as [|? ? Hnotin Hnd']; subst.
      destruct Hk as [->|Hk], Hk' as [->|Hk'].
      - reflexivity.
      - exfalso. apply Hnotin. rewrite <- Hid'. apply in_map, Hk'.
      - exfalso. apply Hnotin. rewrite Hid'. apply in_map, Hk.
      - apply IH; assumption. }
    subst k'. change (negb (owned k) = true) in Hkeep.
    apply negb_true_iff in Hkeep. congruence.
Qed.


(** X8: a deletion keeps the index in step with the knowledge table: no
    index entry is left without its row, the entries still carry the
    content of their rows, and, when the identifiers of the rows are
    distinct, every row that stays keeps its entry. *)
Theorem DeleteConversation_keeps_index (id : Z) (d d1 : db.Database) :
  db.DeleteConversation id d = (None, d1) ->
  (index_anchored (db.tables d) -> index_anchored (db.tables d1)) /\
  (index_agrees (db.tables d) -> index_agrees (db.tables d1)) /\
  (NoDup (map db.k_id (db.knowledge (db.tables d))) ->
   index_complete (db.tables d) -> index_complete (db.tables d1)).
Proof.
  intros Hdel. pose proof (DeleteConversation_tables _ _ Hdel) as Ht. simpl in Ht.
  rewrite Ht. clear Ht Hdel d1.
  exact (delete_knowledge_keeps_index id (db.tables d)).
Qed.

Lemma DeleteConversation_keeps_index_witness :
  index_anchored (db.tables (snd (db.DeleteConversation 1
                                    (Go.healthy 100 Go.sky_tables)))).
Proof.
  refine (proj1 (@DeleteConversation_keeps_index 1 (Go.healthy 100 Go.sky_tables)
                   _ _) _).
  - reflexivity.
  - intros f Hf. simpl in Hf.
    destruct Hf as [<-|[<-|[]]]; eexists.
    + split; [simpl; left; reflexivity|reflexivity].
    + split; [simpl; right; left; reflexivity|reflexivity].
Defined.

(** X9: renaming a conversation succeeds whenever the engine runs the
    statement, whether or not a conversation of that identifier exists.
    It changes the title of the conversation of that identifier and
    nothing else: the identifiers and the creation times stay, and so do
    the other conversations, the messages and the knowledge; when no
    conversation has the identifier, nothing changes.  When the engine
    fails the statement, the call returns its error and changes
    nothing. *)
Theorem UpdateConversationTitle_renames_only
    (id : Z) (title : string) (d : db.Database) :
  let d' := snd (db.UpdateConversationTitle id title d) in
  (forall now, db.engine d (db.issued d) = db.SqlOk now ->
     fst (db.UpdateConversationTitle id title d) = None /\
     (forall c, In c (db.conversations (db.tables d')) ->
                if (models.conv_ID c =? id)%Z then models.conv_Title c = title
                else In c (db.conversations (db.tables d))) /\
     (forall c, In c (db.conversations (db.tables d)) ->
                In (if (models.conv_ID c =? id)%Z
                    then {| models.conv_ID := models.conv_ID c;
                            models.conv_Title := title;
                            models.conv_CreatedAt := models.conv_CreatedAt c |}
                    else c)
                   (db.conversations (db.tables d')))) /\
  (forall e, db.engine d (db.issued d) = db.SqlErr e ->
     fst (db.UpdateConversationTitle id title d) = Some e /\
     db.tables d' = db.tables d) /\
  map models.conv_ID (db.conversations (db.tables d')) =
    map models.conv_ID (db.conversations (db.tables d)) /\
  map models.conv_CreatedAt (db.conversations (db.tables d')) =
    map models.conv_CreatedAt (db.conversations (db.tables d)) /\
  db.messages (db.tables d') = db.messages (db.tables d) /\
  db.knowledge (db.tables d') = db.knowledge (db.tables d) /\
  db.knowledge_fts (db.tables d') = db.knowledge_fts (db.tables d) /\
  (~ In id (map models.conv_ID (db.conversations (db.tables d))) ->
   db.conversations (db.tables d') = db.conversations (db.tables d)).
Proof.
  unfold db.UpdateConversationTitle, db.exec.
  destruct (db.engine d (db.issued d)) as [now|e]; simpl.
  - split; [|split; [intros e H; discriminate H|]].
    { intros now' _. split; [reflexivity|]. split.
      - intros c Hc. apply in_map_iff in Hc. destruct Hc as (c0 & <- & Hc0).
        destruct (models.conv_ID c0 =? id)%Z eqn:Hid; simpl; rewrite Hid;
          [reflexivity|exact Hc0].
      - intros c Hc.
        exact (in_map (fun c0 => if (models.conv_ID c0 =? id)%Z
                                 then {| models.conv_ID := models.conv_ID c0;
                                         models.conv_Title := title;
                                         models.conv_CreatedAt :=
                                           models.conv_CreatedAt c0 |}
                                 else c0) _ c Hc). }
    split; [|split; [|split; [reflexivity|split; [reflexivity|
      split; [reflexivity|]]]]].
    + rewrite map_map. apply map_ext. intros c.
      destruct (models.conv_ID c =? id)%Z; reflexivity.
    + rewrite map_map. apply map_ext. intros c.
      destruct (models.conv_ID c =? id)%Z; reflexivity.
    + intros Habsent. rewrite <- (map_id (db.conversations (db.tables d))) at 2.
      apply map_ext_in. intros c Hc.
      destruct (Z.eqb_spec (models.conv_ID c) id) as [Heq|_]; [|reflexivity].
      exfalso. apply Habsent. rewrite <- Heq. apply in_map, Hc.
  - split; [intros now H; discriminate H|].
    split; [intros e' H; injection H as <-; split; reflexivity|].
    split; [reflexivity|]. split; [reflexivity|].
    split; [reflexivity|]. split; [reflexivity|]. split; [reflexivity|].
    intros _. reflexivity.
Qed.

Lemma UpdateConversationTitle_renames_only_witness :
  fst (db.UpdateConversationTitle 7 "climate" (Go.healthy 100 Go.sky_tables)) = None /\
  db.conversations (db.tables (snd (db.UpdateConversationTitle 7 "climate"
                                      (Go.healthy 100 Go.sky_tables)))) =
    db.conversations Go.sky_tables.
Proof.
  pose proof (@UpdateConversationTitle_renames_only 7 "climate"
                (Go.healthy 100 Go.sky_tables)) as H. simpl in H.
  destruct H as (Hok & _ & _ & _ & _ & _ & _ & Habsent).
  split.
  - exact (proj1 (Hok 100%Z eq_refl)).
  - apply Habsent. intros [H|[]]. discriminate H.
Defined.

(** X10: a conversation that is created receives an identifier greater
    than that of every conversation in the table and the given title; it
    is listed by [GetConversations] afterwards, which returns all the
    conversations newest first and changes no table. *)
Theorem created_conversation_is_listed
    (title : string) (d d1 d2 : db.Database)
    (c : models.Conversation) (listed : list models.Conversation) :
  db.CreateConversation title d = (c, None, d1) ->
  db_conversations.GetConversations d1 = (listed, None, d2) ->
  (forall c0, In c0 (db.conversations (db.tables d)) ->
              (models.conv_ID c0 < models.conv_ID c)%Z) /\
  models.conv_Title c = title /\
  db.messages (db.tables d1) = db.messages (db.tables d) /\
  db.knowledge (db.tables d1) = db.knowledge (db.tables d) /\
  In c listed /\
  Permutation (db.conversations (db.tables d) ++ [c]) listed /\
  newest_first models.conv_CreatedAt listed /\
  db.tables d2 = db.tables d1.
Proof.
  unfold db.CreateConversation, db_conversations.GetConversations, db.exec.
  destruct (db.engine d (db.issued d)) as [now|e]; [|discriminate].
  intros H. injection H as <- <-. simpl.
  destruct (db.engine d (S (db.issued d))) as [now'|e]; [|discriminate].
  intros H. injection H as <- <-. simpl.
  set (c := {| models.conv_ID := _; models.conv_Title := title;
               models.conv_CreatedAt := now |}).
  pose proof (order_by_desc_perm models.conv_CreatedAt
                (db.conversations (db.tables d) ++ [c])) as Hperm.
  repeat split.
  - intros c0 Hc0. apply next_id_above, in_map, Hc0.
  - apply (Permutation_in _ Hperm), in_or_app. right. left. reflexivity.
  - exact Hperm.
  - apply order_by_desc_sorted.
Qed.

Lemma created_conversation_is_listed_witness :
  In {| models.conv_ID := 2; models.conv_Title := "oceans";
        models.conv_CreatedAt := 100 |}
     (fst (fst (db_conversations.GetConversations
                  (snd (db.CreateConversation "oceans"
                          (Go.healthy 100 Go.sky_tables)))))).
Proof.
  refine (proj1 (proj2 (proj2 (proj2 (proj2
            (@created_conversation_is_listed "oceans"
               (Go.healthy 100 Go.sky_tables) _ _ _ _ _ _)))))).
  - reflexivity.
  - reflexivity.
Defined.

(** ** The store: the knowledge base and its index *)

Lemma fts_insert_Some (row : db.fts_row) (fts fts' : list db.fts_row) :
  db.fts_insert row fts = Some fts' ->
  fts' = (fts ++ [row])%list /\
  forall f, In f fts -> db.docid f <> db.docid row.
Proof.
  unfold db.fts_insert.
  destruct (existsb _ fts) eqn:Hex; [discriminate|].
  intros H. injection H as <-. split; [reflexivity|].
  intros f Hf Heq.
  assert (existsb (fun f0 => (db.docid f0 =? db.docid row)%Z) fts = true).
  { apply existsb_exists. exists f. split; [exact Hf|]. apply Z.eqb_eq, Heq. }
  congruence.
Qed.

Lemma fts_insert_fresh (row : db.fts_row) (fts : list db.fts_row) :
  (forall f, In f fts -> db.docid f <> db.docid row) ->
  db.fts_insert row fts = Some (fts ++ [row])%list.
Proof.
  intros Hfresh. unfold db.fts_insert.
  destruct (existsb _ fts) eqn:Hex; [|reflexivity].
  apply existsb_exists in Hex. destruct Hex as (f & Hf & Heq).
  apply Z.eqb_eq in Heq. destruct (Hfresh f Hf Heq).
Qed.

Lemma NoDup_map_snoc (A : Type) (f : A -> Z) (l : list A) (y : A) :
  NoDup (map f l) -> (forall x, In x l -> f x <> f y) ->
  NoDup (map f (l ++ [y])).
Proof.
  intros Hnd Hfresh. rewrite map_app. simpl.
  apply Permutation_NoDup with (l := f y :: map f l).
  - apply Permutation_cons_append.
  - constructor; [|exact Hnd]. intros Hin. apply in_map_iff in Hin.
    destruct Hin as (x & Hx & Hin). apply (Hfresh x Hin Hx).
Qed.

Lemma NoDup_map_filter (A B : Type) (key : A -> B) (keep : A -> bool)
    (rows : list A) :
  NoDup (map key rows) -> NoDup (map key (filter keep rows)).
Proof.
  induction rows as [|x rows IH]; simpl; [trivial|].
  intros Hnd. inversion Hnd as [|? ? Hnotin Hnd']; subst.
  destruct (keep x); simpl; [|apply IH, Hnd'].
  constructor; [|apply IH, Hnd'].
  intros Hin. apply Hnotin. apply in_map_iff in Hin.
  destruct Hin as (y & Hy & Hin). apply filter_In in Hin.
  rewrite <- Hy. apply in_map, Hin.
Qed.

Lemma NoDup_map_inj (A B : Type) (f : A -> B) (l : list A) (x y : A) :
  NoDup (map f l) -> In x l -> In y l -> f x = f y -> x = y.
Proof.
  induction l as [|z l IH]; simpl; [intros _ []|].
  intros Hnd Hx Hy Heq. inversion Hnd as [|? ? Hnotin Hnd']; subst.
  destruct Hx as [->|Hx], Hy as [->|Hy].
  - reflexivity.
  - exfalso. apply Hnotin. rewrite Heq. apply in_map, Hy.
  - exfalso. apply Hnotin. rewrite <- Heq. apply in_map, Hx.
  - apply IH; assumption.
Qed.

Lemma Forall2_In_l (A B : Type) (R : A -> B -> Prop) (l : list A) (l' : list B)
    (x : A) :
  Forall2 R l l' -> In x l -> exists y, In y l' /\ R x y.
Proof.
  induction 1 as [|a b l l' Hab _ IH]; simpl; [intros []|].
  intros [->|Hx].
  - exists b. split; [left; reflexivity|exact Hab].
  - destruct (IH Hx) as (y & Hy & Hxy). exists y. split; [right; exact Hy|exact Hxy].
Qed.

Lemma Forall2_In_r (A B : Type) (R : A -> B -> Prop) (l : list A) (l' : list B)
    (y : B) :
  Forall2 R l l' -> In y l' -> exists x, In x l /\ R x y.
Proof.
  induction 1 as [|a b l l' Hab _ IH]; simpl; [intros []|].
  intros [->|Hy].
  - exists a. split; [left; reflexivity|exact Hab].
  - destruct (IH Hy) as (x & Hx & Hxy). exists x. split; [right; exact Hx|exact Hxy].
Qed.

(** *** Scanning the rows of a search *)

Lemma scan_rows_Forall2 (rows : list db.knowledge_row) :
  forall acc res, db.scan_rows rows acc = Some res ->
                  exists new, res = (acc ++ new)%list /\ Forall2 row_result rows new.
Proof.
  induction rows as [|k rows IH]; simpl; intros acc res H.
  - injection H as <-. exists []. split; [symmetry; apply app_nil_r|constructor].
  - destruct (db.k_conversation_id k) as [c|] eqn:Hc; [|discriminate].
    destruct (IH _ _ H) as (new & -> & Hall).
    eexists (_ :: new). split; [rewrite <- app_assoc; reflexivity|].
    constructor; [|exact Hall]. repeat split. exact Hc.
Qed.

Lemma scan_rows_owned (rows : list db.knowledge_row) :
  (forall k, In k rows -> db.k_conversation_id k <> None) ->
  forall acc, db.scan_rows rows acc <> None.
Proof.
  induction rows as [|k rows IH]; simpl; intros Hown acc; [discriminate|].
  destruct (db.k_conversation_id k) as [c|] eqn:Hc.
  - apply IH. intros k' Hk'. apply Hown. right. exact Hk'.
  - destruct (Hown k (or_introl eq_refl) Hc).
Qed.

Lemma scan_rows_null (rows : list db.knowledge_row) (k : db.knowledge_row) :
  In k rows -> db.k_conversation_id k = None ->
  forall acc, db.scan_rows rows acc = None.
Proof.
  induction rows as [|k' rows IH]; simpl; [intros []|].
  intros [->|Hin] Hnull acc.
  - rewrite Hnull. reflexivity.
  - destruct (db.k_conversation_id k'); [|reflexivity]. apply IH; assumption.
Qed.

Lemma row_results_newest_first (rows : list db.knowledge_row)
    (results : list db.search_result) :
  Forall2 row_result rows results ->
  newest_first db.k_created_at rows -> newest_first db.sr_CreatedAt results.
Proof.
  unfold newest_first.
  induction 1 as [|k r rows results Hkr Hall IH]; intros Hs; [constructor|].
  inversion Hs as [|? ? Hs' Hle]; subst.
  constructor; [apply IH, Hs'|].
  rewrite Forall_forall in *. intros r' Hr'.
  destruct (@Forall2_In_r _ _ _ _ _ _ Hall Hr') as (k' & Hk' & Hkr').
  specialize (Hle k' Hk').
  destruct Hkr as (_ & _ & ->). destruct Hkr' as (_ & _ & ->). exact Hle.
Qed.

Lemma join_fts_In (selected : string -> bool) (t : db.Tables)
    (k : db.knowledge_row) :
  In k (db.join_fts selected t) <->
  exists f, In f (db.knowledge_fts t) /\ selected (db.fts_content f) = true /\
            In k (db.knowledge t) /\ db.k_id k = db.docid f.
Proof.
  unfold db.join_fts. rewrite in_flat_map. split.
  - intros (f & Hf & Hk). exists f.
    destruct (selected (db.fts_content f)); [|destruct Hk].
    apply filter_In in Hk. destruct Hk as [Hk Hid]. apply Z.eqb_eq in Hid. tauto.
  - intros (f & Hf & Hsel & Hk & Hid). exists f. split; [exact Hf|].
    rewrite Hsel. apply filter_In. split; [exact Hk|]. apply Z.eqb_eq, Hid.
Qed.

(** *** Bringing the index up to date *)

Lemma synced_complete (t : db.Tables) : index_complete (synced t).
Proof.
  intros k Hk. simpl in *.
  destruct (existsb (fun f => (db.docid f =? db.k_id k)%Z) (db.knowledge_fts t))
    eqn:Hex.
  - apply existsb_exists in Hex. destruct Hex as (f & Hf & Hid).
    exists f. split; [apply in_or_app; left; exact Hf|apply Z.eqb_eq, Hid].
  - eexists. split.
    + apply in_or_app. right. unfold db.unindexed. apply in_map.
      apply filter_In. split; [exact Hk|]. rewrite Hex. reflexivity.
    + reflexivity.
Qed.

Lemma unindexed_In (t : db.Tables) (f : db.fts_row) :
  In f (db.unindexed t) ->
  exists k, In k (db.knowledge t) /\ db.docid f = db.k_id k /\
            db.fts_content f = db.k_content k /\
            forall f0, In f0 (db.knowledge_fts t) -> db.docid f0 <> db.k_id k.
Proof.
  unfold db.unindexed. intros Hf. apply in_map_iff in Hf.
  destruct Hf as (k & <- & Hk). apply filter_In in Hk. destruct Hk as [Hk Hnew].
  exists k. repeat split; try assumption.
  intros f0 Hf0 Heq. apply negb_true_iff in Hnew.
  assert (existsb (fun f => (db.docid f =? db.k_id k)%Z) (db.knowledge_fts t) = true).
  { apply existsb_exists. exists f0. split; [exact Hf0|apply Z.eqb_eq, Heq]. }
  congruence.
Qed.

Lemma synced_anchored (t : db.Tables) : index_anchored t -> index_anchored (synced t).
Proof.
  intros Han f Hf. simpl in *. apply in_app_or in Hf. destruct Hf as [Hf|Hf].
  - apply Han, Hf.
  - destruct (@unindexed_In _ _ Hf) as (k & Hk & Hid & _). exists k. split; congruence.
Qed.

Lemma synced_agrees (t : db.Tables) :
  NoDup (map db.k_id (db.knowledge t)) -> index_agrees t -> index_agrees (synced t).
Proof.
  intros Hnd Hag f k Hf Hk Hid. simpl in *. apply in_app_or in Hf.
  destruct Hf as [Hf|Hf]; [apply Hag; assumption|].
  destruct (@unindexed_In _ _ Hf) as (k0 & Hk0 & Hid0 & Hc0 & _).
  assert (k = k0) by (apply (@NoDup_map_inj _ _ db.k_id _ _ _ Hnd Hk Hk0); congruence).
  subst k0. exact Hc0.
Qed.

Lemma synced_docids (t : db.Tables) :
  NoDup (map db.k_id (db.knowledge t)) ->
  NoDup (map db.docid (db.knowledge_fts t)) ->
  NoDup (map db.docid (db.knowledge_fts (synced t))).
Proof.
  intros Hk Hf. simpl. rewrite map_app. apply NoDup_app.
  - exact Hf.
  - unfold db.unindexed. rewrite map_map. simpl. apply NoDup_map_filter, Hk.
  - intros z Hz Hz'. apply in_map_iff in Hz, Hz'.
    destruct Hz as (f0 & <- & Hf0). destruct Hz' as (f & Heq & Hin).
    destruct (@unindexed_In _ _ Hin) as (k & _ & Hid & _ & Hfresh).
    apply (Hfresh f0 Hf0). congruence.
Qed.

(** A query that selects nothing joins no row. *)
Lemma join_fts_none (t : db.Tables) : db.join_fts (fun _ => false) t = [].
Proof.
  unfold db.join_fts. induction (db.knowledge_fts t) as [|f l IH]; simpl;
    [reflexivity|exact IH].
Qed.

Section StoreSearch.
Variable fts_MATCH : string -> option (string -> bool).

Lemma SearchKnowledge_tables (query : string) (d : db.Database) :
  db.tables (snd (db.SearchKnowledge fts_MATCH query d)) =
    match db.engine d (db.issued d), db.engine d (S (db.issued d)) with
    | db.SqlOk _, db.SqlOk _ => synced (db.tables d)
    | _, _ => db.tables d
    end.
Proof.
  unfold db.SearchKnowledge, db.run, db.exec. simpl.
  destruct (db.engine d (db.issued d)); simpl; [|reflexivity].
  destruct (db.engine d (S (db.issued d))); simpl; [|reflexivity].
  destruct (db.engine d (S (S (db.issued d)))); simpl; [|reflexivity].
  destruct (fts_MATCH query); simpl; [|reflexivity].
  destruct (db.scan_rows _ _); reflexivity.
Qed.

Lemma SearchKnowledge_success (query : string) (d d' : db.Database)
    (results : list db.search_result) :
  db.SearchKnowledge fts_MATCH query d = (results, None, d') ->
  exists selected,
    (fts_MATCH query = Some selected \/
     fts_MATCH query = None /\ selected = fun _ => false) /\
    db.tables d' = synced (db.tables d) /\
    db.scan_rows (db.order_by_desc db.k_created_at
                    (db.join_fts selected (synced (db.tables d)))) [] = Some results.
Proof.
  unfold db.SearchKnowledge, db.run, db.exec. simpl.
  destruct (db.engine d (db.issued d)); simpl; [|discriminate].
  destruct (db.engine d (S (db.issued d))); simpl; [|discriminate].
  destruct (db.engine d (S (S (db.issued d)))); simpl; [|discriminate].
  destruct (fts_MATCH query) as [selected|]; simpl.
  - destruct (db.scan_rows _ _) as [res|] eqn:Hscan; [|discriminate].
    intros H. injection H as <- <-. exists selected.
    split; [left; reflexivity|]. split; [reflexivity|exact Hscan].
  - intros H. injection H as <- <-. exists (fun _ => false).
    split; [right; split; reflexivity|]. split; [reflexivity|].
    rewrite join_fts_none. reflexivity.
Qed.

(** The rows of a search that succeeds are knowledge rows of the
    table. *)
Lemma SearchKnowledge_sound_rows (query : string) (d d' : db.Database)
    (results : list db.search_result) :
  db.SearchKnowledge fts_MATCH query d = (results, None, d') ->
  forall r, In r results ->
            exists k, In k (db.knowledge (db.tables d)) /\ row_result k r.
Proof.
  intros H r Hr.
  destruct (@SearchKnowledge_success query d _ _ H) as (selected & _ & _ & Hscan).
  destruct (@scan_rows_Forall2 _ _ _ Hscan) as (new & -> & Hall). simpl in Hr.
  destruct (@Forall2_In_r _ _ _ _ _ _ Hall Hr) as (k & Hk & Hkr).
  exists k. split; [|exact Hkr].
  apply (Permutation_in _ (Permutation_sym
           (order_by_desc_perm db.k_created_at _))) in Hk.
  apply join_fts_In in Hk. destruct Hk as (_ & _ & _ & Hk & _). exact Hk.
Qed.

(** X11: a search of the store that succeeds changes the index alone,
    which then has an entry for every knowledge row; the results are
    newest first, and each of them carries the content, the conversation
    and the time of a knowledge row of the table. *)
Theorem SearchKnowledge_sound_newest_first
    (query : string) (d d' : db.Database) (results : list db.search_result) :
  db.SearchKnowledge fts_MATCH query d = (results, None, d') ->
  newest_first db.sr_CreatedAt results /\
  (forall r, In r results ->
             exists k, In k (db.knowledge (db.tables d)) /\ row_result k r) /\
  db.conversations (db.tables d') = db.conversations (db.tables d) /\
  db.messages (db.tables d') = db.messages (db.tables d) /\
  db.knowledge (db.tables d') = db.knowledge (db.tables d) /\
  index_complete (db.tables d').
Proof.
  intros H. destruct (@SearchKnowledge_success query d _ _ H) as (selected & _ & -> & Hscan).
  destruct (@scan_rows_Forall2 _ _ _ Hscan) as (new & -> & Hall). simpl app.
  pose proof (order_by_desc_perm db.k_created_at
                (db.join_fts selected (synced (db.tables d)))) as Hperm.
  repeat split; try reflexivity.
  - apply (@row_results_newest_first _ _ Hall), order_by_desc_sorted.
  - intros r Hr. destruct (@Forall2_In_r _ _ _ _ _ _ Hall Hr) as (k & Hk & Hkr).
    exists k. split; [|exact Hkr].
    apply (Permutation_in _ (Permutation_sym Hperm)) in Hk.
    apply join_fts_In in Hk. destruct Hk as (_ & _ & _ & Hk & _). exact Hk.
  - apply synced_complete.
Qed.

(** X12: when the index agrees with the knowledge table and the
    identifiers of the table are distinct, a search that succeeds returns
    the entries whose content the query selects, and only those. *)
Theorem SearchKnowledge_finds_selected_entries
    (query : string) (selected : string -> bool) (d d' : db.Database)
    (results : list db.search_result) :
  db.SearchKnowledge fts_MATCH query d = (results, None, d') ->
  fts_MATCH query = Some selected ->
  index_agrees (db.tables d) ->
  NoDup (map db.k_id (db.knowledge (db.tables d))) ->
  (forall r, In r results -> selected (db.sr_Content r) = true) /\
  (forall k, In k (db.knowledge (db.tables d)) ->
             selected (db.k_content k) = true ->
             exists r, In r results /\ row_result k r).
Proof.
  intros H Hsel Hag Hnd.
  destruct (@SearchKnowledge_success query d _ _ H) as (selected' & Hsel' & _ & Hscan).
  destruct Hsel' as [Hsel'|[Hnone _]]; [|congruence].
  rewrite Hsel in Hsel'. injection Hsel' as <-.
  destruct (@scan_rows_Forall2 _ _ _ Hscan) as (new & -> & Hall). simpl app.
  pose proof (order_by_desc_perm db.k_created_at
                (db.join_fts selected (synced (db.tables d)))) as Hperm.
  pose proof (@synced_agrees (db.tables d) Hnd Hag) as Hag'.
  split.
  - intros r Hr. destruct (@Forall2_In_r _ _ _ _ _ _ Hall Hr) as (k & Hk & Hkr).
    apply (Permutation_in _ (Permutation_sym Hperm)) in Hk.
    apply join_fts_In in Hk. destruct Hk as (f & Hf & Hfsel & Hk & Hid).
    destruct Hkr as (_ & -> & _). rewrite <- (Hag' f k Hf Hk Hid). exact Hfsel.
  - intros k Hk Hksel.
    destruct (@synced_complete (db.tables d) k Hk) as (f & Hf & Hid).
    apply (@Forall2_In_l _ _ _ _ _ _ Hall). apply (Permutation_in _ Hperm).
    apply join_fts_In. exists f. repeat split; try assumption; [|congruence].
    rewrite (Hag' f k Hf Hk (eq_sym Hid)). exact Hksel.
Qed.

(** X13: a knowledge entry without a conversation makes every search
    that selects it fail: no result is returned, and when the engine runs
    the three statements the error is that of the scan of the
    conversation. *)
Theorem unowned_selected_entry_fails_search
    (query : string) (selected : string -> bool) (d : db.Database)
    (k : db.knowledge_row) :
  fts_MATCH query = Some selected ->
  In k (db.knowledge (db.tables d)) ->
  db.k_conversation_id k = None ->
  selected (db.k_content k) = true ->
  index_agrees (db.tables d) ->
  NoDup (map db.k_id (db.knowledge (db.tables d))) ->
  fst (fst (db.SearchKnowledge fts_MATCH query d)) = [] /\
  snd (fst (db.SearchKnowledge fts_MATCH query d)) <> None /\
  (forall a b c,
      db.engine d (db.issued d) = db.SqlOk a ->
      db.engine d (S (db.issued d)) = db.SqlOk b ->
      db.engine d (S (S (db.issued d))) = db.SqlOk c ->
      snd (fst (db.SearchKnowledge fts_MATCH query d)) =
        Some ("failed to scan result: " ++ db.scan_null_error)).
Proof.
  intros Hsel Hk Hnull Hksel Hag Hnd.
  assert (Hscan : db.scan_rows
                    (db.order_by_desc db.k_created_at
                       (db.join_fts selected (synced (db.tables d)))) [] = None).
  { apply scan_rows_null with (k := k); [|exact Hnull].
    apply (Permutation_in _ (order_by_desc_perm db.k_created_at _)).
    destruct (@synced_complete (db.tables d) k Hk) as (f & Hf & Hid).
    apply join_fts_In. exists f. repeat split; try assumption; [|congruence].
    rewrite (@synced_agrees (db.tables d) Hnd Hag f k Hf Hk (eq_sym Hid)). exact Hksel. }
  unfold db.SearchKnowledge, db.run, db.exec. simpl.
  destruct (db.engine d (db.issued d)); simpl;
    [|split; [reflexivity|split; [discriminate|intros; discriminate]]].
  destruct (db.engine d (S (db.issued d))); simpl;
    [|split; [reflexivity|split; [discriminate|intros; discriminate]]].
  destruct (db.engine d (S (S (db.issued d)))); simpl;
    [|split; [reflexivity|split; [discriminate|intros; discriminate]]].
  rewrite Hsel. fold (synced (db.tables d)). rewrite Hscan.
  split; [reflexivity|split; [discriminate|intros; reflexivity]].
Qed.

(** X14: when every knowledge entry has a conversation, the search
    succeeds whenever the engine runs its three statements and the query
    is well formed. *)
Theorem owned_entries_search_succeeds
    (query : string) (selected : string -> bool) (d : db.Database) (a b c : Z) :
  all_owned (db.tables d) ->
  fts_MATCH query = Some selected ->
  db.engine d (db.issued d) = db.SqlOk a ->
  db.engine d (S (db.issued d)) = db.SqlOk b ->
  db.engine d (S (S (db.issued d))) = db.SqlOk c ->
  snd (fst (db.SearchKnowledge fts_MATCH query d)) = None.
Proof.
  intros Hown Hsel Ha Hb Hc.
  unfold db.SearchKnowledge, db.run, db.exec. simpl.
  rewrite Ha. simpl. rewrite Hb. simpl. rewrite Hc. simpl. rewrite Hsel.
  fold (synced (db.tables d)).
  destruct (db.scan_rows _ _) as [res|] eqn:Hscan; [reflexivity|].
  exfalso. revert Hscan. apply scan_rows_owned.
  intros k Hk.
  apply (Permutation_in _ (Permutation_sym (order_by_desc_perm db.k_created_at _)))
    in Hk.
  apply join_fts_In in Hk. destruct Hk as (_ & _ & _ & Hk & _).
  apply Hown, Hk.
Qed.

End StoreSearch.

Lemma sky_tables_agree : index_agrees Go.sky_tables.
Proof.
  intros f k Hf Hk Hid. simpl in Hf, Hk.
  destruct Hf as [<-|[<-|[]]]; destruct Hk as [<-|[<-|[]]];
    simpl in *; first [reflexivity | discriminate].
Qed.

Lemma sky_tables_distinct : NoDup (map db.k_id (db.knowledge Go.sky_tables)).
Proof.
  simpl. repeat constructor; simpl; intuition discriminate.
Qed.

Lemma sky_tables_owned : all_owned Go.sky_tables.
Proof.
  intros k Hk. simpl in Hk. destruct Hk as [<-|[<-|[]]]; discriminate.
Qed.

Lemma SearchKnowledge_sound_newest_first_witness :
  newest_first db.sr_CreatedAt
    (fst (fst (db.SearchKnowledge Go.word_MATCH "sky"
                 (Go.healthy 100 Go.sky_tables)))).
Proof.
  refine (proj1 (@SearchKnowledge_sound_newest_first Go.word_MATCH "sky"
                   (Go.healthy 100 Go.sky_tables) _ _ _)).
  reflexivity.
Defined.

Lemma SearchKnowledge_finds_selected_entries_witness :
  exists r,
    In r (fst (fst (db.SearchKnowledge Go.word_MATCH "blue"
                      (Go.healthy 100 Go.sky_tables)))) /\
    row_result {| db.k_id := 1; db.k_content := "The sky is blue";
                  db.k_conversation_id := Some 1%Z; db.k_created_at := 7 |} r.
Proof.
  refine (proj2 (@SearchKnowledge_finds_selected_entries Go.word_MATCH "blue" _
                   (Go.healthy 100 Go.sky_tables) _ _ _ _ _ _) _ _ _).
  - reflexivity.
  - reflexivity.
  - exact sky_tables_agree.
  - exact sky_tables_distinct.
  - simpl. left. reflexivity.
  - reflexivity.
Defined.

Lemma unowned_selected_entry_fails_search_witness :
  snd (fst (db.SearchKnowledge Go.word_MATCH "sky"
              (Go.healthy 100 orphan_tables))) =
    Some ("failed to scan result: " ++ db.scan_null_error).
Proof.
  refine (proj2 (proj2 (@unowned_selected_entry_fails_search Go.word_MATCH "sky" _
                          (Go.healthy 100 orphan_tables)
                          {| db.k_id := 1; db.k_content := "The sky is blue";
                             db.k_conversation_id := None; db.k_created_at := 7 |}
                          _ _ _ _ _ _)) 100%Z 100%Z 100%Z _ _ _).
  - reflexivity.
  - simpl. left. reflexivity.
  - reflexivity.
  - reflexivity.
  - intros f k Hf. destruct Hf.
  - simpl. repeat constructor. simpl. tauto.
  - reflexivity.
  - reflexivity.
  - reflexivity.
Defined.

Lemma owned_entries_search_succeeds_witness :
  snd (fst (db.SearchKnowledge Go.word_MATCH "sky"
              (Go.healthy 100 Go.sky_tables))) = None.
Proof.
  refine (@owned_entries_search_succeeds Go.word_MATCH "sky" _
            (Go.healthy 100 Go.sky_tables) 100 100 100 _ _ _ _ _).
  - exact sky_tables_owned.
  - reflexivity.
  - reflexivity.
  - reflexivity.
  - reflexivity.
Defined.

(** ** The store in use: what its calls maintain *)

Lemma store_invariant_rows (t t' : db.Tables) :
  db.knowledge t' = db.knowledge t ->
  db.knowledge_fts t' = db.knowledge_fts t ->
  NoDup (map models.ID (db.messages t')) ->
  NoDup (map models.conv_ID (db.conversations t')) ->
  store_invariant t -> store_invariant t'.
Proof.
  unfold store_invariant, all_owned, index_anchored, index_agrees.
  intros Hk Hf Hm Hc. rewrite Hk, Hf. tauto.
Qed.

Lemma empty_invariant : store_invariant Go.empty_tables.
Proof.
  refine (conj _ (conj _ (conj _ (conj _ (conj _ (conj _ _)))))); simpl.
  - intros k [].
  - constructor.
  - constructor.
  - intros f [].
  - intros f k [].
  - constructor.
  - constructor.
Qed.

Lemma New_invariant (stored : db.Tables) (engine : nat -> db.sqlres)
    (d : db.Database) :
  db_open.New stored engine = (Some d, None) ->
  store_invariant stored -> store_invariant (db.tables d).
Proof.
  unfold db_open.New. destruct (engine O); [|discriminate].
  intros H. injection H as <-. simpl.
  intros (Ho & Hk & Hf & Han & Hag & Hm & Hc).
  refine (conj _ (conj _ (conj _ (conj _ (conj _ (conj _ _)))))); simpl.
  - exact Ho.
  - exact Hk.
  - constructor.
  - intros f [].
  - intros f k [].
  - exact Hm.
  - exact Hc.
Qed.

Lemma SaveMessage_invariant (msg : models.Message) (d : db.Database) :
  store_invariant (db.tables d) ->
  store_invariant (db.tables (snd (db.SaveMessage msg d))).
Proof.
  intros Hinv. unfold db.SaveMessage, db.exec.
  destruct (db.engine d (db.issued d)); simpl; [|exact Hinv].
  apply (@store_invariant_rows (db.tables d)); simpl;
    try reflexivity; try apply Hinv.
  apply NoDup_map_snoc; [apply Hinv|].
  intros x Hx. simpl.
  assert (models.ID x < db.next_id (db.seq_messages (db.tables d))
                          (map models.ID (db.messages (db.tables d))))%Z
    by (apply next_id_above, in_map, Hx).
  lia.
Qed.

Lemma CreateConversation_invariant (title : string) (d : db.Database) :
  store_invariant (db.tables d) ->
  store_invariant (db.tables (snd (db.CreateConversation title d))).
Proof.
  intros Hinv. unfold db.CreateConversation, db.exec.
  destruct (db.engine d (db.issued d)); simpl; [|exact Hinv].
  apply (@store_invariant_rows (db.tables d)); simpl;
    try reflexivity; try apply Hinv.
  apply NoDup_map_snoc; [apply Hinv|].
  intros x Hx. simpl.
  assert (models.conv_ID x < db.next_id (db.seq_conversations (db.tables d))
                               (map models.conv_ID (db.conversations (db.tables d))))%Z
    by (apply next_id_above, in_map, Hx).
  lia.
Qed.

Lemma UpdateConversationTitle_invariant (id : Z) (title : string)
    (d : db.Database) :
  store_invariant (db.tables d) ->
  store_invariant (db.tables (snd (db.UpdateConversationTitle id title d))).
Proof.
  intros Hinv. unfold db.UpdateConversationTitle, db.exec.
  destruct (db.engine d (db.issued d)); simpl; [|exact Hinv].
  apply (@store_invariant_rows (db.tables d)); simpl;
    try reflexivity; try apply Hinv.
  rewrite map_map.
  rewrite (map_ext _ models.conv_ID); [apply Hinv|].
  intros c. destruct (models.conv_ID c =? id)%Z; reflexivity.
Qed.

Lemma second_insert_knowledge_invariant
    (content : string) (c now : Z) (t t' : db.Tables) :
  store_invariant t ->
  db_second.insert_knowledge content c now t = Some t' ->
  store_invariant t'.
Proof.
  intros (Ho & Hk & Hf & Han & Hag & Hm & Hc). unfold db_second.insert_knowledge.
  destruct (db.fts_insert _ _) as [fts|] eqn:Hins; [|discriminate].
  intros H. injection H as <-.
  destruct (@fts_insert_Some _ _ _ Hins) as [-> Hfresh]. simpl in Hfresh.
  assert (Hnew : forall k, In k (db.knowledge t) ->
                           db.k_id k <> db.next_id (db.seq_knowledge t)
                                          (map db.k_id (db.knowledge t))).
  { intros k Hk0.
    assert (db.k_id k < db.next_id (db.seq_knowledge t)
                          (map db.k_id (db.knowledge t)))%Z
      by (apply next_id_above, in_map, Hk0).
    lia. }
  refine (conj _ (conj _ (conj _ (conj _ (conj _ (conj _ _)))))); simpl.
  - intros k Hk0. simpl in Hk0. apply in_app_or in Hk0.
    destruct Hk0 as [Hk0|[<-|[]]]; [apply Ho, Hk0|discriminate].
  - apply NoDup_map_snoc; [exact Hk|exact Hnew].
  - apply NoDup_map_snoc; [exact Hf|exact Hfresh].
  - intros f Hf0. simpl in *. apply in_app_or in Hf0.
    destruct Hf0 as [Hf0|[<-|[]]].
    + destruct (Han f Hf0) as (k & Hk0 & Hid). exists k.
      split; [apply in_or_app; left; exact Hk0|exact Hid].
    + eexists. split; [apply in_or_app; right; left; reflexivity|reflexivity].
  - intros f k Hf0 Hk0 Hid. simpl in *. apply in_app_or in Hf0, Hk0.
    destruct Hf0 as [Hf0|[<-|[]]], Hk0 as [Hk0|[<-|[]]]; simpl in *.
    + apply Hag; assumption.
    + exfalso. apply (Hfresh f Hf0). symmetry. exact Hid.
    + exfalso. apply (Hnew k Hk0). exact Hid.
    + reflexivity.
  - exact Hm.
  - exact Hc.
Qed.

Lemma second_SaveToKnowledgeBase_invariant
    (content : string) (c : Z) (d : db.Database) :
  store_invariant (db.tables d) ->
  store_invariant (db.tables (snd (db_second.SaveToKnowledgeBase content c d))).
Proof.
  intros Hinv. unfold db_second.SaveToKnowledgeBase, db.exec. simpl.
  destruct (db.engine d (db.issued d)); simpl; [|exact Hinv].
  destruct (db.engine d (S (db.issued d))); simpl; [|exact Hinv].
  destruct (db_second.insert_knowledge _ _ _ _) as [t2|] eqn:Hins; simpl;
    [|exact Hinv].
  destruct (db.engine d (S (S (db.issued d)))); simpl; [|exact Hinv].
  exact (@second_insert_knowledge_invariant _ _ _ _ _ Hinv Hins).
Qed.

(** The first copy rolls every save of a knowledge entry back. *)
Lemma first_SaveToKnowledgeBase_tables
    (content : string) (c : Z) (d : db.Database) :
  db.tables (snd (db.SaveToKnowledgeBase content c d)) = db.tables d.
Proof.
  unfold db.SaveToKnowledgeBase, db.exec. simpl.
  destruct (db.engine d (db.issued d)); simpl; [|reflexivity].
  destruct (db.engine d (S (db.issued d))); simpl; [|reflexivity].
  unfold db.insert_knowledge, db.fts_insert. simpl.
  destruct (existsb _ (db.knowledge_fts (db.tables d))); simpl; [reflexivity|].
  destruct (db.engine d (S (S (db.issued d)))); simpl; [|reflexivity].
  rewrite existsb_app. simpl. rewrite Z.eqb_refl, orb_true_r. reflexivity.
Qed.

Lemma second_SearchKnowledge_tables
    (fts_MATCH : string -> option (string -> bool)) (query : string)
    (d : db.Database) :
  db.tables (snd (db_second.SearchKnowledge fts_MATCH query d)) = db.tables d.
Proof.
  unfold db_second.SearchKnowledge, db.exec.
  destruct (db.engine d (db.issued d)); simpl; [|reflexivity].
  destruct (fts_MATCH query); [|reflexivity].
  destruct (db.scan_rows _ _); reflexivity.
Qed.

Lemma synced_invariant (t : db.Tables) :
  store_invariant t -> store_invariant (synced t).
Proof.
  intros (Ho & Hk & Hf & Han & Hag & Hm & Hc).
  refine (conj _ (conj _ (conj _ (conj _ (conj _ (conj _ _)))))).
  - exact Ho.
  - exact Hk.
  - apply synced_docids; assumption.
  - apply synced_anchored, Han.
  - apply synced_agrees; assumption.
  - exact Hm.
  - exact Hc.
Qed.

Lemma delete_invariant (id : Z) (t : db.Tables) :
  store_invariant t ->
  store_invariant (db.delete_conversation id
                     (db.delete_knowledge id (db.delete_messages id t))).
Proof.
  intros (Ho & Hk & Hf & Han & Hag & Hm & Hc).
  destruct (delete_knowledge_keeps_index id t) as (Han' & Hag' & _).
  refine (conj _ (conj _ (conj _ (conj _ (conj _ (conj _ _)))))).
  - intros k Hk0. simpl in Hk0. apply filter_In in Hk0. apply Ho, Hk0.
  - simpl. apply NoDup_map_filter, Hk.
  - simpl. apply NoDup_map_filter, Hf.
  - exact (Han' Han).
  - exact (Hag' Hag).
  - simpl. apply NoDup_map_filter, Hm.
  - simpl. apply NoDup_map_filter, Hc.
Qed.

Lemma perform_invariant
    (fts_MATCH : string -> option (string -> bool)) (second : bool)
    (c : store.call) (d : db.Database) :
  store_invariant (db.tables d) ->
  store_invariant (db.tables (store.perform fts_MATCH second c d)).
Proof.
  intros Hinv. destruct c; simpl.
  - apply SaveMessage_invariant, Hinv.
  - apply CreateConversation_invariant, Hinv.
  - destruct second.
    + apply second_SaveToKnowledgeBase_invariant, Hinv.
    + rewrite first_SaveToKnowledgeBase_tables. exact Hinv.
  - unfold db.GetConversationHistory, db.exec.
    destruct (db.engine d (db.issued d)); exact Hinv.
  - unfold db_conversations.GetConversations, db.exec.
    destruct (db.engine d (db.issued d)); exact Hinv.
  - destruct second.
    + rewrite second_SearchKnowledge_tables. exact Hinv.
    + rewrite SearchKnowledge_tables.
      destruct (db.engine d (db.issued d)); [|exact Hinv].
      destruct (db.engine d (S (db.issued d))); [|exact Hinv].
      apply synced_invariant, Hinv.
  - pose proof (@DeleteConversation_tables id d _ _
                  (surjective_pairing (db.DeleteConversation id d))) as Ht.
    rewrite Ht. destruct (fst (db.DeleteConversation id d)); [exact Hinv|].
    apply delete_invariant, Hinv.
  - apply UpdateConversationTitle_invariant, Hinv.
Qed.

(** X15: in every store that the server can hold, opened on a new file
    and used through the calls of the package, across restarts, no
    knowledge entry has a NULL [conversation_id], the identifiers of the
    messages, of the conversations, of the knowledge entries and of the
    index entries are distinct, and every index entry belongs to a
    knowledge row whose content it carries.  That the conversation of a
    knowledge entry exists is not maintained, see
    [knowledge_may_name_no_conversation]. *)
Theorem reachable_store_invariant
    (fts_MATCH : string -> option (string -> bool)) (second : bool)
    (d : db.Database) :
  store.reachable fts_MATCH second d -> store_invariant (db.tables d).
Proof.
  induction 1 as [engine d Hnew|c d _ IH|engine d d' _ IH Hnew].
  - exact (New_invariant _ Hnew empty_invariant).
  - apply perform_invariant, IH.
  - exact (New_invariant _ Hnew IH).
Qed.

Lemma reachable_store_invariant_witness :
  store_invariant (db.tables one_entry_store).
Proof.
  refine (@reachable_store_invariant Go.word_MATCH true one_entry_store _).
  unfold one_entry_store. apply store.reach_call.
  apply store.reach_new with (engine := fun _ => db.SqlOk 100).
  reflexivity.
Defined.

(** A store the server can hold in which a knowledge entry names a
    conversation that does not exist: the entry was saved for the
    conversation 1 on a new file, where no conversation was created. *)
Example knowledge_may_name_no_conversation :
  store.reachable Go.word_MATCH true one_entry_store /\
  map db.k_conversation_id (db.knowledge (db.tables one_entry_store)) = [Some 1%Z] /\
  db.conversations (db.tables one_entry_store) = [].
Proof.
  split; [|split; reflexivity].
  unfold one_entry_store. apply store.reach_call.
  apply store.reach_new with (engine := fun _ => db.SqlOk 100).
  reflexivity.
Qed.

(** X16: in the second copy, where the trigger alone indexes a new
    entry, a save commits whenever the engine runs its three statements
    and no index entry lacks its row: the entry receives an identifier
    greater than that of every row, and the index an entry of that
    identifier and content. *)
Theorem second_copy_save_commits
    (content : string) (c : Z) (d : db.Database) (a now b : Z) :
  index_anchored (db.tables d) ->
  db.engine d (db.issued d) = db.SqlOk a ->
  db.engine d (S (db.issued d)) = db.SqlOk now ->
  db.engine d (S (S (db.issued d))) = db.SqlOk b ->
  fst (db_second.SaveToKnowledgeBase content c d) = None /\
  exists id,
    (forall k, In k (db.knowledge (db.tables d)) -> (db.k_id k < id)%Z) /\
    db.knowledge (db.tables (snd (db_second.SaveToKnowledgeBase content c d))) =
      (db.knowledge (db.tables d) ++
         [{| db.k_id := id; db.k_content := content;
             db.k_conversation_id := Some c; db.k_created_at := now |}])%list /\
    db.knowledge_fts (db.tables (snd (db_second.SaveToKnowledgeBase content c d))) =
      (db.knowledge_fts (db.tables d) ++
         [{| db.docid := id; db.fts_content := content;
             db.fts_conversation_id := None |}])%list.
Proof.
  intros Han Ha Hnow Hb.
  assert (Hfresh : forall k, In k (db.knowledge (db.tables d)) ->
                             (db.k_id k < db.next_id (db.seq_knowledge (db.tables d))
                                            (map db.k_id (db.knowledge (db.tables d))))%Z).
  { intros k Hk. apply next_id_above, in_map, Hk. }
  unfold db_second.SaveToKnowledgeBase, db.exec. simpl.
  rewrite Ha. simpl. rewrite Hnow. simpl.
  unfold db_second.insert_knowledge. rewrite fts_insert_fresh.
  - simpl. rewrite Hb. simpl. split; [reflexivity|].
    eexists. split; [exact Hfresh|]. split; reflexivity.
  - intros f Hf. simpl. destruct (Han f Hf) as (k & Hk & <-).
    specialize (Hfresh k Hk). lia.
Qed.

Lemma second_copy_save_commits_witness :
  fst (db_second.SaveToKnowledgeBase "Rain is wet" 1
         (Go.healthy 100 Go.sky_tables)) = None.
Proof.
  refine (proj1 (@second_copy_save_commits "Rain is wet" 1
                   (Go.healthy 100 Go.sky_tables) 100 100 100 _ _ _ _)).
  - intros f Hf. simpl in Hf.
    destruct Hf as [<-|[<-|[]]]; eexists.
    + split; [simpl; left; reflexivity|reflexivity].
    + split; [simpl; right; left; reflexivity|reflexivity].
  - reflexivity.
  - reflexivity.
  - reflexivity.
Defined.

Lemma second_SaveToKnowledgeBase_success
    (content : string) (c : Z) (d d1 : db.Database) :
  db_second.SaveToKnowledgeBase content c d = (None, d1) ->
  exists id now,
    db.knowledge (db.tables d1) =
      (db.knowledge (db.tables d) ++
         [{| db.k_id := id; db.k_content := content;
             db.k_conversation_id := Some c; db.k_created_at := now |}])%list /\
    db.knowledge_fts (db.tables d1) =
      (db.knowledge_fts (db.tables d) ++
         [{| db.docid := id; db.fts_content := content;
             db.fts_conversation_id := None |}])%list.
Proof.
  unfold db_second.SaveToKnowledgeBase, db.exec. simpl.
  destruct (db.engine d (db.issued d)) as [a|]; simpl; [|discriminate].
  destruct (db.engine d (S (db.issued d))) as [now|]; simpl; [|discriminate].
  unfold db_second.insert_knowledge.
  destruct (db.fts_insert _ _) as [fts|] eqn:Hins; simpl; [|discriminate].
  destruct (db.engine d (S (S (db.issued d)))); simpl; [|discriminate].
  intros H. injection H as <-. simpl.
  destruct (@fts_insert_Some _ _ _ Hins) as [-> _].
  eexists. exists now. split; reflexivity.
Qed.

(** X17: in the second copy, an entry that was saved is found by the
    next search whose query selects its content, with its content and
    its conversation. *)
Theorem second_copy_saved_entry_is_found
    (fts_MATCH : string -> option (string -> bool))
    (content : string) (c : Z) (d d1 d2 : db.Database)
    (query : string) (selected : string -> bool)
    (results : list db.search_result) :
  db_second.SaveToKnowledgeBase content c d = (None, d1) ->
  db_second.SearchKnowledge fts_MATCH query d1 = (results, None, d2) ->
  fts_MATCH query = Some selected ->
  selected content = true ->
  exists r, In r results /\ db.sr_Content r = content /\ db.sr_ConversationID r = c.
Proof.
  intros Hsave Hsearch Hsel Hcontent.
  destruct (second_SaveToKnowledgeBase_success _ _ _ Hsave)
    as (id & now & Hk & Hf).
  revert Hsearch. unfold db_second.SearchKnowledge, db.exec.
  destruct (db.engine d1 (db.issued d1)); simpl; [|discriminate].
  rewrite Hsel.
  destruct (db.scan_rows _ _) as [res|] eqn:Hscan; [|discriminate].
  intros H. injection H as <- _.
  destruct (@scan_rows_Forall2 _ _ _ Hscan) as (new & -> & Hall). simpl app.
  set (row := {| db.k_id := id; db.k_content := content;
                 db.k_conversation_id := Some c; db.k_created_at := now |}) in *.
  destruct (@Forall2_In_l _ _ _ _ _ row Hall) as (r & Hr & Hc & Hcont & _).
  - apply (Permutation_in _ (order_by_desc_perm db.k_created_at _)).
    apply join_fts_In.
    exists {| db.docid := id; db.fts_content := content;
              db.fts_conversation_id := None |}.
    rewrite Hk, Hf. repeat split; try (apply in_or_app; right; left; reflexivity).
    exact Hcontent.
  - exists r. simpl in Hc, Hcont. injection Hc as Hc. repeat split; congruence.
Qed.

Lemma second_copy_saved_entry_is_found_witness :
  exists r,
    In r (fst (fst (db_second.SearchKnowledge Go.word_MATCH "rain"
                      (snd (db_second.SaveToKnowledgeBase "Rain is wet" 1
                              (Go.healthy 100 Go.sky_tables)))))) /\
    db.sr_Content r = "Rain is wet" /\ db.sr_ConversationID r = 1%Z.
Proof.
  refine (@second_copy_saved_entry_is_found Go.word_MATCH "Rain is wet" 1
            (Go.healthy 100 Go.sky_tables) _ _ "rain" _ _ _ _ _ _).
  - reflexivity.
  - reflexivity.
  - reflexivity.
  - reflexivity.
Defined.

Lemma selected_rows_joined (selected : string -> bool) (t : db.Tables)
    (k : db.knowledge_row) :
  NoDup (map db.k_id (db.knowledge t)) -> index_agrees t ->
  In k (db.knowledge t) -> selected (db.k_content k) = true ->
  In k (db.join_fts selected (synced t)).
Proof.
  intros Hnd Hag Hk Hsel.
  destruct (@synced_complete t k Hk) as (f & Hf & Hid).
  apply join_fts_In. exists f. repeat split; try assumption; [|congruence].
  rewrite (@synced_agrees t Hnd Hag f k Hf Hk (eq_sym Hid)). exact Hsel.
Qed.

(** X18: a restart keeps the rows and empties the index.  After it the
    search of the second copy, which reads the index as it is, returns no
    result whatever the query and the knowledge stored; the search of the
    first copy, which fills the index first, returns every entry whose
    content the query selects when it succeeds. *)
Theorem restart_empties_index
    (fts_MATCH : string -> option (string -> bool))
    (stored : db.Tables) (engine : nat -> db.sqlres) (d : db.Database)
    (query : string) :
  db_open.New stored engine = (Some d, None) ->
  db.knowledge (db.tables d) = db.knowledge stored /\
  db.messages (db.tables d) = db.messages stored /\
  db.conversations (db.tables d) = db.conversations stored /\
  db.knowledge_fts (db.tables d) = [] /\
  fst (fst (db_second.SearchKnowledge fts_MATCH query d)) = [] /\
  (forall selected results d' k,
      NoDup (map db.k_id (db.knowledge stored)) ->
      db.SearchKnowledge fts_MATCH query d = (results, None, d') ->
      fts_MATCH query = Some selected ->
      In k (db.knowledge stored) -> selected (db.k_content k) = true ->
      exists r, In r results /\ row_result k r).
Proof.
  unfold db_open.New. destruct (engine O); [|discriminate].
  intros H. injection H as <-. simpl.
  repeat (split; [reflexivity|]). split.
  - unfold db_second.SearchKnowledge, db.exec. simpl.
    destruct (engine 1%nat); simpl; [|reflexivity].
    destruct (fts_MATCH query); reflexivity.
  - intros selected results d' k Hnd Hsearch Hsel Hk Hksel.
    destruct (@SearchKnowledge_success fts_MATCH query _ _ _ Hsearch)
      as (selected' & Hsel' & _ & Hscan).
    destruct Hsel' as [Hsel'|[Hnone _]]; [|congruence].
    rewrite Hsel in Hsel'. injection Hsel' as <-.
    destruct (@scan_rows_Forall2 _ _ _ Hscan) as (new & -> & Hall). simpl app.
    apply (@Forall2_In_l _ _ _ _ _ _ Hall).
    apply (Permutation_in _ (order_by_desc_perm db.k_created_at _)).
    apply selected_rows_joined; simpl; try assumption.
    intros f k0 [].
Qed.

Lemma restart_empties_index_witness :
  fst (fst (db_second.SearchKnowledge Go.word_MATCH "sky"
              {| db.tables := db.with_fts [] Go.sky_tables;
                 db.engine := fun _ => db.SqlOk 100; db.issued := 1 |})) = [].
Proof.
  refine (proj1 (proj2 (proj2 (proj2 (proj2
            (@restart_empties_index Go.word_MATCH Go.sky_tables
               (fun _ => db.SqlOk 100) _ "sky" _)))))).
  reflexivity.
Defined.

(** ** The retrieval: the calls of the provider and the rows returned *)

Section Retrieval.
Import llm.
Variable fts_MATCH : string -> option (string -> bool).
Variable ParseFloat : string -> float64 * option error.
Variable sort_Slice : forall A : Type, (A -> A -> bool) -> list A -> list A.

(** A run of the loop that returns no error got a completion for the
    scoring prompt of every candidate. *)
Lemma score_results_answers (query : string) (candidates : list db.search_result) :
  forall (acc k : list KnowledgeSearchResult) (s s1 : Service),
    score_results ParseFloat query candidates acc s = (k, None, s1) ->
    forall (i : nat) (c : db.search_result),
      nth_error candidates i = Some c ->
      exists completion,
        llm s (List.length (prompts s) + i)
            (relevance_prompt query (db.sr_Content c)) = Completion completion.
Proof.
  induction candidates as [|c rest IH]; intros acc k s s1; simpl.
  - intros _ [|i] c H; discriminate H.
  - destruct (llm s (List.length (prompts s)) _) as [completion|err] eqn:Hllm;
      simpl; [|discriminate].
    intros H [|i] c0 Hi; simpl in Hi.
    + injection Hi as <-. exists completion. rewrite Nat.add_0_r. exact Hllm.
    + assert (Hrest : exists a s', score_results ParseFloat query rest a s' = (k, None, s1)
                                   /\ llm s' = llm s
                                   /\ prompts s' =
                                        (prompts s ++
                                           [relevance_prompt query (db.sr_Content c)])%list).
      { destruct (PrimFloat.ltb _ _); eexists _, _; (split; [exact H|]);
          split; reflexivity. }
      destruct Hrest as (a & s' & Hrun & Hl & Hp).
      destruct (IH _ _ _ _ Hrun i c0 Hi) as (completion0 & Hc).
      exists completion0. rewrite Hl, Hp, length_app in Hc. simpl in Hc.
      replace (List.length (prompts s) + S i)%nat
        with (List.length (prompts s) + 1 + i)%nat by lia.
      exact Hc.
Qed.

(** A run of the loop that returns an error stopped at the first
    candidate whose scoring call the provider failed: the calls before it
    got completions, no prompt was sent after it, and no result is
    returned. *)
Lemma score_results_failure (query : string) (candidates : list db.search_result) :
  forall (acc k : list KnowledgeSearchResult) (e : error) (s s1 : Service),
    score_results ParseFloat query candidates acc s = (k, Some e, s1) ->
    exists (i : nat) (c : db.search_result) (err : error),
      nth_error candidates i = Some c /\
      (forall j cj, (j < i)%nat -> nth_error candidates j = Some cj ->
                    exists completion,
                      llm s (List.length (prompts s) + j)
                          (relevance_prompt query (db.sr_Content cj)) =
                        Completion completion) /\
      llm s (List.length (prompts s) + i)
          (relevance_prompt query (db.sr_Content c)) = GenerationError err /\
      e = "failed to evaluate relevance: " ++ err /\
      prompts s1 =
        (prompts s ++ firstn (S i) (scoring_prompts query candidates))%list /\
      k = [].
Proof.
  induction candidates as [|c rest IH]; intros acc k e s s1; simpl;
    [discriminate|].
  destruct (llm s (List.length (prompts s)) _) as [completion|err] eqn:Hllm; simpl.
  - intros H.
    assert (Hrest : exists a s', score_results ParseFloat query rest a s' = (k, Some e, s1)
                                 /\ llm s' = llm s
                                 /\ prompts s' =
                                      (prompts s ++
                                         [relevance_prompt query (db.sr_Content c)])%list).
    { destruct (PrimFloat.ltb _ _); eexists _, _; (split; [exact H|]);
        split; reflexivity. }
    destruct Hrest as (a & s' & Hrun & Hl & Hp).
    destruct (IH _ _ _ _ _ Hrun) as (i & c0 & err & Hi & Hbefore & Hfail & He & Hsent & Hk).
    assert (Hshift : forall n : nat,
               (List.length (prompts s') + n = List.length (prompts s) + S n)%nat)
      by (intros n; rewrite Hp, length_app; simpl; lia).
    exists (S i), c0, err. rewrite Hl in Hfail, Hbefore.
    rewrite Hshift in Hfail.
    split; [exact Hi|]. split; [|split; [exact Hfail|split; [exact He|split; [|exact Hk]]]].
    + intros [|j] cj Hj Hcj; simpl in Hcj.
      * injection Hcj as <-. exists completion. rewrite Nat.add_0_r. exact Hllm.
      * destruct (Hbefore j cj ltac:(lia) Hcj) as (completion0 & Hc).
        exists completion0. rewrite Hshift in Hc. exact Hc.
    + rewrite Hsent, Hp, <- app_assoc. reflexivity.
  - intros H. injection H as <- <- <-.
    exists 0%nat, c, err. rewrite Nat.add_0_r.
    split; [reflexivity|]. split; [intros j cj Hj; lia|].
    split; [exact Hllm|]. split; [reflexivity|]. split; reflexivity.
Qed.

Lemma score_results_from (query : string) (candidates : list db.search_result) :
  forall (acc : list KnowledgeSearchResult) (s : Service)
         (r : KnowledgeSearchResult),
    In r (fst (fst (score_results ParseFloat query candidates acc s))) ->
    In r acc \/
    exists c, In c candidates /\ ResultContent r = db.sr_Content c /\
              ResultCreatedAt r = db.sr_CreatedAt c.
Proof.
  induction candidates as [|c rest IH]; intros acc s r; simpl; [tauto|].
  destruct (llm s (List.length (prompts s)) _) as [completion|err]; simpl;
    [|intros []].
  destruct (PrimFloat.ltb _ _); intros Hr; apply IH in Hr.
  - destruct Hr as [Hr|(c0 & Hc0 & Hr)].
    + apply in_app_or in Hr. destruct Hr as [Hr|[<-|[]]]; [left; exact Hr|].
      right. exists c. simpl. tauto.
    + right. exists c0. tauto.
  - destruct Hr as [Hr|(c0 & Hc0 & Hr)]; [left; exact Hr|].
    right. exists c0. tauto.
Qed.

Lemma score_results_length (query : string) (candidates : list db.search_result) :
  forall (acc : list KnowledgeSearchResult) (s : Service),
    (List.length (fst (fst (score_results ParseFloat query candidates acc s))) <=
     List.length acc + List.length candidates)%nat.
Proof.
  induction candidates as [|c rest IH]; intros acc s; simpl; [lia|].
  destruct (llm s (List.length (prompts s)) _) as [completion|err]; simpl; [|lia].
  destruct (PrimFloat.ltb _ _);
    match goal with
    | |- context [score_results _ _ rest ?a ?s1] => specialize (IH a s1)
    end; rewrite ?length_app in IH; simpl in IH; lia.
Qed.

(** X20: the retrieval calls the provider once for each candidate that
    the store returns, in the order of the candidates, each time with the
    scoring prompt of the query and of the content of the candidate.
    When it returns no error, every candidate got a completion and the
    prompts sent are those of all the candidates.  When it returns an
    error, it stopped at the first candidate whose call the provider
    failed: the calls before got completions, the prompt of that
    candidate is the last one sent, the error is that of the provider,
    and no result is returned.  It makes no call when the search of the
    store fails.  The calls leave the store as the search left it. *)
Theorem scoring_sends_one_prompt_per_candidate (query : string) (s : Service) :
  (forall candidates d,
      db.SearchKnowledge fts_MATCH query (db s) = (candidates, None, d) ->
      db (snd (SearchKnowledge fts_MATCH ParseFloat sort_Slice query s)) = d /\
      (snd (fst (SearchKnowledge fts_MATCH ParseFloat sort_Slice query s)) = None ->
       prompts (snd (SearchKnowledge fts_MATCH ParseFloat sort_Slice query s)) =
         (prompts s ++ scoring_prompts query candidates)%list /\
       forall i c, nth_error candidates i = Some c ->
                   exists completion,
                     llm s (List.length (prompts s) + i)
                         (relevance_prompt query (db.sr_Content c)) =
                       Completion completion) /\
      (forall e,
          snd (fst (SearchKnowledge fts_MATCH ParseFloat sort_Slice query s)) = Some e ->
          exists (i : nat) (c : db.search_result) (err : error),
            nth_error candidates i = Some c /\
            (forall j cj, (j < i)%nat -> nth_error candidates j = Some cj ->
                          exists completion,
                            llm s (List.length (prompts s) + j)
                                (relevance_prompt query (db.sr_Content cj)) =
                              Completion completion) /\
            llm s (List.length (prompts s) + i)
                (relevance_prompt query (db.sr_Content c)) = GenerationError err /\
            e = "failed to evaluate relevance: " ++ err /\
            prompts (snd (SearchKnowledge fts_MATCH ParseFloat sort_Slice query s)) =
              (prompts s ++ firstn (S i) (scoring_prompts query candidates))%list /\
            fst (fst (SearchKnowledge fts_MATCH ParseFloat sort_Slice query s)) = [])) /\
  (forall candidates e d,
      db.SearchKnowledge fts_MATCH query (db s) = (candidates, Some e, d) ->
      prompts (snd (SearchKnowledge fts_MATCH ParseFloat sort_Slice query s)) =
        prompts s).
Proof.
  split.
  - intros candidates d Hdb. unfold SearchKnowledge. rewrite Hdb.
    pose proof (score_results_db ParseFloat query candidates [] (with_db d s))
      as Hd.
    destruct (score_results ParseFloat query candidates [] (with_db d s))
      as [[scored [err|]] s1] eqn:Hloop; simpl in *.
    + split; [exact Hd|]. split; [discriminate|].
      intros e He. injection He as <-.
      destruct (@score_results_failure query candidates [] scored err
                  (with_db d s) s1 Hloop)
        as (i & c & err' & Hi & Hbefore & Hfail & He & Hsent & _).
      exists i, c, err'. simpl in *. repeat split; assumption.
    + split; [exact Hd|]. split; [|discriminate].
      intros _. split.
      * exact (proj1 (@score_results_scored ParseFloat query candidates []
                        scored (with_db d s) s1 Hloop)).
      * exact (@score_results_answers query candidates [] scored
                 (with_db d s) s1 Hloop).
  - intros candidates e d Hdb. unfold SearchKnowledge. rewrite Hdb. reflexivity.
Qed.

Hypothesis sort_Slice_contract : sort_contract sort_Slice.

(** X21: when the retrieval succeeds, every result carries the content
    and the time of a candidate of the store, hence of a knowledge row of
    the table, and the results are no more than the candidates. *)
Theorem retrieved_are_knowledge_rows
    (query : string) (s s1 : Service) (results : list KnowledgeSearchResult) :
  SearchKnowledge fts_MATCH ParseFloat sort_Slice query s = (results, None, s1) ->
  exists candidates d,
    db.SearchKnowledge fts_MATCH query (db s) = (candidates, None, d) /\
    (List.length results <= List.length candidates)%nat /\
    (forall r, In r results ->
               exists c, In c candidates /\ ResultContent r = db.sr_Content c /\
                         ResultCreatedAt r = db.sr_CreatedAt c) /\
    (forall r, In r results ->
               exists k, In k (db.knowledge (db.tables (db s))) /\
                         ResultContent r = db.k_content k /\
                         ResultCreatedAt r = db.k_created_at k).
Proof.
  unfold SearchKnowledge.
  destruct (db.SearchKnowledge fts_MATCH query (db s))
    as [[candidates [err|]] d] eqn:Hdb; [discriminate|].
  pose proof (score_results_from query candidates [] (with_db d s)) as Hfrom.
  pose proof (score_results_length query candidates [] (with_db d s)) as Hlen.
  destruct (score_results ParseFloat query candidates [] (with_db d s))
    as [[scored [err|]] s2]; [discriminate|].
  intros H. injection H as <- _. simpl in *.
  destruct (sort_Slice_contract by_relevance scored) as [Hperm _].
  assert (Hcand : forall r, In r (sort_Slice by_relevance scored) ->
                            exists c, In c candidates /\
                                      ResultContent r = db.sr_Content c /\
                                      ResultCreatedAt r = db.sr_CreatedAt c).
  { intros r Hr. apply (Permutation_in _ (Permutation_sym Hperm)) in Hr.
    destruct (Hfrom r Hr) as [[]|Hc]. exact Hc. }
  exists candidates, d. split; [reflexivity|].
  split; [rewrite <- (Permutation_length Hperm); exact Hlen|].
  split; [exact Hcand|].
  intros r Hr. destruct (Hcand r Hr) as (c & Hc & Hcontent & Htime).
  destruct (@SearchKnowledge_sound_rows fts_MATCH query (db s) d candidates Hdb c Hc)
    as (k & Hk & _ & Hkc & Hkt).
  exists k. split; [exact Hk|]. split; congruence.
Qed.

End Retrieval.

Lemma scoring_sends_one_prompt_per_candidate_witness :
  llm.prompts (snd (Go.SearchKnowledge "sky"
                      (Go.service ["0.5"; " 5 "] (Go.healthy 100 Go.sky_tables)))) =
    [llm.relevance_prompt "sky" "Sky diving is fun";
     llm.relevance_prompt "sky" "The sky is blue"].
Proof.
  refine (proj1 (proj1 (proj2 (proj1 (@scoring_sends_one_prompt_per_candidate
            Go.word_MATCH strconv.ParseFloat sort.Slice "sky"
            (Go.service ["0.5"; " 5 "] (Go.healthy 100 Go.sky_tables)))
            (fst (fst (db.SearchKnowledge Go.word_MATCH "sky"
                         (Go.healthy 100 Go.sky_tables))))
            (snd (db.SearchKnowledge Go.word_MATCH "sky"
                    (Go.healthy 100 Go.sky_tables))) _)) _)).
  - reflexivity.
  - vm_compute. reflexivity.
Defined.

(** The retrieval of two candidates by a provider that has one
    completion: the second call fails, both prompts were sent, and no
    result is returned. *)
Example scoring_stops_at_first_failure :
  Go.SearchKnowledge "sky" (Go.service ["0.5"] (Go.healthy 100 Go.sky_tables)) =
    ([], Some "failed to evaluate relevance: no more completions",
     {| llm.llm := Go.scripted ["0.5"];
        llm.prompts := [llm.relevance_prompt "sky" "Sky diving is fun";
                        llm.relevance_prompt "sky" "The sky is blue"];
        llm.db := snd (db.SearchKnowledge Go.word_MATCH "sky"
                         (Go.healthy 100 Go.sky_tables)) |}).
Proof. vm_compute. reflexivity. Qed.

Lemma retrieved_are_knowledge_rows_witness :
  exists candidates d,
    db.SearchKnowledge Go.word_MATCH "sky" (Go.healthy 100 Go.sky_tables) =
      (candidates, None, d) /\
    (List.length (fst (fst (Go.SearchKnowledge "sky"
                              (Go.service ["0.5"; " 5 "]
                                 (Go.healthy 100 Go.sky_tables))))) <=
     List.length candidates)%nat.
Proof.
  destruct (@retrieved_are_knowledge_rows Go.word_MATCH strconv.ParseFloat
              sort.Slice Slice_contract "sky"
              (Go.service ["0.5"; " 5 "] (Go.healthy 100 Go.sky_tables))
              _ _ eq_refl) as (candidates & d & Hdb & Hlen & _).
  exists candidates, d. split; [exact Hdb|exact Hlen].
Defined.

(** ** The dispatcher and the turn: what is saved *)

Lemma CreateConversation_rows (title : string) (d : db.Database) :
  db.messages (db.tables (snd (db.CreateConversation title d))) =
    db.messages (db.tables d) /\
  db.knowledge (db.tables (snd (db.CreateConversation title d))) =
    db.knowledge (db.tables d).
Proof.
  unfold db.CreateConversation, db.exec.
  destruct (db.engine d (db.issued d)); split; reflexivity.
Qed.

Lemma GetConversationHistory_tables (convID limit : Z) (d : db.Database) :
  db.tables (snd (db.GetConversationHistory convID limit d)) = db.tables d.
Proof.
  unfold db.GetConversationHistory, db.exec.
  destruct (db.engine d (db.issued d)); reflexivity.
Qed.

Section TurnEffects.
Import llm.
Variable fts_MATCH : string -> option (string -> bool).
Variable ParseFloat : string -> float64 * option error.
Variable sort_Slice : forall A : Type, (A -> A -> bool) -> list A -> list A.
Variable json_Unmarshal : string -> option LLMResponse.
Variable json_Unmarshal_map : string -> option (list (string * json.value)).

(** The last lines of the dispatcher save one assistant message, or
    nothing when the save fails. *)
Lemma save_response_effect (convID : Z) (content : string) (s : Service) :
  db.messages (db.tables (db (snd (save_response convID content s)))) =
    (db.messages (db.tables (db s)) ++ returned (fst (save_response convID content s)))%list /\
  db.knowledge (db.tables (db (snd (save_response convID content s)))) =
    db.knowledge (db.tables (db s)) /\
  db.conversations (db.tables (db (snd (save_response convID content s)))) =
    db.conversations (db.tables (db s)) /\
  (forall m, fst (save_response convID content s) = Return m ->
             models.ConvID m = convID /\ models.Role m = "assistant" /\
             models.Content m = content).
Proof.
  unfold save_response, db.SaveMessage, db.exec.
  destruct (db.engine (db s) (db.issued (db s))); simpl.
  - split; [reflexivity|]. split; [reflexivity|]. split; [reflexivity|].
    intros m H. injection H as <-. repeat split.
  - rewrite app_nil_r.
    split; [reflexivity|]. split; [reflexivity|]. split; [reflexivity|].
    intros m H. discriminate H.
Qed.

Lemma save_response_known (convID : Z) (content : string) (s : Service)
    (a : string) :
  fst (save_response convID content s) <> Failure ("unknown action: " ++ a).
Proof.
  unfold save_response.
  destruct (db.SaveMessage _ (db s)) as [[[e|] m] d]; simpl; intros H;
    discriminate H.
Qed.

(** X22: the dispatcher fails with [unknown action] exactly for the
    actions that are none of [reply], [store], [search] and
    [new_conversation], compared byte for byte; it then leaves the store
    and the provider untouched. *)
Theorem dispatch_fails_unknown_action
    (msg : models.Message) (r : LLMResponse) (s : Service) :
  (known_action (Action r) = false ->
   dispatch msg r s = (Failure ("unknown action: " ++ Action r), s)) /\
  (known_action (Action r) = true ->
   fst (dispatch msg r s) <> Failure ("unknown action: " ++ Action r)).
Proof.
  unfold known_action, dispatch.
  destruct (String.eqb (Action r) "reply").
  { split; [discriminate|]. intros _. apply save_response_known. }
  destruct (String.eqb (Action r) "store").
  { split; [discriminate|]. intros _.
    destruct (db.SaveToKnowledgeBase _ _ (db s)) as [e d].
    apply save_response_known. }
  destruct (String.eqb (Action r) "search").
  { split; [discriminate|]. intros _. apply save_response_known. }
  destruct (String.eqb (Action r) "new_conversation").
  { split; [discriminate|]. intros _.
    destruct (db.CreateConversation _ (db s)) as [[c [e|]] d].
    - simpl. intros H. discriminate H.
    - apply save_response_known. }
  split; [reflexivity|discriminate].
Qed.


(** What the dispatcher does to the tables: it adds the message it
    returns, and no knowledge. *)
Lemma dispatch_effect (msg : models.Message) (r : LLMResponse) (s : Service) :
  db.messages (db.tables (db (snd (dispatch msg r s)))) =
    (db.messages (db.tables (db s)) ++ returned (fst (dispatch msg r s)))%list /\
  db.knowledge (db.tables (db (snd (dispatch msg r s)))) =
    db.knowledge (db.tables (db s)) /\
  (forall m, fst (dispatch msg r s) = Return m ->
             models.Role m = "assistant" /\ models.Content m = Content r).
Proof.
  unfold dispatch.
  destruct (String.eqb (Action r) "reply").
  { destruct (save_response_effect (models.ConvID msg) (Content r) s)
      as (Hm & Hk & _ & Hret).
    split; [exact Hm|]. split; [exact Hk|].
    intros m H. exact (proj2 (Hret m H)). }
  destruct (String.eqb (Action r) "store").
  { pose proof (first_SaveToKnowledgeBase_tables
                  (store_content (store_info r)) (models.ConvID msg) (db s)) as Ht.
    destruct (db.SaveToKnowledgeBase _ _ (db s)) as [e d]. simpl in Ht.
    destruct (save_response_effect (models.ConvID msg) (Content r) (with_db d s))
      as (Hm & Hk & _ & Hret).
    simpl db in Hm, Hk. rewrite Ht in Hm, Hk.
    split; [exact Hm|]. split; [exact Hk|].
    intros m H. exact (proj2 (Hret m H)). }
  destruct (String.eqb (Action r) "search").
  { destruct (save_response_effect (models.ConvID msg) (Content r) s)
      as (Hm & Hk & _ & Hret).
    split; [exact Hm|]. split; [exact Hk|].
    intros m H. exact (proj2 (Hret m H)). }
  destruct (String.eqb (Action r) "new_conversation").
  { destruct (CreateConversation_rows (NewTitle r) (db s)) as [Hcm Hck].
    destruct (db.CreateConversation _ (db s)) as [[c [e|]] d]; simpl in Hcm, Hck.
    - simpl. rewrite app_nil_r.
      split; [exact Hcm|]. split; [exact Hck|]. intros m H. discriminate H.
    - destruct (save_response_effect (models.conv_ID c) (Content r) (with_db d s))
        as (Hm & Hk & _ & Hret).
      simpl db in Hm, Hk. rewrite Hcm in Hm. rewrite Hck in Hk.
      split; [exact Hm|]. split; [exact Hk|].
      intros m H. exact (proj2 (Hret m H)). }
  simpl. rewrite app_nil_r.
  split; [reflexivity|]. split; [reflexivity|]. intros m H. discriminate H.
Qed.

Lemma respond_effect (msg : models.Message)
    (knowledge : list KnowledgeSearchResult) (s : Service) :
  db.messages (db.tables (db (snd (respond json_Unmarshal json_Unmarshal_map
                                     msg knowledge s)))) =
    (db.messages (db.tables (db s)) ++
       returned (fst (respond json_Unmarshal json_Unmarshal_map msg knowledge s)))%list /\
  db.knowledge (db.tables (db (snd (respond json_Unmarshal json_Unmarshal_map
                                      msg knowledge s)))) =
    db.knowledge (db.tables (db s)) /\
  (forall m, fst (respond json_Unmarshal json_Unmarshal_map msg knowledge s)
               = Return m -> models.Role m = "assistant").
Proof.
  unfold respond.
  pose proof (GetConversationHistory_tables (models.ConvID msg) 10 (db s)) as Ht.
  destruct (db.GetConversationHistory (models.ConvID msg) 10 (db s))
    as [[history [err|]] d]; simpl in Ht.
  { simpl. rewrite Ht, app_nil_r.
    split; [reflexivity|]. split; [reflexivity|]. intros m H. discriminate H. }
  unfold GenerateFromSinglePrompt. simpl.
  destruct (llm s _ _) as [completion|err]; simpl.
  2:{ rewrite Ht, app_nil_r.
      split; [reflexivity|]. split; [reflexivity|]. intros m H. discriminate H. }
  destruct (interpret _ _ completion) as [r|e|p]; simpl.
  2:{ rewrite Ht, app_nil_r.
      split; [reflexivity|]. split; [reflexivity|]. intros m H. discriminate H. }
  2:{ rewrite Ht, app_nil_r.
      split; [reflexivity|]. split; [reflexivity|]. intros m H. discriminate H. }
  match goal with
  | |- context [dispatch msg r ?s1] =>
      destruct (dispatch_effect msg r s1) as (Hm & Hk & Hret)
  end.
  simpl db in Hm, Hk. rewrite Ht in Hm, Hk.
  split; [exact Hm|]. split; [exact Hk|].
  intros m H. exact (proj1 (Hret m H)).
Qed.

Lemma llm_SearchKnowledge_db (query : string) (s : Service) :
  db (snd (SearchKnowledge fts_MATCH ParseFloat sort_Slice query s)) =
    snd (db.SearchKnowledge fts_MATCH query (db s)).
Proof.
  unfold SearchKnowledge.
  destruct (db.SearchKnowledge fts_MATCH query (db s)) as [[candidates [err|]] d];
    simpl; [reflexivity|].
  pose proof (score_results_db ParseFloat query candidates [] (with_db d s)) as Hd.
  destruct (score_results ParseFloat query candidates [] (with_db d s))
    as [[scored [err|]] s1]; simpl in *; exact Hd.
Qed.

Lemma db_SearchKnowledge_rows (query : string) (d : db.Database) :
  db.messages (db.tables (snd (db.SearchKnowledge fts_MATCH query d))) =
    db.messages (db.tables d) /\
  db.knowledge (db.tables (snd (db.SearchKnowledge fts_MATCH query d))) =
    db.knowledge (db.tables d) /\
  db.conversations (db.tables (snd (db.SearchKnowledge fts_MATCH query d))) =
    db.conversations (db.tables d).
Proof.
  rewrite SearchKnowledge_tables.
  destruct (db.engine d (db.issued d)); [|repeat split].
  destruct (db.engine d (S (db.issued d))); repeat split.
Qed.

(** A turn is the retrieval, which changes no row, followed by the
    answer. *)
Lemma ProcessMessage_as_respond (msg : models.Message) (s : Service) :
  exists knowledge s1,
    ProcessMessage fts_MATCH ParseFloat sort_Slice json_Unmarshal json_Unmarshal_map
                   msg s =
      respond json_Unmarshal json_Unmarshal_map msg knowledge s1 /\
    db.messages (db.tables (db s1)) = db.messages (db.tables (db s)) /\
    db.knowledge (db.tables (db s1)) = db.knowledge (db.tables (db s)).
Proof.
  pose proof (llm_SearchKnowledge_db (models.Content msg) s) as Hdb.
  destruct (db_SearchKnowledge_rows (models.Content msg) (db s)) as (Hm & Hk & _).
  rewrite <- Hdb in Hm, Hk.
  unfold ProcessMessage.
  destruct (SearchKnowledge fts_MATCH ParseFloat sort_Slice (models.Content msg) s)
    as [[knowledge [err|]] s1]; simpl in Hm, Hk.
  - exists [], s1. repeat split; assumption.
  - exists knowledge, s1. repeat split; assumption.
Qed.

(** X24: a turn adds to the messages of the store exactly the message it
    returns, an assistant message, and nothing when it fails or panics;
    it never changes the knowledge table: the save of the [store] action
    is always rolled back. *)
Theorem ProcessMessage_saves_what_it_returns (msg : models.Message) (s : Service) :
  db.messages (db.tables (db (snd (ProcessMessage fts_MATCH ParseFloat sort_Slice
                                     json_Unmarshal json_Unmarshal_map msg s)))) =
    (db.messages (db.tables (db s)) ++
       returned (fst (ProcessMessage fts_MATCH ParseFloat sort_Slice
                        json_Unmarshal json_Unmarshal_map msg s)))%list /\
  db.knowledge (db.tables (db (snd (ProcessMessage fts_MATCH ParseFloat sort_Slice
                                      json_Unmarshal json_Unmarshal_map msg s)))) =
    db.knowledge (db.tables (db s)) /\
  (forall m, fst (ProcessMessage fts_MATCH ParseFloat sort_Slice
                    json_Unmarshal json_Unmarshal_map msg s) = Return m ->
             models.Role m = "assistant").
Proof.
  destruct (ProcessMessage_as_respond msg s) as (k & s1 & -> & Hm & Hk).
  destruct (respond_effect msg k s1) as (Hrm & Hrk & Hret).
  rewrite Hm in Hrm. rewrite Hk in Hrk.
  split; [exact Hrm|]. split; [exact Hrk|exact Hret].
Qed.

(** X25: the message endpoint saves the user message first.  When that
    fails it answers 500 without calling the provider or changing a
    table.  Otherwise the user message stays in the table whatever
    becomes of the turn, followed by the assistant message exactly when
    the answer carries one; the conversation the answer names is that of
    its message. *)
Theorem HandleMessage_keeps_user_message
    (convID : Z) (content : string) (s : Service) :
  (forall e m d,
      db.SaveMessage (user_message convID content) (db s) = (Some e, m, d) ->
      fst (api.HandleMessage fts_MATCH ParseFloat sort_Slice json_Unmarshal
             json_Unmarshal_map convID content s) =
        api.HttpError 500 ("Failed to save message: " ++ e) /\
      prompts (snd (api.HandleMessage fts_MATCH ParseFloat sort_Slice json_Unmarshal
                      json_Unmarshal_map convID content s)) = prompts s /\
      db.tables (db (snd (api.HandleMessage fts_MATCH ParseFloat sort_Slice
                            json_Unmarshal json_Unmarshal_map convID content s))) =
        db.tables (db s)) /\
  (forall userMsg d,
      db.SaveMessage (user_message convID content) (db s) = (None, userMsg, d) ->
      db.messages (db.tables (db (snd (api.HandleMessage fts_MATCH ParseFloat
                                         sort_Slice json_Unmarshal json_Unmarshal_map
                                         convID content s)))) =
        (db.messages (db.tables (db s)) ++
           userMsg :: answered (fst (api.HandleMessage fts_MATCH ParseFloat sort_Slice
                                       json_Unmarshal json_Unmarshal_map
                                       convID content s)))%list /\
      (forall body,
          fst (api.HandleMessage fts_MATCH ParseFloat sort_Slice json_Unmarshal
                 json_Unmarshal_map convID content s) = api.HttpOK body ->
          api.NewConversationID body = models.ConvID (api.Message body) /\
          models.Role (api.Message body) = "assistant")).
Proof.
  unfold api.HandleMessage. fold (user_message convID content). split.
  - intros e m d Hsave. rewrite Hsave. simpl.
    split; [reflexivity|]. split; [reflexivity|].
    revert Hsave. unfold db.SaveMessage, db.exec.
    destruct (db.engine (db s) (db.issued (db s))); [discriminate|].
    intros H. inversion H. reflexivity.
  - intros userMsg d Hsave. rewrite Hsave.
    assert (Hd : db.messages (db.tables d) =
                 (db.messages (db.tables (db s)) ++ [userMsg])%list).
    { revert Hsave. unfold db.SaveMessage, db.exec.
      destruct (db.engine (db s) (db.issued (db s))); [|discriminate].
      intros H. injection H as <- <-. reflexivity. }
    destruct (ProcessMessage_as_respond userMsg (with_db d s))
      as (k & s1 & -> & Hm1 & _).
    destruct (respond_effect userMsg k s1) as (Hrm & _ & Hret).
    simpl db in Hm1. rewrite Hm1, Hd, <- app_assoc in Hrm. simpl in Hrm.
    destruct (respond json_Unmarshal json_Unmarshal_map userMsg k s1)
      as [[m|e|p] s2]; simpl in *; (split; [exact Hrm|]); intros body Hbody;
      try discriminate Hbody.
    injection Hbody as <-. simpl. split; [reflexivity|]. apply Hret. reflexivity.
Qed.

End TurnEffects.

Lemma dispatch_fails_unknown_action_witness :
  llm.dispatch (user_message 1 "hello") capital_reply
    (Go.service [] (Go.healthy 100 Go.sky_tables)) =
  (llm.Failure "unknown action: Reply",
   Go.service [] (Go.healthy 100 Go.sky_tables)).
Proof.
  refine (proj1 (@dispatch_fails_unknown_action (user_message 1 "hello")
                   capital_reply (Go.service [] (Go.healthy 100 Go.sky_tables))) _).
  reflexivity.
Defined.


Lemma HandleMessage_keeps_user_message_witness :
  fst (Go.HandleMessage 1 "hello" (Go.reply_service Go.begin_fails)) =
    api.HttpError 500 "Failed to save message: database is locked".
Proof.
  refine (proj1 (proj1 (@HandleMessage_keeps_user_message
                          Go.word_MATCH strconv.ParseFloat sort.Slice
                          llm.Unmarshal_LLMResponse json.Unmarshal_map
                          1 "hello" (Go.reply_service Go.begin_fails))
                   "database is locked" _ _ _)).
  reflexivity.
Defined.

(** ** The knowledge entry of a [store] action *)

Lemma nth_firstn_below (A : Type) (d : A) (l : list A) :
  forall i n : nat, (i < n)%nat -> nth i (firstn n l) d = nth i l d.
Proof.
  induction l as [|x l IH]; intros i n Hi.
  - rewrite firstn_nil. reflexivity.
  - destruct n as [|n]; [lia|]. destruct i as [|i]; simpl; [reflexivity|].
    apply IH. lia.
Qed.

(** X26: the bot responses beyond the number of user inputs take no
    part in the knowledge entry of a [store] action: the entry is that of
    the responses cut to the number of the inputs, and with no user input
    it is the heading alone. *)
Theorem surplus_bot_responses_ignored (inputs responses : list string) :
  llm.store_content {| llm.UserInput := inputs; llm.BotResponse := responses |} =
    llm.store_content {| llm.UserInput := inputs;
                         llm.BotResponse := firstn (List.length inputs) responses |} /\
  llm.store_content {| llm.UserInput := []; llm.BotResponse := responses |} =
    "Knowledge Entry:" ++ llm.nl.
Proof.
  split; [|reflexivity].
  unfold llm.store_content. rewrite !store_loop_blocks.
  cbn [llm.UserInput llm.BotResponse].
  f_equal. f_equal. apply map_ext_in. intros i Hi. apply in_seq in Hi.
  unfold knowledge_block. cbn [llm.UserInput llm.BotResponse].
  rewrite length_firstn, nth_firstn_below by lia.
  destruct (Nat.ltb_spec i (List.length responses)) as [Hlt|Hge];
    destruct (Nat.ltb_spec i (Nat.min (List.length inputs) (List.length responses)));
    try reflexivity; lia.
Qed.

(** ** The interpreter: what it leaves of the response *)

Section InterpreterFields.
Import llm.
Variable json_Unmarshal : string -> option LLMResponse.
Variable json_Unmarshal_map : string -> option (list (string * json.value)).

(** X27: the interpreter changes the content alone: when the completion
    decodes, the action, the store information and the new title of the
    response are those decoded, whatever the content held; and the
    interpreter never returns an error, it returns a response or
    panics. *)
Theorem interpret_alters_content_only (completion : string) (r0 r : LLMResponse) :
  json_Unmarshal completion = Some r0 ->
  interpret json_Unmarshal json_Unmarshal_map completion = Return r ->
  (Action r = Action r0 /\ store_info r = store_info r0 /\
   NewTitle r = NewTitle r0) /\
  (forall c e, interpret json_Unmarshal json_Unmarshal_map c <> Failure e).
Proof.
  intros Hdec Hint. split.
  - revert Hint. unfold interpret, parse_response. rewrite Hdec.
    assert (Hclean : forall x : LLMResponse,
               Action x = Action r0 -> store_info x = store_info r0 ->
               NewTitle x = NewTitle r0 -> clean_up x = Return r ->
               Action r = Action r0 /\ store_info r = store_info r0 /\
               NewTitle r = NewTitle r0).
    { intros x Ha Hs Hn. unfold clean_up.
      destruct (HasPrefix _ dquote && HasSuffix _ dquote).
      - destruct (slice _ _ _); [|discriminate].
        intros H. injection H as <-. simpl. tauto.
      - intros H. injection H as <-. simpl. tauto. }
    destruct (HasPrefix (Content r0) "{" || HasPrefix (Content r0) "[");
      [|apply Hclean; reflexivity].
    destruct (json_Unmarshal_map (Content r0)) as [rawJSON|];
      [|apply Hclean; reflexivity].
    destruct (json.lookup "content" rawJSON) as [[]|];
      apply Hclean; reflexivity.
  - intros c e. unfold interpret, clean_up.
    destruct (HasPrefix _ dquote && HasSuffix _ dquote); [|discriminate].
    destruct (slice _ _ _); discriminate.
Qed.

End InterpreterFields.

Lemma interpret_alters_content_only_witness :
  llm.Action (match Go.interpret (Go.completion_of "store" "  Noted. ") with
              | llm.Return r => r
              | _ => llm.zero_LLMResponse
              end) = "store".
Proof.
  refine (proj1 (proj1 (@interpret_alters_content_only
                          llm.Unmarshal_LLMResponse json.Unmarshal_map
                          (Go.completion_of "store" "  Noted. ")
                          {| llm.Action := "store"; llm.Content := "  Noted. ";
                             llm.store_info := {| llm.UserInput := [];
                                                  llm.BotResponse := [] |};
                             llm.NewTitle := EmptyString |} _ _ _))).
  - vm_compute. reflexivity.
  - vm_compute. reflexivity.
Defined.

(** ** The endpoints *)

Section Endpoints.
Import llm.
Variable fts_MATCH : string -> option (string -> bool).
Variable ParseFloat : string -> float64 * option error.
Variable sort_Slice : forall A : Type, (A -> A -> bool) -> list A -> list A.
Variable json_Unmarshal : string -> option LLMResponse.
Variable json_Unmarshal_map : string -> option (list (string * json.value)).
Variable decode_content : string -> option string.
Variable decode_title : string -> option string.

Lemma api_HandleMessage_status (convID : Z) (content : string) (s : Service)
    (status : Z) (text : string) :
  fst (api.HandleMessage fts_MATCH ParseFloat sort_Slice json_Unmarshal
         json_Unmarshal_map convID content s) = api.HttpError status text ->
  status = 500%Z.
Proof.
  unfold api.HandleMessage.
  destruct (db.SaveMessage _ (db s)) as [[[e|] m] d]; simpl.
  - intros H. injection H as <- _. reflexivity.
  - destruct (ProcessMessage _ _ _ _ _ m (with_db d s)) as [[m'|e|p] s1]; simpl;
      intros H; try discriminate H.
    injection H as <- _. reflexivity.
Qed.

(** X28: on every route, an answer with the status 400 or 405 comes from
    a handler that has changed nothing: neither a table, nor the
    statements issued, nor the prompts sent. *)
Theorem client_errors_change_nothing
    (path : string) (h : handlers.Request -> Service -> handlers.served * Service)
    (r : handlers.Request) (s : Service) :
  handlers.route fts_MATCH ParseFloat sort_Slice json_Unmarshal json_Unmarshal_map
                 decode_content decode_title path = Some h ->
  status_of (fst (h r s)) = Some 400%Z \/ status_of (fst (h r s)) = Some 405%Z ->
  snd (h r s) = s.
Proof.
  unfold handlers.route.
  destruct (String.eqb path "/api/message").
  { intros H. injection H as <-. unfold handlers.HandleMessage.
    destruct (negb (String.eqb (handlers.Method r) "POST")); [reflexivity|].
    destruct (strconv_int.ParseInt (handlers.conversation_id r)) as [convID|];
      [|reflexivity].
    destruct (decode_content (handlers.Body r)) as [content|]; [|reflexivity].
    pose proof (@api_HandleMessage_status convID content s) as Hst.
    destruct (api.HandleMessage _ _ _ _ _ convID content s)
      as [[status text|body|p] s1]; simpl in *.
    - rewrite (Hst status text eq_refl). intros [H|H]; discriminate H.
    - intros [H|H]; discriminate H.
    - intros [H|H]; discriminate H. }
  destruct (String.eqb path "/api/conversations").
  { intros H. injection H as <-. unfold handlers.GetConversations.
    destruct (String.eqb (handlers.Method r) "GET").
    { destruct (db_conversations.GetConversations (db s)) as [[l [e|]] d]; simpl;
        intros [H|H]; discriminate H. }
    destruct (String.eqb (handlers.Method r) "POST"); [|reflexivity].
    destruct (decode_title (handlers.Body r)) as [title|]; [|reflexivity].
    destruct (db.CreateConversation title (db s)) as [[c [e|]] d]; simpl;
      intros [H|H]; discriminate H. }
  destruct (String.eqb path "/api/messages").
  { intros H. injection H as <-. unfold handlers.GetMessages.
    destruct (negb (String.eqb (handlers.Method r) "GET")); [reflexivity|].
    destruct (strconv_int.ParseInt (handlers.conversation_id r)) as [convID|];
      [|reflexivity].
    destruct (db.GetConversationHistory convID 50 (db s)) as [[l [e|]] d]; simpl;
      intros [H|H]; discriminate H. }
  destruct (String.eqb path "/api/knowledge/search").
  { intros H. injection H as <-. unfold handlers.SearchKnowledge.
    destruct (negb (String.eqb (handlers.Method r) "GET")); [reflexivity|].
    destruct (String.eqb (handlers.q r) EmptyString); [reflexivity|].
    destruct (SearchKnowledge _ _ _ (handlers.q r) s) as [[l [e|]] s1]; simpl;
      intros [H|H]; discriminate H. }
  destruct (String.eqb path "/api/conversations/delete").
  { intros H. injection H as <-. unfold handlers.DeleteConversation.
    destruct (negb (String.eqb (handlers.Method r) "DELETE")); [reflexivity|].
    destruct (strconv_int.ParseInt (handlers.conversation_id r)) as [convID|];
      [|reflexivity].
    destruct (db.DeleteConversation convID (db s)) as [[e|] d]; simpl;
      intros [H|H]; discriminate H. }
  destruct (String.eqb path "/api/conversations/update"); [|discriminate].
  intros H. injection H as <-. unfold handlers.UpdateConversation.
  destruct (negb (String.eqb (handlers.Method r) "PUT")); [reflexivity|].
  destruct (strconv_int.ParseInt (handlers.conversation_id r)) as [convID|];
    [|reflexivity].
  destruct (decode_title (handlers.Body r)) as [title|]; [|reflexivity].
  destruct (db.UpdateConversationTitle convID title (db s)) as [[e|] d]; simpl;
    intros [H|H]; discriminate H.
Qed.

(** X29: on every route, a GET request leaves the conversations, the
    messages and the knowledge entries as they are.  On every route but
    that of the search it leaves all the tables as they are, the index
    included; the search changes the index alone, and only by bringing it
    up to date. *)
Theorem GET_requests_keep_rows
    (path : string) (h : handlers.Request -> Service -> handlers.served * Service)
    (r : handlers.Request) (s : Service) :
  handlers.route fts_MATCH ParseFloat sort_Slice json_Unmarshal json_Unmarshal_map
                 decode_content decode_title path = Some h ->
  handlers.Method r = "GET" ->
  (String.eqb path "/api/knowledge/search" = false ->
   db.tables (db (snd (h r s))) = db.tables (db s)) /\
  (db.tables (db (snd (h r s))) = db.tables (db s) \/
   db.tables (db (snd (h r s))) = synced (db.tables (db s))) /\
  db.conversations (db.tables (db (snd (h r s)))) =
    db.conversations (db.tables (db s)) /\
  db.messages (db.tables (db (snd (h r s)))) = db.messages (db.tables (db s)) /\
  db.knowledge (db.tables (db (snd (h r s)))) = db.knowledge (db.tables (db s)).
Proof.
  intros Hroute Hget.
  assert (Hmain : (String.eqb path "/api/knowledge/search" = false ->
                   db.tables (db (snd (h r s))) = db.tables (db s)) /\
                  (db.tables (db (snd (h r s))) = db.tables (db s) \/
                   db.tables (db (snd (h r s))) = synced (db.tables (db s)))).
  { revert Hroute. unfold handlers.route.
    destruct (String.eqb path "/api/message").
    { intros H. injection H as <-. unfold handlers.HandleMessage. rewrite Hget.
      simpl. split; [reflexivity|left; reflexivity]. }
    destruct (String.eqb path "/api/conversations").
    { intros H. injection H as <-. unfold handlers.GetConversations. rewrite Hget.
      simpl. unfold db_conversations.GetConversations, db.exec.
      destruct (db.engine (db s) (db.issued (db s))); simpl;
        (split; [reflexivity|left; reflexivity]). }
    destruct (String.eqb path "/api/messages").
    { intros H. injection H as <-. unfold handlers.GetMessages. rewrite Hget. simpl.
      destruct (strconv_int.ParseInt (handlers.conversation_id r)) as [convID|];
        [|split; [reflexivity|left; reflexivity]].
      pose proof (GetConversationHistory_tables convID 50 (db s)) as Ht.
      destruct (db.GetConversationHistory convID 50 (db s)) as [[l [e|]] d];
        simpl in *; rewrite Ht; (split; [reflexivity|left; reflexivity]). }
    destruct (String.eqb path "/api/knowledge/search").
    { intros H. injection H as <-. split; [discriminate|].
      unfold handlers.SearchKnowledge. rewrite Hget. simpl.
      destruct (String.eqb (handlers.q r) EmptyString); [left; reflexivity|].
      pose proof (llm_SearchKnowledge_db fts_MATCH ParseFloat sort_Slice
                    (handlers.q r) s) as Hdb.
      pose proof (SearchKnowledge_tables fts_MATCH (handlers.q r) (db s)) as Ht.
      rewrite <- Hdb in Ht.
      destruct (SearchKnowledge _ _ _ (handlers.q r) s) as [[l [e|]] s1];
        simpl in *; rewrite Ht;
        destruct (db.engine (db s) (db.issued (db s)));
        try (left; reflexivity);
        destruct (db.engine (db s) (S (db.issued (db s))));
        first [left; reflexivity | right; reflexivity]. }
    destruct (String.eqb path "/api/conversations/delete").
    { intros H. injection H as <-. unfold handlers.DeleteConversation. rewrite Hget.
      simpl. split; [reflexivity|left; reflexivity]. }
    destruct (String.eqb path "/api/conversations/update"); [|discriminate].
    intros H. injection H as <-. unfold handlers.UpdateConversation. rewrite Hget.
    simpl. split; [reflexivity|left; reflexivity]. }
  destruct Hmain as [Hother Hall].
  split; [exact Hother|]. split; [exact Hall|].
  destruct Hall as [-> | ->]; repeat split.
Qed.

(** X30: once the deletion endpoint has answered 200 for a conversation,
    the list endpoint, when it answers, lists no conversation of that
    identifier, and the messages endpoint returns no message for it. *)
Theorem deleted_conversation_not_served
    (r r' : handlers.Request) (s s1 : Service) (id : Z) (p : handlers.payload) :
  handlers.DeleteConversation r s =
    (handlers.Served {| handlers.Status := 200; handlers.Payload := p |}, s1) ->
  strconv_int.ParseInt (handlers.conversation_id r) = Some id ->
  handlers.Method r' = "GET" ->
  (forall l s2,
      handlers.GetConversations decode_title r' s1 =
        (handlers.OK (handlers.ConversationsBody l), s2) ->
      forall c, In c l -> models.conv_ID c <> id) /\
  (forall l s2,
      handlers.conversation_id r' = handlers.conversation_id r ->
      handlers.GetMessages r' s1 = (handlers.OK (handlers.MessagesBody l), s2) ->
      l = []).
Proof.
  unfold handlers.DeleteConversation. intros Hdel Hid Hget.
  destruct (negb (String.eqb (handlers.Method r) "DELETE")); [discriminate|].
  rewrite Hid in Hdel.
  destruct (db.DeleteConversation id (db s)) as [[e|] d] eqn:Hdb; [discriminate|].
  injection Hdel as _ <-.
  pose proof (@DeleteConversation_tables id (db s) _ _ Hdb) as Ht. simpl in Ht.
  split.
  - intros l s2. unfold handlers.GetConversations. rewrite Hget. simpl.
    unfold db_conversations.GetConversations, db.exec.
    destruct (db.engine d (db.issued d)); simpl; [|discriminate].
    intros H. injection H as <- _. intros c Hc.
    apply (Permutation_in _ (Permutation_sym
             (order_by_desc_perm models.conv_CreatedAt _))) in Hc.
    rewrite Ht in Hc. simpl in Hc. apply filter_In in Hc. destruct Hc as [_ Hc].
    apply negb_true_iff, Z.eqb_neq in Hc. exact Hc.
  - intros l s2 Hsame. unfold handlers.GetMessages. rewrite Hget, Hsame, Hid. simpl.
    unfold db.GetConversationHistory, db.exec.
    destruct (db.engine d (db.issued d)); simpl; [|discriminate].
    intros H. injection H as <- _. rewrite Ht. simpl.
    rewrite filter_none; [reflexivity|].
    intros m Hm. apply filter_In in Hm. destruct Hm as [_ Hm].
    apply negb_true_iff in Hm. exact Hm.
Qed.

End Endpoints.

Lemma client_errors_change_nothing_witness :
  snd (handlers.GetMessages (get_request "abc" EmptyString)
         (Go.reply_service (Go.healthy 100 Go.sky_tables))) =
    Go.reply_service (Go.healthy 100 Go.sky_tables).
Proof.
  refine (@client_errors_change_nothing
            Go.word_MATCH strconv.ParseFloat sort.Slice
            llm.Unmarshal_LLMResponse json.Unmarshal_map
            (decode_request_field "content") (decode_request_field "title")
            "/api/messages" _ (get_request "abc" EmptyString)
            (Go.reply_service (Go.healthy 100 Go.sky_tables)) _ _).
  - reflexivity.
  - left. reflexivity.
Defined.

Lemma GET_requests_keep_rows_witness :
  db.tables
    (llm.db (snd (handlers.GetMessages (get_request "1" EmptyString)
                    (Go.service [] (Go.healthy 100 Go.sky_tables))))) =
    db.tables (llm.db (Go.service [] (Go.healthy 100 Go.sky_tables))).
Proof.
  refine (proj1 (@GET_requests_keep_rows
            Go.word_MATCH strconv.ParseFloat sort.Slice
            llm.Unmarshal_LLMResponse json.Unmarshal_map
            (decode_request_field "content") (decode_request_field "title")
            "/api/messages" _ (get_request "1" EmptyString)
            (Go.service [] (Go.healthy 100 Go.sky_tables)) _ _) _).
  - reflexivity.
  - reflexivity.
  - reflexivity.
Defined.

Lemma deleted_conversation_not_served_witness :
  fst (fst (db.GetConversationHistory 1 50
              (llm.db (snd (handlers.DeleteConversation (delete_request "1")
                              (Go.service [] (Go.healthy 100 Go.sky_tables))))))) = [].
Proof.
  refine (proj2 (@deleted_conversation_not_served
                   (decode_request_field "title")
                   (delete_request "1") (get_request "1" EmptyString)
                   (Go.service [] (Go.healthy 100 Go.sky_tables)) _ 1
                   handlers.NoBody _ _ _) _ _ _ _).
  - reflexivity.
  - reflexivity.
  - reflexivity.
  - reflexivity.
  - reflexivity.
Defined.
